(** * GetSync: task-timer accounting and the workspace file library

    A shallow embedding of two groups of backend services, with the
    properties of the specification proved about them:
    - the timer services [ensureTaskTimerAccess], [startTaskTimerService],
      [stopTaskTimerService] and [stopAllRunningTaskTimersService], which
      the controller imports from [services/task.service] (lines 951-1113
      of [backend/src/services/file-library.service.ts]);
    - the file library, [listWorkspaceFilesService] to
      [deleteWorkspaceItemService] (lines 12-258 of the same file).

    Conventions of the embedding.
    - A JavaScript [number] that holds a count of milliseconds, seconds,
      minutes or pages is a [Z]; [Math.floor (x / k)] on such numbers is
      [x / k] in [Z] (floor division), [Math.max] is [Z.max].
    - A [Date] is its [getTime ()] value, a [Z] of milliseconds.
    - A field that may be [null] or [undefined] is an [option]; [a ?? b]
      is a match on [None]; a [Date] object is always truthy, so
      [!task.activeStartAt] is the test for [None].
    - An [async] function is a computation in a state-and-exception monad
      over the collections (or the disk) it reads and writes; every
      [await] is a bind. A thrown exception leaves the state as it was at
      the throw.
    - An [ObjectId] is its hexadecimal string. *)

From Stdlib Require Import ZArith Ascii String List Lia Bool.
From stdpp Require Import gmap strings list fin_maps.

Local Open Scope string_scope.
Local Open Scope Z_scope.
Local Open Scope list_scope.

(** ** Exceptions ([utils/appError], [config/http.config]) *)

Inductive HTTPSTATUS : Set :=
  | BAD_REQUEST
  | UNAUTHORIZED
  | NOT_FOUND
  | CONFLICT
  | INTERNAL_SERVER_ERROR.

(** Node's error codes of the [fs] calls the file library makes. *)
Inductive Errno : Set := EEXIST | ENOENT | ENOTDIR | EISDIR.

Inductive Exception : Set :=
  | HttpException (message : string) (statusCode : HTTPSTATUS)
  | ErrnoException (code : Errno).

Definition BadRequestException (message : string) : Exception :=
  HttpException message BAD_REQUEST.
Definition UnauthorizedException (message : string) : Exception :=
  HttpException message UNAUTHORIZED.
Definition NotFoundException (message : string) : Exception :=
  HttpException message NOT_FOUND.

(** The class of an exception, as the error taxonomy names it. *)
Definition statusOf (e : Exception) : option HTTPSTATUS :=
  match e with
  | HttpException _ c => Some c
  | ErrnoException _ => None
  end.

(** ** The monad of the services *)

Inductive Outcome (A : Type) : Type :=
  | Return (a : A)
  | Throw (e : Exception).
Arguments Return {A} a.
Arguments Throw {A} e.

Definition Eff (S A : Type) : Type := S -> Outcome A * S.

Definition ret {S A : Type} (a : A) : Eff S A := fun s => (Return a, s).

Definition throw {S A : Type} (e : Exception) : Eff S A :=
  fun s => (Throw e, s).

Definition bind {S A B : Type} (m : Eff S A) (k : A -> Eff S B) : Eff S B :=
  fun s =>
    match m s with
    | (Return a, s') => k a s'
    | (Throw e, s') => (Throw e, s')
    end.

Definition gets {S A : Type} (f : S -> A) : Eff S A :=
  fun s => (Return (f s), s).

Definition modify {S : Type} (f : S -> S) : Eff S unit :=
  fun s => (Return tt, f s).

Definition liftOutcome {S A : Type} (o : Outcome A) : Eff S A :=
  fun s => (o, s).

Notation "'let*' x ':=' m 'in' k" := (bind m (fun x => k))
  (at level 10, x pattern, m at level 100, k at level 200).

(** [await Promise.all (xs.map (async x => ...))], run in list order. *)
Fixpoint forEach {S A : Type} (f : A -> Eff S unit) (xs : list A)
  : Eff S unit :=
  match xs with
  | [] => ret tt
  | x :: xs' => let* _ := f x in forEach f xs'
  end.

(** ** Tasks and work-logs
    ([models/task.model], [models/task-work-log.model]) *)

(** The fields of a task document that the timer services read or write.
    The document's [_id] is its key in the collection. *)
Record Task : Type := {
  workspace : string;
  assignedTo : option string;
  createdBy : option string;
  isRunning : bool;
  firstStartedAt : option Z;
  activeStartAt : option Z;
  lastStoppedAt : option Z;
  totalSecondsSpent : option Z;
  totalMinutesSpent : option Z;
  pagesCompleted : option Z;
  remarks : option string;
}.

Record TaskWorkLog : Type := {
  log_taskId : string;
  log_userId : string;
  log_startedAt : Z;
  log_stoppedAt : Z;
  log_durationMinutes : Z;
  log_pagesCompleted : option Z;
  log_remarks : option string;
}.

(** The body of [POST /tasks/:id/timer/stop], after [stopTaskTimerSchema]. *)
Record StopBody : Type := {
  body_pagesCompleted : option Z;
  body_remarks : option string;
}.

(** The two collections the timer services touch. *)
Record Db : Type := {
  tasks : gmap string Task;
  workLogs : list TaskWorkLog;
}.

(** Assignments [task.f = v] on a fetched document. *)
Definition set_isRunning (v : bool) (t : Task) : Task :=
  {| workspace := workspace t; assignedTo := assignedTo t;
     createdBy := createdBy t; isRunning := v;
     firstStartedAt := firstStartedAt t; activeStartAt := activeStartAt t;
     lastStoppedAt := lastStoppedAt t;
     totalSecondsSpent := totalSecondsSpent t;
     totalMinutesSpent := totalMinutesSpent t;
     pagesCompleted := pagesCompleted t; remarks := remarks t |}.

Definition set_firstStartedAt (v : option Z) (t : Task) : Task :=
  {| workspace := workspace t; assignedTo := assignedTo t;
     createdBy := createdBy t; isRunning := isRunning t;
     firstStartedAt := v; activeStartAt := activeStartAt t;
     lastStoppedAt := lastStoppedAt t;
     totalSecondsSpent := totalSecondsSpent t;
     totalMinutesSpent := totalMinutesSpent t;
     pagesCompleted := pagesCompleted t; remarks := remarks t |}.

Definition set_activeStartAt (v : option Z) (t : Task) : Task :=
  {| workspace := workspace t; assignedTo := assignedTo t;
     createdBy := createdBy t; isRunning := isRunning t;
     firstStartedAt := firstStartedAt t; activeStartAt := v;
     lastStoppedAt := lastStoppedAt t;
     totalSecondsSpent := totalSecondsSpent t;
     totalMinutesSpent := totalMinutesSpent t;
     pagesCompleted := pagesCompleted t; remarks := remarks t |}.

Definition set_lastStoppedAt (v : option Z) (t : Task) : Task :=
  {| workspace := workspace t; assignedTo := assignedTo t;
     createdBy := createdBy t; isRunning := isRunning t;
     firstStartedAt := firstStartedAt t; activeStartAt := activeStartAt t;
     lastStoppedAt := v;
     totalSecondsSpent := totalSecondsSpent t;
     totalMinutesSpent := totalMinutesSpent t;
     pagesCompleted := pagesCompleted t; remarks := remarks t |}.

Definition set_totalSecondsSpent (v : option Z) (t : Task) : Task :=
  {| workspace := workspace t; assignedTo := assignedTo t;
     createdBy := createdBy t; isRunning := isRunning t;
     firstStartedAt := firstStartedAt t; activeStartAt := activeStartAt t;
     lastStoppedAt := lastStoppedAt t;
     totalSecondsSpent := v;
     totalMinutesSpent := totalMinutesSpent t;
     pagesCompleted := pagesCompleted t; remarks := remarks t |}.

Definition set_totalMinutesSpent (v : option Z) (t : Task) : Task :=
  {| workspace := workspace t; assignedTo := assignedTo t;
     createdBy := createdBy t; isRunning := isRunning t;
     firstStartedAt := firstStartedAt t; activeStartAt := activeStartAt t;
     lastStoppedAt := lastStoppedAt t;
     totalSecondsSpent := totalSecondsSpent t;
     totalMinutesSpent := v;
     pagesCompleted := pagesCompleted t; remarks := remarks t |}.

Definition set_pagesCompleted (v : option Z) (t : Task) : Task :=
  {| workspace := workspace t; assignedTo := assignedTo t;
     createdBy := createdBy t; isRunning := isRunning t;
     firstStartedAt := firstStartedAt t; activeStartAt := activeStartAt t;
     lastStoppedAt := lastStoppedAt t;
     totalSecondsSpent := totalSecondsSpent t;
     totalMinutesSpent := totalMinutesSpent t;
     pagesCompleted := v; remarks := remarks t |}.

Definition set_remarks (v : option string) (t : Task) : Task :=
  {| workspace := workspace t; assignedTo := assignedTo t;
     createdBy := createdBy t; isRunning := isRunning t;
     firstStartedAt := firstStartedAt t; activeStartAt := activeStartAt t;
     lastStoppedAt := lastStoppedAt t;
     totalSecondsSpent := totalSecondsSpent t;
     totalMinutesSpent := totalMinutesSpent t;
     pagesCompleted := pagesCompleted t; remarks := v |}.

(** [TaskModel.findById] *)
Definition TaskModel_findById (taskId : string) : Eff Db (option Task) :=
  gets (fun db => tasks db !! taskId).

(** [task.save ()] of the document fetched under [taskId]. *)
Definition Task_save (taskId : string) (task : Task) : Eff Db unit :=
  modify (fun db =>
    {| tasks := <[taskId := task]> (tasks db); workLogs := workLogs db |}).

(** [TaskWorkLogModel.create] *)
Definition TaskWorkLogModel_create (log : TaskWorkLog) : Eff Db unit :=
  modify (fun db =>
    {| tasks := tasks db; workLogs := workLogs db ++ [log] |}).

(** The filter of [TaskModel.find] in [stopAllRunningTaskTimersService]:
    [{ workspace: workspaceId, isRunning: true,
       activeStartAt: { $ne: null } }]. *)
Definition matchesRunning (workspaceId : string) (doc : string * Task) : bool :=
  String.eqb (workspace doc.2) workspaceId
  && isRunning doc.2
  && match activeStartAt doc.2 with Some _ => true | None => false end.

Definition TaskModel_findRunning (workspaceId : string)
  : Eff Db (list (string * Task)) :=
  gets (fun db =>
    List.filter (matchesRunning workspaceId) (map_to_list (tasks db))).

(** ** Role names ([enums/role.enum]) *)

(** Modelled from the spec: the [Roles] enum is declared in
    [enums/role.enum], which is not among the sources; the services compare
    a role with [Roles.OWNER] and [Roles.ADMIN], and the controller with
    [Roles.MEMBER]. A role is its name, a string. *)
Module Roles.
Definition OWNER : string := "OWNER".
Definition ADMIN : string := "ADMIN".
Definition MEMBER : string := "MEMBER".
End Roles.

(** ** The timer services ([services/task.service]) *)

Section TimerServices.

(** [getMemberRoleInWorkspace (userId, workspaceId)] of
    [services/member.service], which is not among the sources: it
    resolves to the role of the member or throws. The timer services do
    not write what it reads. *)
Variable getMemberRoleInWorkspace : string -> string -> Outcome string.

Definition ensureTaskTimerAccess (taskId userId : string) : Eff Db Task :=
  let* found := TaskModel_findById taskId in
  match found with
  | None => throw (NotFoundException "Task not found.")
  | Some task =>
      let* role :=
        liftOutcome (getMemberRoleInWorkspace userId (workspace task)) in
      let isPrivileged :=
        String.eqb role Roles.OWNER || String.eqb role Roles.ADMIN in
      let isAssignee :=
        match assignedTo task with
        | Some a => String.eqb a userId
        | None => false
        end in
      if negb isPrivileged && negb isAssignee then
        throw (UnauthorizedException
                 "You do not have permission to manage this task timer.")
      else ret task
  end.

Definition startTaskTimerService (taskId userId : string) (now : Z)
  : Eff Db Task :=
  let* task := ensureTaskTimerAccess taskId userId in
  if isRunning task then
    throw (HttpException "Task timer is already running." CONFLICT)
  else
    let task :=
      match firstStartedAt task with
      | None => set_firstStartedAt (Some now) task
      | Some _ => task
      end in
    let task := set_activeStartAt (Some now) task in
    let task := set_isRunning true task in
    let* _ := Task_save taskId task in
    ret task.

Definition stopTaskTimerService (taskId userId : string) (body : StopBody)
  (now : Z) : Eff Db Task :=
  let* task := ensureTaskTimerAccess taskId userId in
  match isRunning task, activeStartAt task with
  | true, Some startedAt =>
      let durationSeconds := Z.max 1 ((now - startedAt) / 1000) in
      let durationMinutes := Z.max 1 (durationSeconds / 60) in
      let* _ := TaskWorkLogModel_create
        {| log_taskId := taskId;
           log_userId := userId;
           log_startedAt := startedAt;
           log_stoppedAt := now;
           log_durationMinutes := durationMinutes;
           log_pagesCompleted := body_pagesCompleted body;
           log_remarks := body_remarks body |} in
      let currentSeconds :=
        match totalSecondsSpent task with
        | Some s => s
        | None =>
            match totalMinutesSpent task with
            | Some m => m
            | None => 0
            end * 60
        end in
      let newSeconds := currentSeconds + durationSeconds in
      let task := set_totalSecondsSpent (Some newSeconds) task in
      let task := set_totalMinutesSpent (Some (newSeconds / 60)) task in
      let task := set_lastStoppedAt (Some now) task in
      let task := set_isRunning false task in
      let task := set_activeStartAt None task in
      let task :=
        match body_pagesCompleted body with
        | Some pages =>
            let currentPages :=
              match pagesCompleted task with Some p => p | None => 0 end in
            set_pagesCompleted (Some (currentPages + pages)) task
        | None => task
        end in
      let task :=
        match body_remarks body with
        | Some r => set_remarks (Some r) task
        | None => task
        end in
      let* _ := Task_save taskId task in
      ret task
  | _, _ =>
      throw (HttpException "Task timer is not running." CONFLICT)
  end.

(** The callback of [runningTasks.map] in
    [stopAllRunningTaskTimersService]. *)
Definition stopOneRunning (userId : string) (now : Z)
  (doc : string * Task) : Eff Db unit :=
  let '(taskId, task) := doc in
  match activeStartAt task with
  | None => ret tt
  | Some startedAt =>
      let durationSeconds := Z.max 1 ((now - startedAt) / 1000) in
      let durationMinutes := Z.max 1 (durationSeconds / 60) in
      let* _ := TaskWorkLogModel_create
        {| log_taskId := taskId;
           log_userId :=
             match assignedTo task with
             | Some a => a
             | None =>
                 match createdBy task with
                 | Some c => c
                 | None => userId
                 end
             end;
           log_startedAt := startedAt;
           log_stoppedAt := now;
           log_durationMinutes := durationMinutes;
           log_pagesCompleted := None;
           log_remarks := None |} in
      let currentSeconds :=
        match totalSecondsSpent task with
        | Some s => s
        | None =>
            match totalMinutesSpent task with
            | Some m => m
            | None => 0
            end * 60
        end in
      let newSeconds := currentSeconds + durationSeconds in
      let task := set_totalSecondsSpent (Some newSeconds) task in
      let task := set_totalMinutesSpent (Some (newSeconds / 60)) task in
      let task := set_lastStoppedAt (Some now) task in
      let task := set_isRunning false task in
      let task := set_activeStartAt None task in
      Task_save taskId task
  end.

Definition stopAllRunningTaskTimersService (workspaceId userId : string)
  (now : Z) : Eff Db nat :=
  let* role := liftOutcome (getMemberRoleInWorkspace userId workspaceId) in
  let isPrivileged :=
    String.eqb role Roles.OWNER || String.eqb role Roles.ADMIN in
  if negb isPrivileged then
    throw (UnauthorizedException
             "Only admins can stop all running task timers.")
  else
    let* runningTasks := TaskModel_findRunning workspaceId in
    match runningTasks with
    | [] => ret 0%nat
    | _ :: _ =>
        let* _ := forEach (stopOneRunning userId now) runningTasks in
        ret (length runningTasks)
    end.

End TimerServices.

(** ** Paths (Node's [path] module on a POSIX host) *)

(** An absolute, normalized path is the list of its segments below [/]:
    [/srv/getsync/storage] is [["srv"; "getsync"; "storage"]], and [/] is
    [[]]. *)

Definition slash : Ascii.ascii := "/"%char.

(** [s.split ("/")] *)
Fixpoint splitSegments (s : string) : list string :=
  match s with
  | EmptyString => [EmptyString]
  | String c s' =>
      if Ascii.eqb c slash then EmptyString :: splitSegments s'
      else
        match splitSegments s' with
        | [] => [String c EmptyString]
        | seg :: rest => String c seg :: rest
        end
  end.

(** One step of normalization: empty and [.] segments are dropped, [..]
    removes the last segment (and stays at [/]). *)
Definition normalizeStep (acc : list string) (seg : string) : list string :=
  if String.eqb seg "" then acc
  else if String.eqb seg "." then acc
  else if String.eqb seg ".." then removelast acc
  else acc ++ [seg].

Definition normalizeFrom (base : list string) (segs : list string)
  : list string :=
  fold_left normalizeStep segs base.

(** [path.join (abs, name)] for an absolute normalized [abs]. *)
Definition path_join (abs : list string) (name : string) : list string :=
  normalizeFrom abs (splitSegments name).

(** [path.resolve (abs, rel)]: an absolute [rel] replaces [abs]. *)
Definition path_resolve (abs : list string) (rel : string) : list string :=
  match rel with
  | String c _ =>
      if Ascii.eqb c slash then normalizeFrom [] (splitSegments rel)
      else normalizeFrom abs (splitSegments rel)
  | EmptyString => abs
  end.

(** [path.basename (abs)] *)
Definition path_basename (abs : list string) : string := List.last abs "".

(** ** The disk and the access log *)

Inductive Node : Type :=
  | Directory
  | RegularFile (buffer : list Byte.byte)
  | Special.

(** [stat.size]; only the size of a regular file is modelled. *)
Definition nodeSize (n : Node) : Z :=
  match n with
  | RegularFile buffer => Z.of_nat (length buffer)
  | _ => 0
  end.

Inductive FileAccessAction : Set :=
  | ENTER
  | DOWNLOAD
  | UPLOAD
  | CREATE_FOLDER
  | DELETE_FILE
  | DELETE_FOLDER.

Record FileAccessLog : Type := {
  access_workspaceId : string;
  access_userId : string;
  access_action : FileAccessAction;
  access_path : string;
  access_fileName : option string;
  access_size : option Z;
}.

Record Storage : Type := {
  disk : gmap (list string) Node;
  accessLogs : list FileAccessLog;
}.

(** What is at a path; [/] is always a directory. *)
Definition lookupNode (d : gmap (list string) Node) (p : list string)
  : option Node :=
  match p with
  | [] => Some Directory
  | _ :: _ => d !! p
  end.

Definition onDisk {A : Type}
  (f : gmap (list string) Node -> Outcome A * gmap (list string) Node)
  : Eff Storage A :=
  fun st =>
    let '(o, d) := f (disk st) in
    (o, {| disk := d; accessLogs := accessLogs st |}).

(** [fs.mkdir (p, { recursive: true })], creating below [done]. *)
Fixpoint mkdirFrom (done todo : list string) (d : gmap (list string) Node)
  : Outcome unit * gmap (list string) Node :=
  match todo with
  | [] => (Return tt, d)
  | seg :: rest =>
      let p := done ++ [seg] in
      match d !! p with
      | Some Directory => mkdirFrom p rest d
      | Some _ =>
          (Throw (ErrnoException
                    (match rest with [] => EEXIST | _ :: _ => ENOTDIR end)), d)
      | None => mkdirFrom p rest (<[p := Directory]> d)
      end
  end.

Definition fs_mkdir_recursive (p : list string) : Eff Storage unit :=
  onDisk (mkdirFrom [] p).

(** [fs.mkdir (p, { recursive: false })] *)
Definition fs_mkdir (p : list string) : Eff Storage unit :=
  onDisk (fun d =>
    match lookupNode d p with
    | Some _ => (Throw (ErrnoException EEXIST), d)
    | None =>
        match lookupNode d (removelast p) with
        | None => (Throw (ErrnoException ENOENT), d)
        | Some Directory => (Return tt, <[p := Directory]> d)
        | Some _ => (Throw (ErrnoException ENOTDIR), d)
        end
    end).

(** [fs.stat (p)] *)
Definition fs_stat (p : list string) : Eff Storage Node :=
  onDisk (fun d =>
    match lookupNode d p with
    | Some n => (Return n, d)
    | None => (Throw (ErrnoException ENOENT), d)
    end).

(** [fs.readdir (p, { withFileTypes: true })] of a directory. *)
Definition fs_readdir (p : list string) : Eff Storage (list (string * Node)) :=
  onDisk (fun d =>
    (Return
       (omap (fun '(q, n) =>
                match List.rev q with
                | name :: parent =>
                    if bool_decide (List.rev parent = p) then Some (name, n)
                    else None
                | [] => None
                end)
             (map_to_list d)), d)).

(** [fs.writeFile (p, buffer)] *)
Definition fs_writeFile (p : list string) (buffer : list Byte.byte)
  : Eff Storage unit :=
  onDisk (fun d =>
    match lookupNode d p with
    | Some Directory => (Throw (ErrnoException EISDIR), d)
    | Some Special => (Return tt, d)
    | Some (RegularFile _) => (Return tt, <[p := RegularFile buffer]> d)
    | None =>
        match lookupNode d (removelast p) with
        | None => (Throw (ErrnoException ENOENT), d)
        | Some Directory => (Return tt, <[p := RegularFile buffer]> d)
        | Some _ => (Throw (ErrnoException ENOTDIR), d)
        end
    end).

(** [fs.rm (p, { recursive: true, force: false })] of an existing item. *)
Definition fs_rm_recursive (p : list string) : Eff Storage unit :=
  onDisk (fun d =>
    (Return tt,
     filter (fun kv : list string * Node => ~ p `prefix_of` kv.1) d)).

(** [fs.unlink (p)] of an existing file. *)
Definition fs_unlink (p : list string) : Eff Storage unit :=
  onDisk (fun d => (Return tt, delete p d)).

(** [FileAccessLogModel.create] *)
Definition FileAccessLogModel_create (entry : FileAccessLog)
  : Eff Storage unit :=
  modify (fun st =>
    {| disk := disk st; accessLogs := accessLogs st ++ [entry] |}).

(** [try { await m } catch (error) { handler (error) }] where the handler
    throws. *)
Definition catchThrow {S A : Type} (m : Eff S A)
  (handler : Exception -> Exception) : Eff S A :=
  fun s =>
    match m s with
    | (Return a, s') => (Return a, s')
    | (Throw e, s') => (Throw (handler e), s')
    end.

(** [await Promise.all (xs.map (async x => ...))] with its results, run in
    list order. *)
Fixpoint mapEff {S A B : Type} (f : A -> Eff S B) (xs : list A)
  : Eff S (list B) :=
  match xs with
  | [] => ret []
  | x :: xs' =>
      let* y := f x in
      let* ys := mapEff f xs' in
      ret (y :: ys)
  end.

(** ** The file library ([services/file-library.service.ts]) *)

(** An [Express.Multer.File], as far as the upload reads it. *)
Record UploadedFile : Type := {
  originalname : string;
  file_buffer : list Byte.byte;
  file_size : Z;
}.

Inductive ItemType : Set := folder | file.

Record FileItem : Type := {
  item_name : string;
  item_type : ItemType;
  item_size : option Z;
}.

Section FileLibrary.

(** [config.FILE_STORAGE_ROOT], an absolute path. *)
Variable FILE_STORAGE_ROOT : list string.

(** [resolveWorkspacePath (workspaceRoot, relPath)] and
    [sanitizeFileName (name)] of [utils/file-storage], which is not
    among the sources; the services use the [targetAbs] of the first. *)
Variable resolveWorkspacePath : list string -> string -> Outcome (list string).
Variable sanitizeFileName : string -> string.

(** Node's [path.dirname] on the relative path as the client sent it;
    its value only enters the access log. *)
Variable path_dirname : string -> string.

Definition ensureWorkspaceRoot (workspaceId : string)
  : Eff Storage (list string) :=
  let workspaceRoot := path_join FILE_STORAGE_ROOT workspaceId in
  let* _ := fs_mkdir_recursive workspaceRoot in
  ret workspaceRoot.

Definition logFileAccess (workspaceId userId : string)
  (action : FileAccessAction) (logPath : string)
  (fileName : option string) (size : option Z) : Eff Storage unit :=
  FileAccessLogModel_create
    {| access_workspaceId := workspaceId;
       access_userId := userId;
       access_action := action;
       access_path := if String.eqb logPath "" then "." else logPath;
       access_fileName := fileName;
       access_size := size |}.

Definition listWorkspaceFilesService (workspaceId userId : string)
  (relPath : option string) : Eff Storage (string * list FileItem) :=
  let* workspaceRoot := ensureWorkspaceRoot workspaceId in
  let* targetAbs :=
    liftOutcome (resolveWorkspacePath workspaceRoot (default "" relPath)) in
  let* stat :=
    catchThrow (fs_stat targetAbs)
      (fun _ => NotFoundException "Folder not found") in
  match stat with
  | Directory =>
      let* entries := fs_readdir targetAbs in
      let* items :=
        mapEff (fun entry : string * Node =>
          let entryPath := path_join targetAbs entry.1 in
          let* entryStat := fs_stat entryPath in
          match entry.2 with
          | Directory =>
              ret {| item_name := entry.1; item_type := folder;
                     item_size := None |}
          | _ =>
              ret {| item_name := entry.1; item_type := file;
                     item_size := Some (nodeSize entryStat) |}
          end) entries in
      let* _ :=
        logFileAccess workspaceId userId ENTER (default "" relPath)
          None None in
      ret (default "" relPath, items)
  | _ => throw (BadRequestException "Path is not a folder")
  end.

Definition getWorkspaceFileDownloadService (workspaceId userId : string)
  (relPath : string) : Eff Storage (string * Z * list Byte.byte) :=
  let workspaceRoot := path_join FILE_STORAGE_ROOT workspaceId in
  let* targetAbs :=
    liftOutcome (resolveWorkspacePath workspaceRoot relPath) in
  let* stat :=
    catchThrow (fs_stat targetAbs)
      (fun _ => NotFoundException "File not found") in
  match stat with
  | RegularFile buffer =>
      let* _ :=
        logFileAccess workspaceId userId DOWNLOAD (path_dirname relPath)
          (Some (path_basename targetAbs)) (Some (nodeSize stat)) in
      ret (path_basename targetAbs, nodeSize stat, buffer)
  | _ => throw (BadRequestException "Path is not a file")
  end.

Definition uploadWorkspaceFilesService (workspaceId userId : string)
  (relPath : option string) (files : list UploadedFile)
  : Eff Storage (list (string * Z)) :=
  match files with
  | [] => throw (BadRequestException "No files uploaded")
  | _ :: _ =>
      let* workspaceRoot := ensureWorkspaceRoot workspaceId in
      let* targetAbs :=
        liftOutcome
          (resolveWorkspacePath workspaceRoot (default "" relPath)) in
      let* _ := fs_mkdir_recursive targetAbs in
      mapEff (fun f : UploadedFile =>
        let safeName := sanitizeFileName (originalname f) in
        let destination := path_join targetAbs safeName in
        let* _ := fs_writeFile destination (file_buffer f) in
        let* _ :=
          logFileAccess workspaceId userId UPLOAD (default "" relPath)
            (Some safeName) (Some (file_size f)) in
        ret (safeName, file_size f)) files
  end.

Definition createWorkspaceFolderService (workspaceId userId : string)
  (relPath : option string) (name : string) : Eff Storage string :=
  let* workspaceRoot := ensureWorkspaceRoot workspaceId in
  let* targetAbs :=
    liftOutcome (resolveWorkspacePath workspaceRoot (default "" relPath)) in
  let safeName := sanitizeFileName name in
  let folderPath := path_join targetAbs safeName in
  let* _ :=
    catchThrow (fs_mkdir folderPath)
      (fun error =>
         match error with
         | ErrnoException EEXIST =>
             BadRequestException "Folder already exists"
         | _ => error
         end) in
  let* _ :=
    logFileAccess workspaceId userId CREATE_FOLDER (default "" relPath)
      (Some safeName) None in
  ret safeName.

Definition deleteWorkspaceItemService (workspaceId userId : string)
  (relPath : string) : Eff Storage (ItemType * string) :=
  let* workspaceRoot := ensureWorkspaceRoot workspaceId in
  let* targetAbs :=
    liftOutcome (resolveWorkspacePath workspaceRoot relPath) in
  let* stat :=
    catchThrow (fs_stat targetAbs)
      (fun _ => NotFoundException "File or folder not found") in
  let itemName := path_basename targetAbs in
  let parentPath :=
    if String.eqb (path_dirname relPath) "." then ""
    else path_dirname relPath in
  match stat with
  | Directory =>
      let* _ := fs_rm_recursive targetAbs in
      let* _ :=
        logFileAccess workspaceId userId DELETE_FOLDER parentPath
          (Some itemName) None in
      ret (folder, itemName)
  | RegularFile _ =>
      let* _ := fs_unlink targetAbs in
      let* _ :=
        logFileAccess workspaceId userId DELETE_FILE parentPath
          (Some itemName) (Some (nodeSize stat)) in
      ret (file, itemName)
  | Special => throw (BadRequestException "Unsupported item type")
  end.

End FileLibrary.

(** ** The path resolver ([utils/file-storage]) *)

(** Modelled from the spec: [resolveWorkspacePath] of [utils/file-storage]
    is not among the sources. Section 4.5 of the specification: the
    resolver must "reject any path that, after normalization, would resolve
    outside the workspace root (defends against [..] traversal and
    absolute-path injection); normalize to a canonical absolute path; treat
    an empty/missing relative path as the workspace root itself". The
    relative path is resolved against the workspace root as [path.resolve]
    does, and the result is accepted when the root is a prefix of it,
    segment by segment. The rejection is a BadRequest, the class section 7
    gives to invalid input. *)
Definition resolveWorkspacePath (workspaceRoot : list string)
  (relPath : string) : Outcome (list string) :=
  let targetAbs := path_resolve workspaceRoot relPath in
  if bool_decide (workspaceRoot `prefix_of` targetAbs) then Return targetAbs
  else Throw (BadRequestException "Invalid path").

(** A workspace id is an [ObjectId]: 24 hexadecimal digits. *)
Definition isHexDigit (c : Ascii.ascii) : bool :=
  let n := Ascii.nat_of_ascii c in
  ((48 <=? n) && (n <=? 57) || (97 <=? n) && (n <=? 102)
   || (65 <=? n) && (n <=? 70))%nat.

Fixpoint allHex (s : string) : bool :=
  match s with
  | EmptyString => true
  | String c s' => isHexDigit c && allHex s'
  end.

Definition isObjectId (s : string) : bool :=
  (String.length s =? 24)%nat && allHex s.

(** ** Predicates of the statements *)

(** The invariant of the data model: the flag and the start time agree. *)
Definition timerConsistent (t : Task) : Prop :=
  (isRunning t = true <-> activeStartAt t <> None)
  /\ (isRunning t = false <-> activeStartAt t = None).

Definition allConsistent (db : Db) : Prop :=
  forall taskId t, tasks db !! taskId = Some t -> timerConsistent t.

(** The tasks [stopAllRunningTaskTimersService] finds in a workspace. *)
Definition runningIn (workspaceId : string) (db : Db)
  : list (string * Task) :=
  List.filter (matchesRunning workspaceId) (map_to_list (tasks db)).

(** The disk once [ensureWorkspaceRoot] has created the root. *)
Definition diskWithRoot (workspaceRoot : list string)
  (d : gmap (list string) Node) : gmap (list string) Node :=
  (mkdirFrom [] workspaceRoot d).2.

(** Every directory from [done] down to [done ++ todo] exists. *)
Fixpoint dirsAlong (done todo : list string) (d : gmap (list string) Node)
  : Prop :=
  match todo with
  | [] => True
  | seg :: rest =>
      d !! (done ++ [seg]) = Some Directory
      /\ dirsAlong (done ++ [seg]) rest d
  end.

(** What a stop leaves of a task that was running since [startedAt]. *)
Definition stoppedFrom (now : Z) (before after : Task) : Prop :=
  exists startedAt,
    activeStartAt before = Some startedAt
    /\ isRunning after = false
    /\ activeStartAt after = None
    /\ firstStartedAt after = firstStartedAt before
    /\ totalSecondsSpent after
       = Some (match totalSecondsSpent before with
               | Some s => s
               | None =>
                   match totalMinutesSpent before with
                   | Some m => m
                   | None => 0
                   end * 60
               end + Z.max 1 ((now - startedAt) / 1000))
    /\ forall total, totalSecondsSpent after = Some total ->
         totalMinutesSpent after = Some (total / 60).

(** The work-log the bulk stop writes for a task found running. *)
Definition bulkLogOf (userId : string) (now : Z) (doc : string * Task)
  (log : TaskWorkLog) : Prop :=
  log_taskId log = doc.1
  /\ log_stoppedAt log = now
  /\ log_userId log
     = match assignedTo doc.2 with
       | Some a => a
       | None =>
           match createdBy doc.2 with
           | Some c => c
           | None => userId
           end
       end
  /\ exists startedAt,
       activeStartAt doc.2 = Some startedAt
       /\ log_startedAt log = startedAt
       /\ log_durationMinutes log
          = Z.max 1 (Z.max 1 ((now - startedAt) / 1000) / 60).

(** An operation of the file library on a client's relative path goes
    through the resolver [resolve]: it can only succeed when the resolver
    accepted the path, and when the resolver rejects the path the operation
    fails, writes no access-log entry, and leaves the disk as it was
    everywhere except on the chain of directories that leads to the
    workspace root itself (which [ensureWorkspaceRoot] creates before the
    path is looked at). *)
Definition funnelsThrough {A : Type}
  (resolve : list string -> string -> Outcome (list string))
  (workspaceRoot : list string) (relPath : string) (op : Eff Storage A)
  : Prop :=
  forall st,
    (forall r st', op st = (Return r, st') ->
       exists targetAbs, resolve workspaceRoot relPath = Return targetAbs)
    /\ (forall e, resolve workspaceRoot relPath = Throw e ->
          (exists e', (op st).1 = Throw e')
          /\ accessLogs (op st).2 = accessLogs st
          /\ forall q, ~ q `prefix_of` workspaceRoot ->
               disk (op st).2 !! q = disk st !! q).

(** ** A worked example *)

(** A workspace [w1] with an admin, and two members [alice] and [bob]. *)
Definition exampleRoles (userId workspaceId : string) : Outcome string :=
  if String.eqb userId "admin" then Return Roles.ADMIN
  else Return Roles.MEMBER.

(** [t1]: assigned to [alice], never started. *)
Definition exampleIdleTask : Task :=
  {| workspace := "w1"; assignedTo := Some "alice";
     createdBy := Some "admin"; isRunning := false;
     firstStartedAt := None; activeStartAt := None; lastStoppedAt := None;
     totalSecondsSpent := None; totalMinutesSpent := None;
     pagesCompleted := None; remarks := None |}.

(** [t2]: unassigned, created by [bob], tracked in minutes only and running
    since time 0. *)
Definition exampleLegacyTask : Task :=
  {| workspace := "w1"; assignedTo := None;
     createdBy := Some "bob"; isRunning := true;
     firstStartedAt := Some 0; activeStartAt := Some 0;
     lastStoppedAt := None;
     totalSecondsSpent := None; totalMinutesSpent := Some 5;
     pagesCompleted := None; remarks := None |}.

Definition exampleDb : Db :=
  {| tasks := <["t1" := exampleIdleTask]> (<["t2" := exampleLegacyTask]> ∅);
     workLogs := [] |}.

(** [alice] starts [t1] at 1 s. *)
Definition exampleStartedTask : Task :=
  set_isRunning true
    (set_activeStartAt (Some 1000)
       (set_firstStartedAt (Some 1000) exampleIdleTask)).

Definition exampleRunningDb : Db :=
  {| tasks := <["t1" := exampleStartedTask]> (tasks exampleDb);
     workLogs := [] |}.

(** She stops it 90 seconds later and reports three pages. *)
Definition exampleBody : StopBody :=
  {| body_pagesCompleted := Some 3; body_remarks := None |}.

Definition exampleStoppedTask : Task :=
  {| workspace := "w1"; assignedTo := Some "alice";
     createdBy := Some "admin"; isRunning := false;
     firstStartedAt := Some 1000; activeStartAt := None;
     lastStoppedAt := Some 91000;
     totalSecondsSpent := Some 90; totalMinutesSpent := Some 1;
     pagesCompleted := Some 3; remarks := None |}.

Definition exampleLog : TaskWorkLog :=
  {| log_taskId := "t1"; log_userId := "alice";
     log_startedAt := 1000; log_stoppedAt := 91000;
     log_durationMinutes := 1;
     log_pagesCompleted := Some 3; log_remarks := None |}.

Definition exampleStoppedDb : Db :=
  {| tasks := <["t1" := exampleStoppedTask]> (tasks exampleRunningDb);
     workLogs := [exampleLog] |}.

(** The storage root of the configuration, a workspace and a user. *)
Definition exampleStorageRoot : list string := ["srv"; "getsync"; "storage"].
Definition exampleWorkspaceId : string := "65a1b2c3d4e5f60718293a4b".
Definition exampleUserId : string := "65a1b2c3d4e5f60718293a4c".

Definition exampleStorage : Storage := {| disk := ∅; accessLogs := [] |}.

(** Creating the folder [notes] at the top of the workspace, with a
    sanitizer that leaves the name [notes] as it is. *)
Definition exampleCreateNotes : Eff Storage string :=
  createWorkspaceFolderService exampleStorageRoot resolveWorkspacePath
    (fun name => name) exampleWorkspaceId exampleUserId None "notes".

(** The storage once [notes] exists. *)
Definition exampleStorageWithNotes : Storage :=
  (exampleCreateNotes exampleStorage).2.

(** ** Deleting a task ([services/task.service], [deleteTaskService]) *)

(** [TaskModel.findOneAndDelete ({ _id: taskId, workspace: workspaceId })] *)
Definition TaskModel_findOneAndDelete (taskId workspaceId : string)
  : Eff Db (option Task) :=
  fun db =>
    match tasks db !! taskId with
    | Some task =>
        if String.eqb (workspace task) workspaceId then
          (Return (Some task),
           {| tasks := delete taskId (tasks db); workLogs := workLogs db |})
        else (Return None, db)
    | None => (Return None, db)
    end.

Definition deleteTaskService (workspaceId taskId : string) : Eff Db unit :=
  let* task := TaskModel_findOneAndDelete taskId workspaceId in
  match task with
  | None =>
      throw (NotFoundException
               "Task not found or does not belong to the specified workspace")
  | Some _ => ret tt
  end.

(** What the bulk stop leaves of a task, field by field. *)
Definition bulkStoppedFrom (now : Z) (before after : Task) : Prop :=
  stoppedFrom now before after
  /\ workspace after = workspace before
  /\ assignedTo after = assignedTo before
  /\ createdBy after = createdBy before
  /\ pagesCompleted after = pagesCompleted before
  /\ remarks after = remarks before
  /\ lastStoppedAt after = Some now.

(** The bulk stop's log, with the fields [bulkLogOf] leaves out. *)
Definition bulkLogFull (userId : string) (now : Z) (doc : string * Task)
  (log : TaskWorkLog) : Prop :=
  bulkLogOf userId now doc log
  /\ log_pagesCompleted log = None
  /\ log_remarks log = None
  /\ 1 <= log_durationMinutes log.

(** The totals of a task only grow: from [before] to [after] the seconds
    and the pages recorded, where recorded, do not decrease. *)
Definition totalsGrow (before after : Task) : Prop :=
  (forall s, totalSecondsSpent before = Some s ->
     exists s', totalSecondsSpent after = Some s' /\ s <= s')
  /\ (forall p, pagesCompleted before = Some p ->
        exists p', pagesCompleted after = Some p' /\ p <= p').



(** ** Listing tasks ([services/task.service], [getAllTasksService]) *)

(** A JavaScript number that may come out of a division by zero. *)
Inductive JsNumber : Set :=
  | Finite (z : Z)
  | PosInfinity
  | NegInfinity
  | NaN.

(** [Math.ceil (a / b)] on integers; the sign of a zero is not kept. *)
Definition ceilDiv (a b : Z) : JsNumber :=
  if b =? 0 then
    if a =? 0 then NaN else if 0 <? a then PosInfinity else NegInfinity
  else Finite (- ((- a) / b)).

Record TaskFilters : Type := {
  filter_projectId : option string;
  filter_taskTypeCode : option string;
  filter_status : option (list string);
  filter_priority : option (list string);
  filter_assignedTo : option (list string);
  filter_keyword : option string;
  filter_dueDate : option string;
}.

(** The query object handed to [TaskModel.find] and
    [TaskModel.countDocuments]: [workspace] is always set; a list is an
    [$in]; [title] is a case-insensitive [$regex]; [dueDate] an [$eq]. *)
Record TaskQuery (Date : Type) : Type := {
  query_workspace : string;
  query_project : option string;
  query_taskTypeCode : option string;
  query_status : option (list string);
  query_priority : option (list string);
  query_assignedTo : option (list string);
  query_title : option string;
  query_dueDate : option Date;
}.
Arguments query_workspace {Date} _.
Arguments query_project {Date} _.
Arguments query_taskTypeCode {Date} _.
Arguments query_status {Date} _.
Arguments query_priority {Date} _.
Arguments query_assignedTo {Date} _.
Arguments query_title {Date} _.
Arguments query_dueDate {Date} _.

Record TaskPage : Type := {
  page_pageSize : Z;
  page_pageNumber : Z;
  page_totalCount : Z;
  page_totalPages : JsNumber;
  page_skip : Z;
}.

(** [if (s)] on an optional string: set and not empty. *)
Definition truthyString (s : option string) : option string :=
  match s with
  | Some text => if String.eqb text "" then None else Some text
  | None => None
  end.

(** [if (l && l.length > 0)] on an optional array. *)
Definition nonEmptyList (l : option (list string)) : option (list string) :=
  match l with
  | Some (x :: xs) => Some (x :: xs)
  | _ => None
  end.

Section TaskListing.

(** The task documents as the query returns them, populated, and the
    dates of the driver; [TaskModel.find (query).skip (skip).limit (limit)]
    sorted by [createdAt], and [TaskModel.countDocuments (query)]. *)
Variable Doc Date : Type.
Variable parseDate : string -> Date.
Variable TaskModel_find : TaskQuery Date -> Z -> Z -> list Doc.
Variable TaskModel_countDocuments : TaskQuery Date -> Z.

Definition getAllTasksService (workspaceId : string) (filters : TaskFilters)
  (pageSize pageNumber : Z) : list Doc * TaskPage :=
  let query :=
    {| query_workspace := workspaceId;
       query_project := truthyString (filter_projectId filters);
       query_taskTypeCode := truthyString (filter_taskTypeCode filters);
       query_status := nonEmptyList (filter_status filters);
       query_priority := nonEmptyList (filter_priority filters);
       query_assignedTo := nonEmptyList (filter_assignedTo filters);
       query_title := truthyString (filter_keyword filters);
       query_dueDate :=
         match truthyString (filter_dueDate filters) with
         | Some text => Some (parseDate text)
         | None => None
         end |} in
  let skip := (pageNumber - 1) * pageSize in
  let tasks := TaskModel_find query skip pageSize in
  let totalCount := TaskModel_countDocuments query in
  let totalPages := ceilDiv totalCount pageSize in
  (tasks,
   {| page_pageSize := pageSize;
      page_pageNumber := pageNumber;
      page_totalCount := totalCount;
      page_totalPages := totalPages;
      page_skip := skip |}).

End TaskListing.

(** ** More of the worked example *)

(** [t3]: flagged running, but without a start time. *)
Definition exampleStuckTask : Task :=
  {| workspace := "w1"; assignedTo := Some "alice";
     createdBy := Some "admin"; isRunning := true;
     firstStartedAt := Some 0; activeStartAt := None;
     lastStoppedAt := None;
     totalSecondsSpent := Some 120; totalMinutesSpent := Some 2;
     pagesCompleted := None; remarks := None |}.

Definition exampleStuckDb : Db :=
  {| tasks := <["t3" := exampleStuckTask]> (tasks exampleDb);
     workLogs := [] |}.

(** A file of three bytes, uploaded into [notes]. *)
Definition exampleFile : UploadedFile :=
  {| originalname := "a.txt";
     file_buffer := [Byte.x68; Byte.x69; Byte.x0a];
     file_size := 3 |}.

Definition exampleUpload : Eff Storage (list (string * Z)) :=
  uploadWorkspaceFilesService exampleStorageRoot resolveWorkspacePath
    (fun name => name) exampleWorkspaceId exampleUserId (Some "notes")
    [exampleFile].


(** The root of the example workspace. *)
Definition exampleWorkspaceRoot : list string :=
  exampleStorageRoot ++ [exampleWorkspaceId].

(** A [path.dirname] for the relative paths of the example. *)
Definition exampleDirname (relPath : string) : string :=
  if String.eqb relPath "notes/a.txt" then "notes" else ".".

(** * Proofs *)

Ltac run_eff :=
  unfold bind, ret, throw, gets, modify, liftOutcome, catchThrow,
    TaskModel_findById, Task_save, TaskWorkLogModel_create,
    TaskModel_findRunning in *;
  simpl in *.

(** ** The access check *)

Section TimerProofs.

Variable getMemberRoleInWorkspace : string -> string -> Outcome string.

Local Abbreviation ensureAccess :=
  (ensureTaskTimerAccess getMemberRoleInWorkspace).
Local Abbreviation startTimer :=
  (startTaskTimerService getMemberRoleInWorkspace).
Local Abbreviation stopTimer :=
  (stopTaskTimerService getMemberRoleInWorkspace).
Local Abbreviation stopAll :=
  (stopAllRunningTaskTimersService getMemberRoleInWorkspace).

Lemma ensureTaskTimerAccess_state taskId userId db :
  (ensureAccess taskId userId db).2 = db.
Proof.
  unfold ensureTaskTimerAccess. run_eff.
  destruct (tasks db !! taskId) as [task|]; [|reflexivity].
  destruct (getMemberRoleInWorkspace userId (workspace task)); [|reflexivity].
  destruct (negb _ && negb _); reflexivity.
Qed.

Lemma ensureTaskTimerAccess_Return taskId userId db task :
  (ensureAccess taskId userId db).1 = Return task ->
  tasks db !! taskId = Some task
  /\ exists role,
       getMemberRoleInWorkspace userId (workspace task) = Return role
       /\ (role = Roles.OWNER \/ role = Roles.ADMIN
           \/ assignedTo task = Some userId).
Proof.
  unfold ensureTaskTimerAccess. run_eff.
  destruct (tasks db !! taskId) as [t|] eqn:Hfind; [|discriminate].
  destruct (getMemberRoleInWorkspace userId (workspace t)) as [role|]
    eqn:Hrole; [|discriminate].
  destruct (negb _ && negb _) eqn:Hdeny; simpl; [discriminate|].
  intros [= <-]. split; [reflexivity|].
  exists role. split; [assumption|].
  apply andb_false_iff in Hdeny as [H|H]; apply negb_false_iff in H.
  - apply orb_true_iff in H as [H|H]; apply String.eqb_eq in H; auto.
  - destruct (assignedTo t) as [a|]; [|discriminate].
    apply String.eqb_eq in H. subst a. auto.
Qed.

Lemma ensureTaskTimerAccess_allowed taskId userId db task role :
  tasks db !! taskId = Some task ->
  getMemberRoleInWorkspace userId (workspace task) = Return role ->
  role = Roles.OWNER \/ role = Roles.ADMIN
  \/ assignedTo task = Some userId ->
  ensureAccess taskId userId db = (Return task, db).
Proof.
  intros Hfind Hrole Hok.
  unfold ensureTaskTimerAccess. run_eff. rewrite Hfind, Hrole.
  destruct Hok as [-> | [-> | ->]]; simpl; try reflexivity.
  rewrite String.eqb_refl, andb_false_r. reflexivity.
Qed.

Lemma ensureTaskTimerAccess_denied taskId userId db task role :
  tasks db !! taskId = Some task ->
  getMemberRoleInWorkspace userId (workspace task) = Return role ->
  role <> Roles.OWNER -> role <> Roles.ADMIN ->
  assignedTo task <> Some userId ->
  ensureAccess taskId userId db
  = (Throw (UnauthorizedException
              "You do not have permission to manage this task timer."), db).
Proof.
  intros Hfind Hrole Ho Ha Hassignee.
  unfold ensureTaskTimerAccess. run_eff. rewrite Hfind, Hrole.
  apply String.eqb_neq in Ho, Ha. rewrite Ho, Ha. simpl.
  destruct (assignedTo task) as [a|]; [|reflexivity].
  destruct (String.eqb a userId) eqn:E; [|reflexivity].
  apply String.eqb_eq in E. congruence.
Qed.

Lemma ensureTaskTimerAccess_surj taskId userId db :
  ensureAccess taskId userId db
  = ((ensureAccess taskId userId db).1, db).
Proof.
  rewrite <- (ensureTaskTimerAccess_state taskId userId db) at 3.
  destruct (ensureAccess taskId userId db); reflexivity.
Qed.

(** ** Start and stop, case by case *)

Lemma start_denied taskId userId now db e :
  (ensureAccess taskId userId db).1 = Throw e ->
  startTimer taskId userId now db = (Throw e, db).
Proof.
  intros H. unfold startTaskTimerService, bind.
  rewrite ensureTaskTimerAccess_surj, H. reflexivity.
Qed.

Lemma stop_denied taskId userId body now db e :
  (ensureAccess taskId userId db).1 = Throw e ->
  stopTimer taskId userId body now db = (Throw e, db).
Proof.
  intros H. unfold stopTaskTimerService, bind.
  rewrite ensureTaskTimerAccess_surj, H. reflexivity.
Qed.

Lemma start_running taskId userId now db task :
  (ensureAccess taskId userId db).1 = Return task ->
  isRunning task = true ->
  startTimer taskId userId now db
  = (Throw (HttpException "Task timer is already running." CONFLICT), db).
Proof.
  intros H Hrun. unfold startTaskTimerService, bind.
  rewrite ensureTaskTimerAccess_surj, H, Hrun. reflexivity.
Qed.

Lemma stop_idle taskId userId body now db task :
  (ensureAccess taskId userId db).1 = Return task ->
  isRunning task = false \/ activeStartAt task = None ->
  stopTimer taskId userId body now db
  = (Throw (HttpException "Task timer is not running." CONFLICT), db).
Proof.
  intros H Hidle. unfold stopTaskTimerService, bind.
  rewrite ensureTaskTimerAccess_surj, H.
  destruct Hidle as [-> | ->]; [reflexivity|].
  destruct (isRunning task); reflexivity.
Qed.

(** A start that returns: what it found and what it saved. *)
Lemma start_Return taskId userId now db task' db' :
  startTimer taskId userId now db = (Return task', db') ->
  exists task,
    (ensureAccess taskId userId db).1 = Return task
    /\ isRunning task = false
    /\ db' = {| tasks := <[taskId := task']> (tasks db);
                workLogs := workLogs db |}
    /\ isRunning task' = true
    /\ activeStartAt task' = Some now
    /\ firstStartedAt task'
       = match firstStartedAt task with
         | Some f => Some f
         | None => Some now
         end.
Proof.
  unfold startTaskTimerService, bind.
  rewrite ensureTaskTimerAccess_surj.
  destruct (ensureAccess taskId userId db).1 as [task|] eqn:H;
    [|discriminate].
  destruct (isRunning task) eqn:Hrun; run_eff; [discriminate|].
  intros [= <- <-]. exists task.
  destruct (firstStartedAt task) eqn:Hfirst; simpl; repeat split;
    first [reflexivity | assumption].
Qed.

(** A stop that returns: what it found, logged and saved. *)
Lemma stop_Return taskId userId body now db task' db' :
  stopTimer taskId userId body now db = (Return task', db') ->
  exists task startedAt log,
    (ensureAccess taskId userId db).1 = Return task
    /\ isRunning task = true
    /\ activeStartAt task = Some startedAt
    /\ db' = {| tasks := <[taskId := task']> (tasks db);
                workLogs := workLogs db ++ [log] |}
    /\ log_taskId log = taskId
    /\ log_userId log = userId
    /\ log_durationMinutes log
       = Z.max 1 (Z.max 1 ((now - startedAt) / 1000) / 60)
    /\ isRunning task' = false
    /\ activeStartAt task' = None
    /\ firstStartedAt task' = firstStartedAt task
    /\ totalSecondsSpent task'
       = Some (match totalSecondsSpent task with
               | Some s => s
               | None =>
                   match totalMinutesSpent task with
                   | Some m => m
                   | None => 0
                   end * 60
               end + Z.max 1 ((now - startedAt) / 1000))
    /\ forall total, totalSecondsSpent task' = Some total ->
         totalMinutesSpent task' = Some (total / 60).
Proof.
  unfold stopTaskTimerService, bind.
  rewrite ensureTaskTimerAccess_surj.
  destruct (ensureAccess taskId userId db).1 as [task|] eqn:H;
    [|discriminate].
  destruct (isRunning task) eqn:Hrun; [|discriminate].
  destruct (activeStartAt task) as [startedAt|] eqn:Hstart; [|discriminate].
  run_eff. intros [= <- <-].
  eexists task, startedAt, _.
  split; [reflexivity|]. split; [assumption|]. split; [assumption|].
  split; [reflexivity|].
  destruct (body_remarks body), (body_pagesCompleted body); simpl;
    do 7 (split; [reflexivity|]); intros total [= <-]; reflexivity.
Qed.

Lemma start_Throw_state taskId userId now db e db' :
  startTimer taskId userId now db = (Throw e, db') -> db' = db.
Proof.
  unfold startTaskTimerService, bind.
  rewrite ensureTaskTimerAccess_surj.
  destruct (ensureAccess taskId userId db).1 as [task|];
    [|intros [= _ <-]; reflexivity].
  destruct (isRunning task); run_eff; [|discriminate].
  intros [= _ <-]; reflexivity.
Qed.

Lemma stop_Throw_state taskId userId body now db e db' :
  stopTimer taskId userId body now db = (Throw e, db') -> db' = db.
Proof.
  unfold stopTaskTimerService, bind.
  rewrite ensureTaskTimerAccess_surj.
  destruct (ensureAccess taskId userId db).1 as [task|];
    [|intros [= _ <-]; reflexivity].
  destruct (isRunning task); [|intros [= _ <-]; reflexivity].
  destruct (activeStartAt task); [|intros [= _ <-]; reflexivity].
  run_eff. discriminate.
Qed.


(** ** The tasks found running *)

Lemma filter_fst_subseteq {A B : Type} (f : A * B -> bool)
  (l : list (A * B)) (k : A) :
  k ∈ (List.filter f l).*1 -> k ∈ l.*1.
Proof.
  induction l as [|x l IH]; simpl; [trivial|].
  destruct (f x); simpl; rewrite ?elem_of_cons; intuition.
Qed.

Lemma filter_fst_NoDup {A B : Type} (f : A * B -> bool) (l : list (A * B)) :
  NoDup l.*1 -> NoDup (List.filter f l).*1.
Proof.
  induction l as [|x l IH]; simpl; [trivial|].
  rewrite NoDup_cons. intros [Hx Hl].
  destruct (f x); simpl; [|auto].
  apply NoDup_cons. split; [|auto].
  intros Hin. apply Hx. eapply filter_fst_subseteq, Hin.
Qed.

Lemma runningIn_NoDup workspaceId db :
  NoDup (runningIn workspaceId db).*1.
Proof. apply filter_fst_NoDup, NoDup_fst_map_to_list. Qed.

Lemma runningIn_elem workspaceId db taskId task :
  (taskId, task) ∈ runningIn workspaceId db
  <-> tasks db !! taskId = Some task
      /\ workspace task = workspaceId
      /\ isRunning task = true
      /\ activeStartAt task <> None.
Proof.
  unfold runningIn. rewrite list_elem_of_In, filter_In, <- list_elem_of_In.
  rewrite elem_of_map_to_list. unfold matchesRunning. simpl.
  rewrite !andb_true_iff, String.eqb_eq.
  destruct (activeStartAt task); intuition congruence.
Qed.

(** ** The bulk stop *)

Lemma stopOneRunning_step userId now taskId task startedAt db :
  activeStartAt task = Some startedAt ->
  exists log after,
    stopOneRunning userId now (taskId, task) db
    = (Return tt, {| tasks := <[taskId := after]> (tasks db);
                     workLogs := workLogs db ++ [log] |})
    /\ bulkLogOf userId now (taskId, task) log
    /\ stoppedFrom now task after.
Proof.
  intros Hstart. unfold stopOneRunning. rewrite Hstart. run_eff.
  eexists _, _. split; [reflexivity|]. split.
  - unfold bulkLogOf; simpl. do 3 (split; [reflexivity|]).
    exists startedAt. auto.
  - exists startedAt. simpl. do 5 (split; [auto|]).
    intros total [= <-]. reflexivity.
Qed.

Lemma forEach_stopOneRunning userId now docs : forall db,
  NoDup docs.*1 ->
  (forall doc, doc ∈ docs -> activeStartAt doc.2 <> None) ->
  exists db' newLogs,
    forEach (stopOneRunning userId now) docs db = (Return tt, db')
    /\ workLogs db' = workLogs db ++ newLogs
    /\ Forall2 (bulkLogOf userId now) docs newLogs
    /\ (forall taskId before, (taskId, before) ∈ docs ->
          exists after, tasks db' !! taskId = Some after
                        /\ stoppedFrom now before after)
    /\ (forall taskId, taskId ∉ docs.*1 ->
          tasks db' !! taskId = tasks db !! taskId).
Proof.
  induction docs as [|[k t] rest IH]; intros db Hnodup Hactive.
  - exists db, []. simpl. unfold ret. rewrite app_nil_r.
    repeat split; auto. intros ? ? H. inversion H.
  - simpl in Hnodup. apply NoDup_cons in Hnodup as [Hk Hrest].
    destruct (activeStartAt t) as [startedAt|] eqn:Hstart.
    2:{ exfalso. apply (Hactive (k, t)); [left|exact Hstart]. }
    destruct (stopOneRunning_step userId now k t startedAt db Hstart)
      as (log & after & Hstep & Hlog & Hafter).
    destruct (IH {| tasks := <[k := after]> (tasks db);
                    workLogs := workLogs db ++ [log] |} Hrest)
      as (db' & newLogs & Hrun & Hlogs & Hall & Hstopped & Hother).
    { intros doc Hdoc. apply Hactive. right. exact Hdoc. }
    exists db', (log :: newLogs). simpl in *.
    split; [unfold bind at 1; rewrite Hstep; exact Hrun|].
    split; [rewrite Hlogs, <- app_assoc; reflexivity|].
    split; [constructor; assumption|].
    split.
    + intros taskId before Hin. apply elem_of_cons in Hin as [[= -> ->]|Hin].
      * exists after. split; [|exact Hafter].
        rewrite (Hother k Hk). apply lookup_insert_eq.
      * apply Hstopped, Hin.
    + intros taskId Hnot. apply not_elem_of_cons in Hnot as [Hne Hnot].
      rewrite (Hother taskId Hnot). apply lookup_insert_ne. congruence.
Qed.

Lemma stopAll_Return workspaceId userId now db n db' :
  stopAll workspaceId userId now db = (Return n, db') ->
  exists role,
    getMemberRoleInWorkspace userId workspaceId = Return role
    /\ (role = Roles.OWNER \/ role = Roles.ADMIN).
Proof.
  unfold stopAllRunningTaskTimersService. run_eff.
  destruct (getMemberRoleInWorkspace userId workspaceId) as [role|];
    [|discriminate].
  destruct (String.eqb role Roles.OWNER || String.eqb role Roles.ADMIN)
    eqn:Hpriv; simpl; [|discriminate].
  intros _. exists role. split; [reflexivity|].
  apply orb_true_iff in Hpriv as [H|H]; apply String.eqb_eq in H; auto.
Qed.

Lemma stopAll_Throw_state workspaceId userId now db e db' :
  stopAll workspaceId userId now db = (Throw e, db') -> db' = db.
Proof.
  unfold stopAllRunningTaskTimersService. run_eff.
  destruct (getMemberRoleInWorkspace userId workspaceId) as [role|];
    [|intros [= _ <-]; reflexivity].
  destruct (negb _); simpl; [intros [= _ <-]; reflexivity|].
  fold (runningIn workspaceId db).
  destruct (forEach_stopOneRunning userId now (runningIn workspaceId db) db)
    as (db1 & newLogs & Hrun & _).
  { apply runningIn_NoDup. }
  { intros [k t] Hin. apply runningIn_elem in Hin. tauto. }
  destruct (runningIn workspaceId db); [discriminate|].
  rewrite Hrun. discriminate.
Qed.

Lemma stopAll_privileged workspaceId userId now db role :
  getMemberRoleInWorkspace userId workspaceId = Return role ->
  role = Roles.OWNER \/ role = Roles.ADMIN ->
  exists db' newLogs,
    stopAll workspaceId userId now db
    = (Return (length (runningIn workspaceId db)), db')
    /\ workLogs db' = workLogs db ++ newLogs
    /\ Forall2 (bulkLogOf userId now) (runningIn workspaceId db) newLogs
    /\ (forall taskId before, (taskId, before) ∈ runningIn workspaceId db ->
          exists after, tasks db' !! taskId = Some after
                        /\ stoppedFrom now before after)
    /\ (forall taskId, taskId ∉ (runningIn workspaceId db).*1 ->
          tasks db' !! taskId = tasks db !! taskId).
Proof.
  intros Hrole Hpriv.
  destruct (forEach_stopOneRunning userId now (runningIn workspaceId db) db)
    as (db1 & newLogs & Hrun & Hrest).
  { apply runningIn_NoDup. }
  { intros [k t] Hin. apply runningIn_elem in Hin. tauto. }
  unfold stopAllRunningTaskTimersService. run_eff. rewrite Hrole.
  assert (String.eqb role Roles.OWNER || String.eqb role Roles.ADMIN = true)
    as ->.
  { destruct Hpriv as [-> | ->]; reflexivity. }
  simpl. fold (runningIn workspaceId db).
  destruct (runningIn workspaceId db) as [|doc docs] eqn:Hdocs.
  - exists db, []. simpl in Hrun. unfold ret in Hrun.
    injection Hrun as <-. rewrite app_nil_r. repeat split; auto.
    + intros ? ? H. inversion H.
  - exists db1, newLogs. rewrite Hrun. split; [reflexivity|exact Hrest].
Qed.


Lemma Forall2_elem_l {A B : Type} (P : A -> B -> Prop) (l : list A)
  (k : list B) (x : A) :
  Forall2 P l k -> x ∈ l -> exists y, y ∈ k /\ P x y.
Proof.
  induction 1 as [|a b l k Hab _ IH]; intros Hin; [inversion Hin|].
  apply elem_of_cons in Hin as [->|Hin].
  - exists b. split; [left|exact Hab].
  - destruct (IH Hin) as (y & Hy & HP). exists y. split; [right|]; auto.
Qed.

Lemma Forall2_elem_r {A B : Type} (P : A -> B -> Prop) (l : list A)
  (k : list B) (y : B) :
  Forall2 P l k -> y ∈ k -> exists x, x ∈ l /\ P x y.
Proof.
  induction 1 as [|a b l k Hab _ IH]; intros Hin; [inversion Hin|].
  apply elem_of_cons in Hin as [->|Hin].
  - exists a. split; [left|exact Hab].
  - destruct (IH Hin) as (x & Hx & HP). exists x. split; [right|]; auto.
Qed.

Lemma bulkLogOf_taskIds userId now docs newLogs :
  Forall2 (bulkLogOf userId now) docs newLogs ->
  log_taskId <$> newLogs = docs.*1.
Proof.
  induction 1 as [|doc log docs newLogs Hlog _ IH]; [reflexivity|].
  simpl. destruct Hlog as [-> _]. f_equal. exact IH.
Qed.

Lemma stoppedFrom_consistent now before after :
  stoppedFrom now before after -> timerConsistent after.
Proof.
  intros (startedAt & _ & Hrun & Hstart & _).
  unfold timerConsistent. rewrite Hrun, Hstart. intuition congruence.
Qed.

(** A bulk stop that returns, with everything it did. *)
Lemma stopAll_Return_full workspaceId userId now db n db' :
  stopAll workspaceId userId now db = (Return n, db') ->
  n = length (runningIn workspaceId db)
  /\ exists newLogs,
       workLogs db' = workLogs db ++ newLogs
       /\ Forall2 (bulkLogOf userId now) (runningIn workspaceId db) newLogs
       /\ (forall taskId before,
             (taskId, before) ∈ runningIn workspaceId db ->
             exists after, tasks db' !! taskId = Some after
                           /\ stoppedFrom now before after)
       /\ (forall taskId, taskId ∉ (runningIn workspaceId db).*1 ->
             tasks db' !! taskId = tasks db !! taskId).
Proof.
  intros Hrun.
  destruct (stopAll_Return _ _ _ _ _ _ Hrun) as (role & Hrole & Hpriv).
  destruct (stopAll_privileged workspaceId userId now db role Hrole Hpriv)
    as (db1 & newLogs & Hrun1 & Hrest).
  rewrite Hrun in Hrun1. injection Hrun1 as -> ->.
  split; [reflexivity|]. exists newLogs. exact Hrest.
Qed.

(** ** The claims about the timer *)

(** C1. For every stop of a running timer that succeeds, by
    [stopTaskTimerService] or for a task that
    [stopAllRunningTaskTimersService] found running: the appended
    work-log's duration in minutes is [max (1, floor (elapsedSeconds / 60))]
    where [elapsedSeconds = max (1, floor ((now - activeStartAt) / 1000))];
    the task's [totalSecondsSpent] afterwards is its value before plus
    [elapsedSeconds]; and [totalMinutesSpent] afterwards is
    [floor (totalSecondsSpent / 60)] of the new total. *)
Theorem stop_accounting :
  (forall taskId userId body now db task' db',
     stopTaskTimerService getMemberRoleInWorkspace
         taskId userId body now db = (Return task', db') ->
     exists before startedAt log,
       tasks db !! taskId = Some before
       /\ activeStartAt before = Some startedAt
       /\ workLogs db' = workLogs db ++ [log]
       /\ log_taskId log = taskId
       /\ tasks db' !! taskId = Some task'
       /\ let elapsedSeconds := Z.max 1 ((now - startedAt) / 1000) in
          log_durationMinutes log = Z.max 1 (elapsedSeconds / 60)
          /\ (forall s, totalSecondsSpent before = Some s ->
                totalSecondsSpent task' = Some (s + elapsedSeconds))
          /\ exists total,
               totalSecondsSpent task' = Some total
               /\ totalMinutesSpent task' = Some (total / 60))
  /\ (forall workspaceId userId now db n db',
        stopAllRunningTaskTimersService getMemberRoleInWorkspace
            workspaceId userId now db = (Return n, db') ->
        exists newLogs,
          workLogs db' = workLogs db ++ newLogs
          /\ forall taskId before startedAt,
               tasks db !! taskId = Some before ->
               workspace before = workspaceId ->
               isRunning before = true ->
               activeStartAt before = Some startedAt ->
               exists log after,
                 log ∈ newLogs
                 /\ log_taskId log = taskId
                 /\ tasks db' !! taskId = Some after
                 /\ let elapsedSeconds :=
                      Z.max 1 ((now - startedAt) / 1000) in
                    log_durationMinutes log = Z.max 1 (elapsedSeconds / 60)
                    /\ (forall s, totalSecondsSpent before = Some s ->
                          totalSecondsSpent after = Some (s + elapsedSeconds))
                    /\ exists total,
                         totalSecondsSpent after = Some total
                         /\ totalMinutesSpent after = Some (total / 60)).
Proof.
  split.
  - intros taskId userId body now db task' db' Hrun.
    destruct (stop_Return _ _ _ _ _ _ _ Hrun)
      as (before & startedAt & log & Hacc & _ & Hstart & -> & Hid & _ & Hdur
          & _ & _ & _ & Hsec & Hmin).
    apply ensureTaskTimerAccess_Return in Hacc as [Hfind _].
    exists before, startedAt, log. simpl.
    do 4 (split; [assumption || reflexivity|]).
    split; [apply lookup_insert_eq|].
    split; [exact Hdur|]. split.
    + intros s Hs. rewrite Hsec, Hs. reflexivity.
    + eexists. split; [exact Hsec|]. apply Hmin, Hsec.
  - intros workspaceId userId now db n db' Hrun.
    destruct (stopAll_Return_full _ _ _ _ _ _ Hrun)
      as (_ & newLogs & Hlogs & Hall & Hstopped & _).
    exists newLogs. split; [exact Hlogs|].
    intros taskId before startedAt Hfind Hws Hrunning Hstart.
    assert ((taskId, before) ∈ runningIn workspaceId db) as Hin.
    { apply runningIn_elem. rewrite Hstart. repeat split; auto; discriminate. }
    destruct (Forall2_elem_l _ _ _ _ Hall Hin)
      as (log & Hlog & Hid & _ & _ & a & Ha & _ & Hdur).
    destruct (Hstopped _ _ Hin)
      as (after & Hafter & a' & Ha' & _ & _ & _ & Hsec & Hmin).
    simpl in *. rewrite Hstart in Ha, Ha'.
    injection Ha as <-. injection Ha' as <-.
    exists log, after. do 3 (split; [assumption|]).
    split; [exact Hdur|]. split.
    + intros s Hs. rewrite Hsec, Hs. reflexivity.
    + eexists. split; [exact Hsec|]. apply Hmin, Hsec.
Qed.

(** C2. After every timer operation (start, stop, stop-all), whatever its
    outcome: the task a successful start or stop saved, and every task a
    bulk stop found running, has [isRunning = true] exactly when
    [activeStartAt] is non-null and [isRunning = false] exactly when it is
    null; and if every task of the collection satisfied this before the
    operation, every task satisfies it afterwards. *)
Theorem timer_flag_agrees_with_start_time :
  (forall taskId userId now db o db',
     startTaskTimerService getMemberRoleInWorkspace
         taskId userId now db = (o, db') ->
     (forall task', o = Return task' ->
        tasks db' !! taskId = Some task' /\ timerConsistent task')
     /\ (allConsistent db -> allConsistent db'))
  /\ (forall taskId userId body now db o db',
        stopTaskTimerService getMemberRoleInWorkspace
            taskId userId body now db = (o, db') ->
        (forall task', o = Return task' ->
           tasks db' !! taskId = Some task' /\ timerConsistent task')
        /\ (allConsistent db -> allConsistent db'))
  /\ (forall workspaceId userId now db o db',
        stopAllRunningTaskTimersService getMemberRoleInWorkspace
            workspaceId userId now db = (o, db') ->
        (forall n taskId before, o = Return n ->
           (taskId, before) ∈ runningIn workspaceId db ->
           exists after,
             tasks db' !! taskId = Some after /\ timerConsistent after)
        /\ (allConsistent db -> allConsistent db')).
Proof.
  assert (forall db taskId task',
            timerConsistent task' -> allConsistent db ->
            allConsistent {| tasks := <[taskId := task']> (tasks db);
                             workLogs := workLogs db |}) as Hsave.
  { intros db taskId task' Hcons Hall id t. simpl.
    destruct (decide (taskId = id)) as [->|Hne].
    - rewrite lookup_insert_eq. intros [= <-]. exact Hcons.
    - rewrite lookup_insert_ne by exact Hne. apply Hall. }
  split; [|split].
  - intros taskId userId now db [task'|e] db' Hrun.
    + destruct (start_Return _ _ _ _ _ _ Hrun)
        as (task & _ & _ & -> & Hflag & Hstart & _).
      assert (timerConsistent task') as Hcons.
      { unfold timerConsistent. rewrite Hflag, Hstart.
        intuition congruence. }
      split.
      * intros ? [= <-]. split; [apply lookup_insert_eq|exact Hcons].
      * apply Hsave, Hcons.
    + apply start_Throw_state in Hrun as ->.
      split; [discriminate|trivial].
  - intros taskId userId body now db [task'|e] db' Hrun.
    + destruct (stop_Return _ _ _ _ _ _ _ Hrun)
        as (task & startedAt & log & _ & _ & _ & -> & _ & _ & _ & Hflag
            & Hstart & _).
      assert (timerConsistent task') as Hcons.
      { unfold timerConsistent. rewrite Hflag, Hstart.
        intuition congruence. }
      split.
      * intros ? [= <-]. split; [apply lookup_insert_eq|exact Hcons].
      * intros Hall id t. simpl. apply (Hsave db taskId task' Hcons Hall).
    + apply stop_Throw_state in Hrun as ->.
      split; [discriminate|trivial].
  - intros workspaceId userId now db [n|e] db' Hrun.
    + destruct (stopAll_Return_full _ _ _ _ _ _ Hrun)
        as (_ & newLogs & _ & _ & Hstopped & Hother).
      split.
      * intros ? taskId before _ Hin.
        destruct (Hstopped _ _ Hin) as (after & Hafter & Hfrom).
        exists after. split; [exact Hafter|].
        eapply stoppedFrom_consistent, Hfrom.
      * intros Hall id t Hfind.
        destruct (decide (id ∈ (runningIn workspaceId db).*1)) as [Hin|Hout].
        -- apply list_elem_of_fmap in Hin as ([k before] & -> & Hin).
           destruct (Hstopped _ _ Hin) as (after & Hafter & Hfrom).
           simpl in Hfind. rewrite Hafter in Hfind. injection Hfind as <-.
           eapply stoppedFrom_consistent, Hfrom.
        -- rewrite (Hother id Hout) in Hfind. eapply Hall, Hfind.
    + apply stopAll_Throw_state in Hrun as ->.
      split; [discriminate|trivial].
Qed.


(** C5. A bulk stop by a privileged actor (OWNER or ADMIN) never fails. It
    returns as [stoppedCount] the number N of tasks of the workspace that
    are running, and appends exactly N work-logs, one for each of these
    tasks and in their order; when no task is running it returns 0 and
    leaves the collections as they were. The running tasks are those the
    query finds ([isRunning] set and [activeStartAt] non-null); when the
    collection is consistent they are the tasks with [isRunning] set. *)
Theorem stopAll_count :
  forall workspaceId userId now db role,
    getMemberRoleInWorkspace userId workspaceId = Return role ->
    role = Roles.OWNER \/ role = Roles.ADMIN ->
    let running := runningIn workspaceId db in
    (forall taskId,
       taskId ∈ running.*1
       <-> exists task,
             tasks db !! taskId = Some task
             /\ workspace task = workspaceId
             /\ isRunning task = true
             /\ activeStartAt task <> None)
    /\ (allConsistent db ->
        forall taskId,
          taskId ∈ running.*1
          <-> exists task,
                tasks db !! taskId = Some task
                /\ workspace task = workspaceId
                /\ isRunning task = true)
    /\ NoDup running.*1
    /\ exists db' newLogs,
         stopAllRunningTaskTimersService getMemberRoleInWorkspace
             workspaceId userId now db = (Return (length running), db')
         /\ workLogs db' = workLogs db ++ newLogs
         /\ length newLogs = length running
         /\ log_taskId <$> newLogs = running.*1
         /\ (running = [] -> newLogs = [] /\ db' = db).
Proof.
  intros workspaceId userId now db role Hrole Hpriv running.
  assert (forall taskId,
            taskId ∈ running.*1
            <-> exists task,
                  tasks db !! taskId = Some task
                  /\ workspace task = workspaceId
                  /\ isRunning task = true
                  /\ activeStartAt task <> None) as Hids.
  { intros taskId. rewrite list_elem_of_fmap. split.
    + intros ([k t] & -> & Hin). exists t. apply runningIn_elem, Hin.
    + intros (t & Hin). exists (taskId, t). split; [reflexivity|].
      apply runningIn_elem, Hin. }
  split; [exact Hids|]. split; [|split; [apply runningIn_NoDup|]].
  - intros Hall taskId. rewrite Hids. split.
    + intros (t & Hfind & Hws & Hrun & _). eauto.
    + intros (t & Hfind & Hws & Hrun). exists t.
      do 3 (split; [assumption|]).
      apply (Hall taskId t Hfind), Hrun.
  - destruct (stopAll_privileged workspaceId userId now db role Hrole Hpriv)
      as (db' & newLogs & Hrun & Hlogs & Hall & _ & Hother).
    fold running in Hrun, Hall, Hother.
    exists db', newLogs. do 2 (split; [assumption|]).
    split; [symmetry; eapply Forall2_length, Hall|].
    split; [eapply bulkLogOf_taskIds, Hall|].
    intros Hnone. rewrite Hnone in Hall, Hother.
    apply Forall2_nil_inv_l in Hall. subst newLogs.
    split; [reflexivity|].
    rewrite app_nil_r in Hlogs. destruct db as [ts ls], db' as [ts' ls'].
    simpl in *. subst ls'. f_equal. apply map_eq. intros id.
    apply Hother. apply not_elem_of_nil.
Qed.

(** C6. Every work-log a bulk stop creates belongs to a task it found
    running, and every such task gets one; the log's acting user is the
    task's assignee; with no assignee, the task's creator; with neither,
    the invoking actor. So the invoking actor is named only when they are
    the assignee themselves, or there is no assignee and they are the
    creator or there is no creator either. *)
Theorem stopAll_log_user :
  forall workspaceId userId now db n db',
    stopAllRunningTaskTimersService getMemberRoleInWorkspace
        workspaceId userId now db = (Return n, db') ->
    exists newLogs,
      workLogs db' = workLogs db ++ newLogs
      /\ (forall taskId task,
            (taskId, task) ∈ runningIn workspaceId db ->
            exists log, log ∈ newLogs /\ log_taskId log = taskId)
      /\ forall log, log ∈ newLogs ->
           exists task,
             (log_taskId log, task) ∈ runningIn workspaceId db
             /\ tasks db !! log_taskId log = Some task
             /\ (forall a, assignedTo task = Some a -> log_userId log = a)
             /\ (forall c, assignedTo task = None ->
                   createdBy task = Some c -> log_userId log = c)
             /\ (assignedTo task = None -> createdBy task = None ->
                   log_userId log = userId)
             /\ (log_userId log = userId ->
                   assignedTo task = Some userId
                   \/ (assignedTo task = None
                       /\ (createdBy task = Some userId
                           \/ createdBy task = None))).
Proof.
  intros workspaceId userId now db n db' Hrun.
  destruct (stopAll_Return_full _ _ _ _ _ _ Hrun)
    as (_ & newLogs & Hlogs & Hall & _ & _).
  exists newLogs. split; [exact Hlogs|]. split.
  - intros taskId task Hin.
    destruct (Forall2_elem_l _ _ _ _ Hall Hin) as (log & Hlog & Hid & _).
    exists log. auto.
  - intros log Hlog.
    destruct (Forall2_elem_r _ _ _ _ Hall Hlog)
      as ([k task] & Hin & Hid & _ & Huser & _).
    simpl in *. subst k. exists task. split; [exact Hin|].
    split; [apply runningIn_elem in Hin; tauto|].
    rewrite Huser.
    split; [intros a ->; reflexivity|].
    split; [intros c -> ->; reflexivity|].
    split; [intros -> ->; reflexivity|].
    destruct (assignedTo task) as [a|]; [intros ->; auto|].
    destruct (createdBy task) as [c|]; [intros ->|]; auto.
Qed.

(** C7. Start and stop get past the access check only if the actor's role
    in the task's workspace is OWNER or ADMIN, or the actor is the task's
    assignee; such an actor does pass the check; and an actor with any
    other role who is not the assignee gets an Unauthorized error from
    both, with nothing changed. *)
Theorem timer_access :
  (forall taskId userId db task,
     (ensureTaskTimerAccess getMemberRoleInWorkspace
         taskId userId db).1 = Return task ->
     tasks db !! taskId = Some task
     /\ exists role,
          getMemberRoleInWorkspace userId (workspace task) = Return role
          /\ (role = Roles.OWNER \/ role = Roles.ADMIN
              \/ assignedTo task = Some userId))
  /\ (forall taskId userId now db task' db',
        startTaskTimerService getMemberRoleInWorkspace
            taskId userId now db = (Return task', db') ->
        exists task, (ensureTaskTimerAccess getMemberRoleInWorkspace
            taskId userId db).1 = Return task)
  /\ (forall taskId userId body now db task' db',
        stopTaskTimerService getMemberRoleInWorkspace
            taskId userId body now db = (Return task', db') ->
        exists task, (ensureTaskTimerAccess getMemberRoleInWorkspace
            taskId userId db).1 = Return task)
  /\ (forall taskId userId db task role,
        tasks db !! taskId = Some task ->
        getMemberRoleInWorkspace userId (workspace task) = Return role ->
        role = Roles.OWNER \/ role = Roles.ADMIN
        \/ assignedTo task = Some userId ->
        ensureTaskTimerAccess getMemberRoleInWorkspace
            taskId userId db = (Return task, db))
  /\ (forall taskId userId body now db task role,
        tasks db !! taskId = Some task ->
        getMemberRoleInWorkspace userId (workspace task) = Return role ->
        role <> Roles.OWNER -> role <> Roles.ADMIN ->
        assignedTo task <> Some userId ->
        let denied :=
          Throw (HttpException
                   "You do not have permission to manage this task timer."
                   UNAUTHORIZED) in
        startTaskTimerService getMemberRoleInWorkspace
            taskId userId now db = (denied, db)
        /\ stopTaskTimerService getMemberRoleInWorkspace
            taskId userId body now db = (denied, db)).
Proof.
  split; [apply ensureTaskTimerAccess_Return|].
  split.
  { intros taskId userId now db task' db' Hrun.
    destruct (start_Return _ _ _ _ _ _ Hrun) as (task & Hacc & _).
    exists task. exact Hacc. }
  split.
  { intros taskId userId body now db task' db' Hrun.
    destruct (stop_Return _ _ _ _ _ _ _ Hrun)
      as (task & ? & ? & Hacc & _).
    exists task. exact Hacc. }
  split; [apply ensureTaskTimerAccess_allowed|].
  intros taskId userId body now db task role Hfind Hrole Ho Ha Hassignee.
  pose proof (ensureTaskTimerAccess_denied _ _ _ _ _ Hfind Hrole Ho Ha
                Hassignee) as Hdenied.
  split; [apply start_denied|apply stop_denied]; rewrite Hdenied;
    reflexivity.
Qed.

(** C9. A start that succeeds sets [firstStartedAt] to the current time if
    the task had none and leaves it as it was otherwise, sets
    [activeStartAt] to the current time in both cases, and touches no
    other task; stop and stop-all, whatever their outcome, leave the
    [firstStartedAt] of every task as it was. *)
Theorem firstStartedAt_set_once :
  (forall taskId userId now db task' db',
     startTaskTimerService getMemberRoleInWorkspace
         taskId userId now db = (Return task', db') ->
     exists before,
       tasks db !! taskId = Some before
       /\ tasks db' !! taskId = Some task'
       /\ activeStartAt task' = Some now
       /\ (firstStartedAt before = None -> firstStartedAt task' = Some now)
       /\ (forall f, firstStartedAt before = Some f ->
             firstStartedAt task' = Some f)
       /\ (forall other, other <> taskId ->
             tasks db' !! other = tasks db !! other))
  /\ (forall taskId userId body now db o db',
        stopTaskTimerService getMemberRoleInWorkspace
            taskId userId body now db = (o, db') ->
        forall id,
          firstStartedAt <$> tasks db' !! id
          = firstStartedAt <$> tasks db !! id)
  /\ (forall workspaceId userId now db o db',
        stopAllRunningTaskTimersService getMemberRoleInWorkspace
            workspaceId userId now db = (o, db') ->
        forall id,
          firstStartedAt <$> tasks db' !! id
          = firstStartedAt <$> tasks db !! id).
Proof.
  split; [|split].
  - intros taskId userId now db task' db' Hrun.
    destruct (start_Return _ _ _ _ _ _ Hrun)
      as (before & Hacc & _ & -> & _ & Hstart & Hfirst).
    apply ensureTaskTimerAccess_Return in Hacc as [Hfind _].
    exists before. simpl. split; [exact Hfind|].
    split; [apply lookup_insert_eq|]. split; [exact Hstart|].
    split; [intros Hnone; rewrite Hfirst, Hnone; reflexivity|].
    split; [intros f Hsome; rewrite Hfirst, Hsome; reflexivity|].
    intros other Hne. apply lookup_insert_ne. congruence.
  - intros taskId userId body now db [task'|e] db' Hrun id.
    + destruct (stop_Return _ _ _ _ _ _ _ Hrun)
        as (before & startedAt & log & Hacc & _ & _ & -> & _ & _ & _ & _ & _
            & Hfirst & _).
      apply ensureTaskTimerAccess_Return in Hacc as [Hfind _]. simpl.
      destruct (decide (taskId = id)) as [->|Hne].
      * rewrite lookup_insert_eq, Hfind. simpl. rewrite Hfirst. reflexivity.
      * rewrite lookup_insert_ne by exact Hne. reflexivity.
    + apply stop_Throw_state in Hrun as ->. reflexivity.
  - intros workspaceId userId now db [n|e] db' Hrun id.
    + destruct (stopAll_Return_full _ _ _ _ _ _ Hrun)
        as (_ & newLogs & _ & _ & Hstopped & Hother).
      destruct (decide (id ∈ (runningIn workspaceId db).*1)) as [Hin|Hout].
      * apply list_elem_of_fmap in Hin as ([k before] & -> & Hin).
        destruct (Hstopped _ _ Hin)
          as (after & Hafter & a & _ & _ & _ & Hfirst & _).
        apply runningIn_elem in Hin as [Hfind _]. simpl.
        rewrite Hafter, Hfind. simpl. rewrite Hfirst. reflexivity.
      * rewrite (Hother id Hout). reflexivity.
    + apply stopAll_Throw_state in Hrun as ->. reflexivity.
Qed.

(** C10. When a stop that succeeds, single or bulk, finds a task with no
    [totalSecondsSpent], the new total of seconds is
    [totalMinutesSpent * 60] plus the elapsed seconds, or just the elapsed
    seconds when [totalMinutesSpent] is absent too; the minutes recorded
    afterwards are then no fewer than the minutes recorded before. *)
Theorem stop_seeds_seconds_from_minutes :
  (forall taskId userId body now db task' db',
     stopTaskTimerService getMemberRoleInWorkspace
         taskId userId body now db = (Return task', db') ->
     exists before startedAt,
       tasks db !! taskId = Some before
       /\ activeStartAt before = Some startedAt
       /\ tasks db' !! taskId = Some task'
       /\ let elapsedSeconds := Z.max 1 ((now - startedAt) / 1000) in
          (totalSecondsSpent before = None ->
           (forall m, totalMinutesSpent before = Some m ->
              totalSecondsSpent task' = Some (m * 60 + elapsedSeconds)
              /\ exists m', totalMinutesSpent task' = Some m' /\ m <= m')
           /\ (totalMinutesSpent before = None ->
                 totalSecondsSpent task' = Some (0 + elapsedSeconds))))
  /\ (forall workspaceId userId now db n db' taskId before startedAt,
        stopAllRunningTaskTimersService getMemberRoleInWorkspace
            workspaceId userId now db = (Return n, db') ->
        tasks db !! taskId = Some before ->
        workspace before = workspaceId ->
        isRunning before = true ->
        activeStartAt before = Some startedAt ->
        exists after,
          tasks db' !! taskId = Some after
          /\ let elapsedSeconds := Z.max 1 ((now - startedAt) / 1000) in
             (totalSecondsSpent before = None ->
              (forall m, totalMinutesSpent before = Some m ->
                 totalSecondsSpent after = Some (m * 60 + elapsedSeconds)
                 /\ exists m', totalMinutesSpent after = Some m' /\ m <= m')
              /\ (totalMinutesSpent before = None ->
                    totalSecondsSpent after = Some (0 + elapsedSeconds)))).
Proof.
  assert (forall m e, 1 <= e -> m <= (m * 60 + e) / 60) as Hfloor.
  { intros m e He. apply Z.div_le_lower_bound; lia. }
  split.
  - intros taskId userId body now db task' db' Hrun.
    destruct (stop_Return _ _ _ _ _ _ _ Hrun)
      as (before & startedAt & log & Hacc & _ & Hstart & -> & _ & _ & _
          & _ & _ & _ & Hsec & Hmin).
    apply ensureTaskTimerAccess_Return in Hacc as [Hfind _].
    exists before, startedAt. simpl.
    do 2 (split; [assumption|]). split; [apply lookup_insert_eq|].
    intros Hnone. rewrite Hnone in Hsec. split.
    + intros m Hm. rewrite Hm in Hsec. split; [exact Hsec|].
      eexists. split; [apply Hmin, Hsec|]. apply Hfloor. lia.
    + intros Hm. rewrite Hm in Hsec. exact Hsec.
  - intros workspaceId userId now db n db' taskId before startedAt Hrun
      Hfind Hws Hrunning Hstart.
    destruct (stopAll_Return_full _ _ _ _ _ _ Hrun)
      as (_ & newLogs & _ & _ & Hstopped & _).
    assert ((taskId, before) ∈ runningIn workspaceId db) as Hin.
    { apply runningIn_elem. rewrite Hstart. repeat split; auto; discriminate. }
    destruct (Hstopped _ _ Hin)
      as (after & Hafter & a & Ha & _ & _ & _ & Hsec & Hmin).
    rewrite Hstart in Ha. injection Ha as <-.
    exists after. split; [exact Hafter|]. simpl.
    intros Hnone. rewrite Hnone in Hsec. split.
    + intros m Hm. rewrite Hm in Hsec. split; [exact Hsec|].
      eexists. split; [apply Hmin, Hsec|]. apply Hfloor. lia.
    + intros Hm. rewrite Hm in Hsec. exact Hsec.
Qed.

End TimerProofs.

(** ** Creating directories *)

Lemma mkdirFrom_keeps todo : forall done d o d',
  mkdirFrom done todo d = (o, d') ->
  forall q n, d !! q = Some n -> d' !! q = Some n.
Proof.
  induction todo as [|seg rest IH]; intros done d o d' Hrun q n Hq.
  - injection Hrun as <- <-. exact Hq.
  - simpl in Hrun.
    destruct (d !! (done ++ [seg])) as [[| |]|] eqn:Hp.
    + eapply IH; eauto.
    + injection Hrun as <- <-. exact Hq.
    + injection Hrun as <- <-. exact Hq.
    + eapply IH; [exact Hrun|].
      rewrite lookup_insert_ne; [exact Hq|]. congruence.
Qed.

Lemma mkdirFrom_elsewhere todo : forall done d o d',
  mkdirFrom done todo d = (o, d') ->
  forall q, ~ q `prefix_of` (done ++ todo) -> d' !! q = d !! q.
Proof.
  induction todo as [|seg rest IH]; intros done d o d' Hrun q Hq.
  - injection Hrun as <- <-. reflexivity.
  - simpl in Hrun.
    assert (~ q `prefix_of` ((done ++ [seg]) ++ rest)) as Hq'.
    { rewrite <- app_assoc. exact Hq. }
    destruct (d !! (done ++ [seg])) as [[| |]|] eqn:Hp.
    + eapply IH; eauto.
    + injection Hrun as <- <-. reflexivity.
    + injection Hrun as <- <-. reflexivity.
    + rewrite (IH _ _ _ _ Hrun q Hq'). apply lookup_insert_ne.
      intros <-. apply Hq. exists rest. rewrite <- app_assoc. reflexivity.
Qed.

Lemma mkdirFrom_dirs todo : forall done d d',
  mkdirFrom done todo d = (Return tt, d') -> dirsAlong done todo d'.
Proof.
  induction todo as [|seg rest IH]; intros done d d' Hrun; [exact I|].
  simpl in *.
  destruct (d !! (done ++ [seg])) as [[| |]|] eqn:Hp; try discriminate.
  - split; [|eapply IH, Hrun].
    eapply mkdirFrom_keeps; [exact Hrun|exact Hp].
  - split; [|eapply IH, Hrun].
    eapply mkdirFrom_keeps; [exact Hrun|apply lookup_insert_eq].
Qed.

Lemma dirsAlong_mkdirFrom todo : forall done d,
  dirsAlong done todo d -> mkdirFrom done todo d = (Return tt, d).
Proof.
  induction todo as [|seg rest IH]; intros done d Hdirs; [reflexivity|].
  simpl in *. destruct Hdirs as [-> Hrest]. apply IH, Hrest.
Qed.

Lemma dirsAlong_insert todo : forall done d q,
  dirsAlong done todo d -> dirsAlong done todo (<[q := Directory]> d).
Proof.
  induction todo as [|seg rest IH]; intros done d q Hdirs; [exact I|].
  simpl in *. destruct Hdirs as [Hp Hrest]. split; [|apply IH, Hrest].
  destruct (decide (q = done ++ [seg])) as [->|Hne].
  - apply lookup_insert_eq.
  - rewrite lookup_insert_ne; [exact Hp|exact Hne].
Qed.

Lemma lookupNode_mkdirFrom done todo d o d' q n :
  mkdirFrom done todo d = (o, d') ->
  lookupNode d q = Some n -> lookupNode d' q = Some n.
Proof.
  intros Hrun. destruct q; simpl; [trivial|].
  eapply mkdirFrom_keeps, Hrun.
Qed.

(** ** Creating a folder *)

Section FileProofs.

Variable FILE_STORAGE_ROOT : list string.
Variable resolve : list string -> string -> Outcome (list string).
Variable sanitizeFileName : string -> string.
Variable path_dirname : string -> string.

Local Abbreviation createFolder :=
  (createWorkspaceFolderService FILE_STORAGE_ROOT resolve sanitizeFileName).

Lemma createFolder_exists workspaceId userId relPath name st targetAbs n :
  (mkdirFrom [] (path_join FILE_STORAGE_ROOT workspaceId) (disk st)).1
  = Return tt ->
  resolve (path_join FILE_STORAGE_ROOT workspaceId) (default "" relPath)
  = Return targetAbs ->
  lookupNode (disk st) (path_join targetAbs (sanitizeFileName name))
  = Some n ->
  (createFolder workspaceId userId relPath name st).1
  = Throw (BadRequestException "Folder already exists").
Proof.
  intros Hroot Hresolve Hnode.
  unfold createWorkspaceFolderService, ensureWorkspaceRoot,
    fs_mkdir_recursive, fs_mkdir, logFileAccess, FileAccessLogModel_create,
    onDisk.
  run_eff.
  destruct (mkdirFrom [] (path_join FILE_STORAGE_ROOT workspaceId) (disk st))
    as [o d] eqn:Hmk.
  simpl in Hroot. subst o. simpl. rewrite Hresolve. simpl.
  rewrite (lookupNode_mkdirFrom _ _ _ _ _ _ _ Hmk Hnode). reflexivity.
Qed.

Lemma createFolder_Return workspaceId userId relPath name st r st' :
  createFolder workspaceId userId relPath name st = (Return r, st') ->
  exists targetAbs d,
    mkdirFrom [] (path_join FILE_STORAGE_ROOT workspaceId) (disk st)
    = (Return tt, d)
    /\ resolve (path_join FILE_STORAGE_ROOT workspaceId) (default "" relPath)
       = Return targetAbs
    /\ disk st'
       = <[path_join targetAbs (sanitizeFileName name) := Directory]> d.
Proof.
  unfold createWorkspaceFolderService, ensureWorkspaceRoot,
    fs_mkdir_recursive, fs_mkdir, logFileAccess, FileAccessLogModel_create,
    onDisk.
  run_eff.
  destruct (mkdirFrom [] (path_join FILE_STORAGE_ROOT workspaceId) (disk st))
    as [[[]|e] d] eqn:Hmk; simpl; [|discriminate].
  destruct (resolve _ _) as [targetAbs|e]; simpl; [|discriminate].
  destruct (lookupNode d (path_join targetAbs (sanitizeFileName name)));
    simpl; [discriminate|].
  destruct (lookupNode d (removelast _)) as [[| |]|]; simpl;
    try discriminate.
  intros [= _ <-]. exists targetAbs, d. auto.
Qed.

Lemma createFolder_twice workspaceId userId relPath name st r st' :
  createFolder workspaceId userId relPath name st = (Return r, st') ->
  createFolder workspaceId userId relPath name st'
  = (Throw (BadRequestException "Folder already exists"), st').
Proof.
  intros Hfirst.
  destruct (createFolder_Return _ _ _ _ _ _ _ Hfirst)
    as (targetAbs & d & Hmk & Hresolve & Hdisk).
  assert (mkdirFrom [] (path_join FILE_STORAGE_ROOT workspaceId) (disk st')
          = (Return tt, disk st')) as Hmk'.
  { apply dirsAlong_mkdirFrom. rewrite Hdisk.
    apply dirsAlong_insert. eapply mkdirFrom_dirs, Hmk. }
  unfold createWorkspaceFolderService, ensureWorkspaceRoot,
    fs_mkdir_recursive, fs_mkdir, logFileAccess, FileAccessLogModel_create,
    onDisk.
  run_eff. rewrite Hmk'. simpl. rewrite Hresolve. simpl.
  assert (exists n,
            lookupNode (disk st')
              (path_join targetAbs (sanitizeFileName name)) = Some n)
    as [n ->].
  { destruct (path_join targetAbs (sanitizeFileName name)) eqn:Hp; simpl;
      [eauto|].
    rewrite Hdisk, lookup_insert_eq. eauto. }
  destruct st'; reflexivity.
Qed.

(** ** Every operation resolves the path first *)

Ltac run_file_service :=
  unfold funnelsThrough, ensureWorkspaceRoot, fs_mkdir_recursive, onDisk;
  run_eff.

Ltac funnel_cases workspaceRoot st :=
  let Hmk := fresh "Hmk" in
  let Hres := fresh "Hres" in
  destruct (mkdirFrom [] workspaceRoot (disk st)) as [[[]|?] ?] eqn:Hmk;
  simpl;
  [destruct (resolve workspaceRoot _) as [?|?] eqn:Hres; simpl|];
  (split;
   [first [discriminate | intros; eauto]
   |first [discriminate
          |intros; split; [eauto|]; split; [reflexivity|];
           intros; eapply mkdirFrom_elsewhere; eauto]]).

Lemma list_funnels workspaceId userId relPath :
  funnelsThrough resolve (path_join FILE_STORAGE_ROOT workspaceId)
    (default "" relPath)
    (listWorkspaceFilesService FILE_STORAGE_ROOT resolve workspaceId userId
       relPath).
Proof.
  unfold listWorkspaceFilesService. run_file_service. intros st.
  funnel_cases (path_join FILE_STORAGE_ROOT workspaceId) st.
Qed.

Lemma createFolder_funnels workspaceId userId relPath name :
  funnelsThrough resolve (path_join FILE_STORAGE_ROOT workspaceId)
    (default "" relPath)
    (createFolder workspaceId userId relPath name).
Proof.
  unfold createWorkspaceFolderService. run_file_service. intros st.
  funnel_cases (path_join FILE_STORAGE_ROOT workspaceId) st.
Qed.

Lemma delete_funnels workspaceId userId relPath :
  funnelsThrough resolve (path_join FILE_STORAGE_ROOT workspaceId) relPath
    (deleteWorkspaceItemService FILE_STORAGE_ROOT resolve path_dirname
       workspaceId userId relPath).
Proof.
  unfold deleteWorkspaceItemService. run_file_service. intros st.
  funnel_cases (path_join FILE_STORAGE_ROOT workspaceId) st.
Qed.

Lemma upload_funnels workspaceId userId relPath files :
  funnelsThrough resolve (path_join FILE_STORAGE_ROOT workspaceId)
    (default "" relPath)
    (uploadWorkspaceFilesService FILE_STORAGE_ROOT resolve sanitizeFileName
       workspaceId userId relPath files).
Proof.
  unfold uploadWorkspaceFilesService. destruct files as [|f files].
  - unfold funnelsThrough, throw. simpl. intros st.
    split; [discriminate|]. intros e _. eauto.
  - run_file_service. intros st.
    funnel_cases (path_join FILE_STORAGE_ROOT workspaceId) st.
Qed.

Lemma download_funnels workspaceId userId relPath :
  funnelsThrough resolve (path_join FILE_STORAGE_ROOT workspaceId) relPath
    (getWorkspaceFileDownloadService FILE_STORAGE_ROOT resolve path_dirname
       workspaceId userId relPath).
Proof.
  unfold getWorkspaceFileDownloadService. run_file_service. intros st.
  destruct (resolve (path_join FILE_STORAGE_ROOT workspaceId) relPath)
    as [targetAbs|e0] eqn:Hres; simpl.
  - split; [eauto|discriminate].
  - split; [discriminate|]. intros e _. destruct st; simpl. eauto.
Qed.

End FileProofs.

(** ** The resolver *)

Lemma isHexDigit_not_slash c : isHexDigit c = true -> Ascii.eqb c slash = false.
Proof.
  destruct c as [[] [] [] [] [] [] [] []]; try discriminate; reflexivity.
Qed.

Lemma splitSegments_allHex s : allHex s = true -> splitSegments s = [s].
Proof.
  induction s as [|c s IH]; simpl; [reflexivity|].
  intros H. apply andb_true_iff in H as [Hc Hs].
  rewrite (isHexDigit_not_slash c Hc), (IH Hs). reflexivity.
Qed.

Lemma isObjectId_length s : isObjectId s = true -> String.length s = 24%nat.
Proof.
  unfold isObjectId. intros H. apply andb_true_iff in H as [H _].
  apply Nat.eqb_eq in H. exact H.
Qed.

Lemma path_join_objectId storageRoot workspaceId :
  isObjectId workspaceId = true ->
  path_join storageRoot workspaceId = storageRoot ++ [workspaceId].
Proof.
  intros Hid. pose proof (isObjectId_length _ Hid) as Hlen.
  unfold isObjectId in Hid. apply andb_true_iff in Hid as [_ Hhex].
  unfold path_join, normalizeFrom. rewrite (splitSegments_allHex _ Hhex).
  simpl. unfold normalizeStep.
  destruct (String.eqb_spec workspaceId ""); [subst; discriminate|].
  destruct (String.eqb_spec workspaceId "."); [subst; discriminate|].
  destruct (String.eqb_spec workspaceId ".."); [subst; discriminate|].
  reflexivity.
Qed.

Lemma resolveWorkspacePath_inside workspaceRoot relPath targetAbs :
  resolveWorkspacePath workspaceRoot relPath = Return targetAbs ->
  targetAbs = path_resolve workspaceRoot relPath
  /\ workspaceRoot `prefix_of` targetAbs.
Proof.
  unfold resolveWorkspacePath. case_bool_decide as Hin; [|discriminate].
  intros [= <-]. auto.
Qed.

Lemma resolveWorkspacePath_outside workspaceRoot relPath :
  ~ workspaceRoot `prefix_of` path_resolve workspaceRoot relPath ->
  resolveWorkspacePath workspaceRoot relPath
  = Throw (BadRequestException "Invalid path").
Proof.
  unfold resolveWorkspacePath. intros Hout.
  case_bool_decide; [contradiction|reflexivity].
Qed.

Lemma resolveWorkspacePath_empty workspaceRoot :
  resolveWorkspacePath workspaceRoot "" = Return workspaceRoot.
Proof.
  unfold resolveWorkspacePath. simpl.
  case_bool_decide as Hin; [reflexivity|]. destruct Hin. reflexivity.
Qed.

Lemma dotdot_etc_outside storageRoot workspaceId :
  isObjectId workspaceId = true ->
  ~ (storageRoot ++ [workspaceId])
      `prefix_of` path_resolve (storageRoot ++ [workspaceId]) "../../etc".
Proof.
  intros Hid Hprefix.
  change (path_resolve (storageRoot ++ [workspaceId]) "../../etc")
    with (removelast (removelast (storageRoot ++ [workspaceId])) ++ ["etc"])
    in Hprefix.
  rewrite removelast_last in Hprefix.
  destruct storageRoot as [|seg rest] using rev_ind.
  - simpl in Hprefix. destruct Hprefix as [k Hk].
    injection Hk as Hk _. apply isObjectId_length in Hid.
    rewrite <- Hk in Hid. discriminate.
  - rewrite removelast_last in Hprefix. apply prefix_length in Hprefix.
    rewrite !length_app in Hprefix. simpl in Hprefix. lia.
Qed.

(** ** The claims about the file library *)

(** C8, as the code has it. Creating a folder whose sanitized target name
    already exists in the target directory fails with a BadRequest error
    whose message is "Folder already exists"; so after a folder was
    created, creating it again with the same arguments fails this way and
    changes nothing. *)
Theorem create_folder_already_exists :
  forall (FILE_STORAGE_ROOT : list string)
    (resolve : list string -> string -> Outcome (list string))
    (sanitizeFileName : string -> string)
    (workspaceId userId : string) (relPath : option string) (name : string)
    (st : Storage),
    let create :=
      createWorkspaceFolderService FILE_STORAGE_ROOT resolve
        sanitizeFileName workspaceId userId relPath name in
    let workspaceRoot := path_join FILE_STORAGE_ROOT workspaceId in
    (forall targetAbs n,
       (mkdirFrom [] workspaceRoot (disk st)).1 = Return tt ->
       resolve workspaceRoot (default "" relPath) = Return targetAbs ->
       lookupNode (disk st) (path_join targetAbs (sanitizeFileName name))
       = Some n ->
       (create st).1
       = Throw (HttpException "Folder already exists" BAD_REQUEST))
    /\ (forall r st',
          create st = (Return r, st') ->
          create st'
          = (Throw (HttpException "Folder already exists" BAD_REQUEST), st')).
Proof.
  intros R resolve sanitize workspaceId userId relPath name st create
    workspaceRoot.
  split.
  - intros targetAbs n. apply createFolder_exists.
  - apply createFolder_twice.
Qed.

(** C4. The path resolver accepts a relative path only if it resolves to
    the workspace root or below it, and rejects every path that resolves
    outside; it rejects [../../etc] for the root of every workspace, and
    resolves the empty path to the workspace root itself. Each of the five
    operations of the file library (list, download, upload, create folder,
    delete) passes the client's path through the resolver first: it
    succeeds only if the resolver accepted the path, and if the resolver
    rejects it the operation fails without an access-log entry and without
    a change on disk other than the creation of the workspace root. *)
Theorem workspace_paths_stay_inside :
  (forall workspaceRoot relPath targetAbs,
     resolveWorkspacePath workspaceRoot relPath = Return targetAbs ->
     targetAbs = path_resolve workspaceRoot relPath
     /\ workspaceRoot `prefix_of` targetAbs)
  /\ (forall workspaceRoot relPath,
        ~ workspaceRoot `prefix_of` path_resolve workspaceRoot relPath ->
        exists e, resolveWorkspacePath workspaceRoot relPath = Throw e)
  /\ (forall storageRoot workspaceId,
        isObjectId workspaceId = true ->
        exists e,
          resolveWorkspacePath (path_join storageRoot workspaceId)
            "../../etc" = Throw e)
  /\ (forall workspaceRoot,
        resolveWorkspacePath workspaceRoot "" = Return workspaceRoot)
  /\ (forall (FILE_STORAGE_ROOT : list string)
        (sanitizeFileName path_dirname : string -> string)
        (workspaceId userId : string),
        let workspaceRoot := path_join FILE_STORAGE_ROOT workspaceId in
        (forall relPath,
           funnelsThrough resolveWorkspacePath workspaceRoot
             (default "" relPath)
             (listWorkspaceFilesService FILE_STORAGE_ROOT
                resolveWorkspacePath workspaceId userId relPath))
        /\ (forall relPath,
              funnelsThrough resolveWorkspacePath workspaceRoot relPath
                (getWorkspaceFileDownloadService FILE_STORAGE_ROOT
                   resolveWorkspacePath path_dirname workspaceId userId
                   relPath))
        /\ (forall relPath files,
              funnelsThrough resolveWorkspacePath workspaceRoot
                (default "" relPath)
                (uploadWorkspaceFilesService FILE_STORAGE_ROOT
                   resolveWorkspacePath sanitizeFileName workspaceId userId
                   relPath files))
        /\ (forall relPath name,
              funnelsThrough resolveWorkspacePath workspaceRoot
                (default "" relPath)
                (createWorkspaceFolderService FILE_STORAGE_ROOT
                   resolveWorkspacePath sanitizeFileName workspaceId userId
                   relPath name))
        /\ (forall relPath,
              funnelsThrough resolveWorkspacePath workspaceRoot relPath
                (deleteWorkspaceItemService FILE_STORAGE_ROOT
                   resolveWorkspacePath path_dirname workspaceId userId
                   relPath))).
Proof.
  split; [apply resolveWorkspacePath_inside|].
  split.
  { intros workspaceRoot relPath Hout. eexists.
    apply resolveWorkspacePath_outside, Hout. }
  split.
  { intros storageRoot workspaceId Hid. eexists.
    apply resolveWorkspacePath_outside.
    rewrite (path_join_objectId _ _ Hid). apply dotdot_etc_outside, Hid. }
  split; [apply resolveWorkspacePath_empty|].
  intros R sanitize dirname workspaceId userId workspaceRoot.
  split; [intros; apply list_funnels|].
  split; [intros; apply download_funnels|].
  split; [intros; apply upload_funnels|].
  split; [intros; apply createFolder_funnels|].
  intros; apply delete_funnels.
Qed.

(** ** The worked example, through the theorems *)

Lemma exampleDb_consistent : allConsistent exampleDb.
Proof.
  intros id t H. unfold exampleDb in H. simpl in H.
  apply lookup_insert_Some in H as [[_ <-]|[_ H]].
  { unfold timerConsistent. simpl. intuition congruence. }
  apply lookup_insert_Some in H as [[_ <-]|[_ H]].
  { unfold timerConsistent. simpl. intuition congruence. }
  rewrite lookup_empty in H. discriminate.
Defined.

Lemma example_start :
  startTaskTimerService exampleRoles "t1" "alice" 1000 exampleDb
  = (Return exampleStartedTask, exampleRunningDb).
Proof. vm_compute. reflexivity. Defined.

Lemma example_stop :
  stopTaskTimerService exampleRoles "t1" "alice" exampleBody 91000
    exampleRunningDb
  = (Return exampleStoppedTask, exampleStoppedDb).
Proof. vm_compute. reflexivity. Defined.

(** Alice's stop after 90 seconds: one minute logged, 90 seconds and one
    minute on the task. *)
Lemma stop_accounting_witness :
  stopTaskTimerService exampleRoles "t1" "alice" exampleBody 91000
    exampleRunningDb
  = (Return exampleStoppedTask, exampleStoppedDb)
  /\ exists before startedAt log,
       tasks exampleRunningDb !! "t1" = Some before
       /\ activeStartAt before = Some startedAt
       /\ workLogs exampleStoppedDb = workLogs exampleRunningDb ++ [log]
       /\ log_taskId log = "t1"
       /\ tasks exampleStoppedDb !! "t1" = Some exampleStoppedTask
       /\ let elapsedSeconds := Z.max 1 ((91000 - startedAt) / 1000) in
          log_durationMinutes log = Z.max 1 (elapsedSeconds / 60)
          /\ (forall s, totalSecondsSpent before = Some s ->
                totalSecondsSpent exampleStoppedTask
                = Some (s + elapsedSeconds))
          /\ exists total,
               totalSecondsSpent exampleStoppedTask = Some total
               /\ totalMinutesSpent exampleStoppedTask = Some (total / 60).
Proof.
  split; [exact example_stop|].
  exact (proj1 (stop_accounting exampleRoles) "t1" "alice" exampleBody 91000
           exampleRunningDb exampleStoppedTask exampleStoppedDb example_stop).
Defined.

(** Alice's start keeps the collection consistent. *)
Lemma timer_flag_agrees_with_start_time_witness :
  startTaskTimerService exampleRoles "t1" "alice" 1000 exampleDb
  = (Return exampleStartedTask, exampleRunningDb)
  /\ allConsistent exampleDb
  /\ (tasks exampleRunningDb !! "t1" = Some exampleStartedTask
      /\ timerConsistent exampleStartedTask)
  /\ allConsistent exampleRunningDb.
Proof.
  split; [exact example_start|]. split; [exact exampleDb_consistent|].
  pose proof (proj1 (timer_flag_agrees_with_start_time exampleRoles)
                "t1" "alice" 1000 exampleDb (Return exampleStartedTask)
                exampleRunningDb example_start) as [Hsaved Hall].
  split; [exact (Hsaved exampleStartedTask eq_refl)|].
  exact (Hall exampleDb_consistent).
Defined.


(** The admin stops both running timers of [w1]. *)
Lemma stopAll_count_witness :
  exampleRoles "admin" "w1" = Return Roles.ADMIN
  /\ exists db' newLogs,
       stopAllRunningTaskTimersService exampleRoles "w1" "admin" 600000
         exampleRunningDb = (Return 2%nat, db')
       /\ workLogs db' = workLogs exampleRunningDb ++ newLogs
       /\ length newLogs = 2%nat.
Proof.
  split; [reflexivity|].
  destruct (stopAll_count exampleRoles "w1" "admin" 600000 exampleRunningDb
              Roles.ADMIN eq_refl (or_intror eq_refl))
    as (_ & _ & _ & db' & newLogs & Hrun & Hlogs & Hlen & _).
  exists db', newLogs.
  split; [exact Hrun|]. split; [exact Hlogs|exact Hlen].
Defined.

Lemma example_stopAll :
  exists db',
    stopAllRunningTaskTimersService exampleRoles "w1" "admin" 600000
      exampleRunningDb = (Return 2%nat, db').
Proof. eexists. vm_compute. reflexivity. Defined.

Lemma example_legacy_stop :
  exists task' db',
    stopTaskTimerService exampleRoles "t2" "admin"
      {| body_pagesCompleted := None; body_remarks := None |} 600000
      exampleRunningDb = (Return task', db').
Proof. eexists _, _. vm_compute. reflexivity. Defined.

(** The logs of the admin's bulk stop go to Alice and to Bob. *)
Lemma stopAll_log_user_witness :
  exists db',
    stopAllRunningTaskTimersService exampleRoles "w1" "admin" 600000
      exampleRunningDb = (Return 2%nat, db')
    /\ exists newLogs,
         workLogs db' = workLogs exampleRunningDb ++ newLogs
         /\ (forall taskId task,
               (taskId, task) ∈ runningIn "w1" exampleRunningDb ->
               exists log, log ∈ newLogs /\ log_taskId log = taskId)
         /\ forall log, log ∈ newLogs ->
              exists task,
                (log_taskId log, task) ∈ runningIn "w1" exampleRunningDb
                /\ tasks exampleRunningDb !! log_taskId log = Some task
                /\ (forall a, assignedTo task = Some a -> log_userId log = a)
                /\ (forall c, assignedTo task = None ->
                      createdBy task = Some c -> log_userId log = c)
                /\ (assignedTo task = None -> createdBy task = None ->
                      log_userId log = "admin")
                /\ (log_userId log = "admin" ->
                      assignedTo task = Some "admin"
                      \/ (assignedTo task = None
                          /\ (createdBy task = Some "admin"
                              \/ createdBy task = None))).
Proof.
  destruct example_stopAll as [db' Hrun]. exists db'.
  split; [exact Hrun|].
  exact (stopAll_log_user exampleRoles "w1" "admin" 600000 exampleRunningDb
           2%nat db' Hrun).
Defined.

(** Bob, a member who is not the assignee of [t1], is turned away. *)
Lemma timer_access_witness :
  tasks exampleDb !! "t1" = Some exampleIdleTask
  /\ exampleRoles "bob" (workspace exampleIdleTask) = Return Roles.MEMBER
  /\ Roles.MEMBER <> Roles.OWNER
  /\ Roles.MEMBER <> Roles.ADMIN
  /\ assignedTo exampleIdleTask <> Some "bob"
  /\ let denied :=
       Throw (HttpException
                "You do not have permission to manage this task timer."
                UNAUTHORIZED) in
     startTaskTimerService exampleRoles "t1" "bob" 1000 exampleDb
     = (denied, exampleDb)
     /\ stopTaskTimerService exampleRoles "t1" "bob" exampleBody 1000
          exampleDb = (denied, exampleDb).
Proof.
  assert (tasks exampleDb !! "t1" = Some exampleIdleTask) as Hfind
    by (vm_compute; reflexivity).
  assert (Roles.MEMBER <> Roles.OWNER) as Ho by discriminate.
  assert (Roles.MEMBER <> Roles.ADMIN) as Ha by discriminate.
  assert (assignedTo exampleIdleTask <> Some "bob") as Hb by discriminate.
  do 5 (split; [first [assumption | reflexivity]|]).
  exact (proj2 (proj2 (proj2 (proj2 (timer_access exampleRoles))))
           "t1" "bob" exampleBody 1000 exampleDb exampleIdleTask
           Roles.MEMBER Hfind eq_refl Ho Ha Hb).
Defined.

(** The first start of [t1] records both timestamps. *)
Lemma firstStartedAt_set_once_witness :
  startTaskTimerService exampleRoles "t1" "alice" 1000 exampleDb
  = (Return exampleStartedTask, exampleRunningDb)
  /\ exists before,
       tasks exampleDb !! "t1" = Some before
       /\ tasks exampleRunningDb !! "t1" = Some exampleStartedTask
       /\ activeStartAt exampleStartedTask = Some 1000
       /\ (firstStartedAt before = None ->
             firstStartedAt exampleStartedTask = Some 1000)
       /\ (forall f, firstStartedAt before = Some f ->
             firstStartedAt exampleStartedTask = Some f)
       /\ (forall other, other <> "t1" ->
             tasks exampleRunningDb !! other = tasks exampleDb !! other).
Proof.
  split; [exact example_start|].
  exact (proj1 (firstStartedAt_set_once exampleRoles) "t1" "alice" 1000
           exampleDb exampleStartedTask exampleRunningDb example_start).
Defined.

(** The admin stops the legacy task [t2] after 600 seconds: its five
    minutes become 300 seconds before the 600 are added. *)
Lemma stop_seeds_seconds_from_minutes_witness :
  exists task' db',
    stopTaskTimerService exampleRoles "t2" "admin"
      {| body_pagesCompleted := None; body_remarks := None |} 600000
      exampleRunningDb = (Return task', db')
    /\ exists before startedAt,
         tasks exampleRunningDb !! "t2" = Some before
         /\ activeStartAt before = Some startedAt
         /\ tasks db' !! "t2" = Some task'
         /\ let elapsedSeconds := Z.max 1 ((600000 - startedAt) / 1000) in
            (totalSecondsSpent before = None ->
             (forall m, totalMinutesSpent before = Some m ->
                totalSecondsSpent task' = Some (m * 60 + elapsedSeconds)
                /\ exists m', totalMinutesSpent task' = Some m' /\ m <= m')
             /\ (totalMinutesSpent before = None ->
                   totalSecondsSpent task' = Some (0 + elapsedSeconds))).
Proof.
  destruct example_legacy_stop as (task' & db' & Hrun).
  exists task', db'. split; [exact Hrun|].
  exact (proj1 (stop_seeds_seconds_from_minutes exampleRoles) "t2" "admin" _
           600000 exampleRunningDb task' db' Hrun).
Defined.

Lemma example_create :
  exampleCreateNotes exampleStorage
  = (Return "notes", exampleStorageWithNotes).
Proof. vm_compute. reflexivity. Defined.

(** [notes] created twice. *)
Lemma create_folder_already_exists_witness :
  exampleCreateNotes exampleStorage
  = (Return "notes", exampleStorageWithNotes)
  /\ exampleCreateNotes exampleStorageWithNotes
     = (Throw (HttpException "Folder already exists" BAD_REQUEST),
        exampleStorageWithNotes).
Proof.
  split; [exact example_create|].
  exact (proj2 (create_folder_already_exists exampleStorageRoot
                  resolveWorkspacePath (fun name => name)
                  exampleWorkspaceId exampleUserId None "notes"
                  exampleStorage)
           "notes" exampleStorageWithNotes example_create).
Defined.

(** [../../etc] below the example workspace, and a delete that asks for
    it. *)
Lemma workspace_paths_stay_inside_witness :
  isObjectId exampleWorkspaceId = true
  /\ (exists e,
        resolveWorkspacePath
          (path_join exampleStorageRoot exampleWorkspaceId) "../../etc"
        = Throw e)
  /\ resolveWorkspacePath
       (path_join exampleStorageRoot exampleWorkspaceId) "notes/../notes"
     = Return (exampleStorageRoot ++ [exampleWorkspaceId; "notes"])
  /\ path_join exampleStorageRoot exampleWorkspaceId
       `prefix_of` (exampleStorageRoot ++ [exampleWorkspaceId; "notes"]).
Proof.
  split; [reflexivity|].
  split.
  { exact (proj1 (proj2 (proj2 workspace_paths_stay_inside))
             exampleStorageRoot exampleWorkspaceId eq_refl). }
  assert (resolveWorkspacePath
            (path_join exampleStorageRoot exampleWorkspaceId)
            "notes/../notes"
          = Return (exampleStorageRoot ++ [exampleWorkspaceId; "notes"]))
    as Hres by (vm_compute; reflexivity).
  split; [exact Hres|].
  exact (proj2 (proj1 workspace_paths_stay_inside _ _ _ Hres)).
Defined.

(** ** Where the specification and the code differ *)


(** C8 as the specification words it ("a Conflict-class error"): the
    second creation of [notes] fails with status BAD_REQUEST, not
    CONFLICT. *)
Lemma create_folder_twice_is_bad_request :
  (exampleCreateNotes exampleStorage).1 = Return "notes"
  /\ (exampleCreateNotes (exampleCreateNotes exampleStorage).2).1
     = Throw (HttpException "Folder already exists" BAD_REQUEST)
  /\ forall message,
       (exampleCreateNotes (exampleCreateNotes exampleStorage).2).1
       <> Throw (HttpException message CONFLICT).
Proof.
  assert ((exampleCreateNotes (exampleCreateNotes exampleStorage).2).1
          = Throw (HttpException "Folder already exists" BAD_REQUEST))
    as Hsecond by (vm_compute; reflexivity).
  split; [vm_compute; reflexivity|]. split; [exact Hsecond|].
  intros message. rewrite Hsecond. discriminate.
Qed.

(** * Further properties of the timer services *)

Section TimerDetails.

Variable getMemberRoleInWorkspace : string -> string -> Outcome string.

Local Abbreviation ensureAccess :=
  (ensureTaskTimerAccess getMemberRoleInWorkspace).
Local Abbreviation startTimer :=
  (startTaskTimerService getMemberRoleInWorkspace).
Local Abbreviation stopTimer :=
  (stopTaskTimerService getMemberRoleInWorkspace).
Local Abbreviation stopAll :=
  (stopAllRunningTaskTimersService getMemberRoleInWorkspace).

(** A start that returns, with every field of what it saved. *)
Lemma start_Return_detail taskId userId now db task' db' :
  startTimer taskId userId now db = (Return task', db') ->
  exists task,
    ensureAccess taskId userId db = (Return task, db)
    /\ tasks db !! taskId = Some task
    /\ isRunning task = false
    /\ db' = {| tasks := <[taskId := task']> (tasks db);
                workLogs := workLogs db |}
    /\ task'
       = {| workspace := workspace task; assignedTo := assignedTo task;
            createdBy := createdBy task; isRunning := true;
            firstStartedAt :=
              match firstStartedAt task with
              | Some f => Some f
              | None => Some now
              end;
            activeStartAt := Some now;
            lastStoppedAt := lastStoppedAt task;
            totalSecondsSpent := totalSecondsSpent task;
            totalMinutesSpent := totalMinutesSpent task;
            pagesCompleted := pagesCompleted task;
            remarks := remarks task |}.
Proof.
  intros Hrun.
  destruct (ensureAccess taskId userId db).1 as [task|e] eqn:H.
  2:{ rewrite (start_denied _ _ _ _ _ _ H) in Hrun. discriminate. }
  assert (ensureAccess taskId userId db = (Return task, db)) as Hacc
    by (rewrite ensureTaskTimerAccess_surj, H; reflexivity).
  destruct (ensureTaskTimerAccess_Return _ _ _ _ _ H) as [Hfind _].
  destruct (isRunning task) eqn:Hidle.
  { rewrite (start_running _ _ _ _ _ _ H Hidle) in Hrun. discriminate. }
  exists task. do 3 (split; [assumption|]).
  unfold startTaskTimerService, bind in Hrun. rewrite Hacc, Hidle in Hrun.
  unfold Task_save, modify, ret in Hrun. injection Hrun as <- <-.
  split; [reflexivity|].
  destruct (firstStartedAt task) eqn:Hfirst;
    unfold set_isRunning, set_activeStartAt, set_firstStartedAt; simpl;
    rewrite ?Hfirst; reflexivity.
Qed.

(** A stop that returns, with every field of what it logged and saved. *)
Lemma stop_Return_detail taskId userId body now db task' db' :
  stopTimer taskId userId body now db = (Return task', db') ->
  exists task startedAt,
    ensureAccess taskId userId db = (Return task, db)
    /\ tasks db !! taskId = Some task
    /\ isRunning task = true
    /\ activeStartAt task = Some startedAt
    /\ db'
       = {| tasks := <[taskId := task']> (tasks db);
            workLogs :=
              workLogs db
              ++ [{| log_taskId := taskId;
                     log_userId := userId;
                     log_startedAt := startedAt;
                     log_stoppedAt := now;
                     log_durationMinutes :=
                       Z.max 1 (Z.max 1 ((now - startedAt) / 1000) / 60);
                     log_pagesCompleted := body_pagesCompleted body;
                     log_remarks := body_remarks body |}] |}
    /\ task'
       = {| workspace := workspace task; assignedTo := assignedTo task;
            createdBy := createdBy task; isRunning := false;
            firstStartedAt := firstStartedAt task;
            activeStartAt := None;
            lastStoppedAt := Some now;
            totalSecondsSpent :=
              Some (match totalSecondsSpent task with
                    | Some s => s
                    | None =>
                        match totalMinutesSpent task with
                        | Some m => m
                        | None => 0
                        end * 60
                    end + Z.max 1 ((now - startedAt) / 1000));
            totalMinutesSpent :=
              Some ((match totalSecondsSpent task with
                     | Some s => s
                     | None =>
                         match totalMinutesSpent task with
                         | Some m => m
                         | None => 0
                         end * 60
                     end + Z.max 1 ((now - startedAt) / 1000)) / 60);
            pagesCompleted :=
              match body_pagesCompleted body with
              | Some pages =>
                  Some (match pagesCompleted task with
                        | Some p => p
                        | None => 0
                        end + pages)
              | None => pagesCompleted task
              end;
            remarks :=
              match body_remarks body with
              | Some r => Some r
              | None => remarks task
              end |}.
Proof.
  intros Hrun.
  destruct (ensureAccess taskId userId db).1 as [task|e] eqn:H.
  2:{ rewrite (stop_denied _ _ _ _ _ _ _ H) in Hrun. discriminate. }
  assert (ensureAccess taskId userId db = (Return task, db)) as Hacc
    by (rewrite ensureTaskTimerAccess_surj, H; reflexivity).
  destruct (ensureTaskTimerAccess_Return _ _ _ _ _ H) as [Hfind _].
  destruct (isRunning task) eqn:Hflag.
  2:{ rewrite (stop_idle _ _ _ _ _ _ _ H (or_introl Hflag)) in Hrun.
      discriminate. }
  destruct (activeStartAt task) as [startedAt|] eqn:Hstart.
  2:{ rewrite (stop_idle _ _ _ _ _ _ _ H (or_intror Hstart)) in Hrun.
      discriminate. }
  exists task, startedAt. do 4 (split; [first [assumption|reflexivity]|]).
  unfold stopTaskTimerService, bind in Hrun.
  rewrite Hacc, Hflag, Hstart in Hrun.
  unfold TaskWorkLogModel_create, Task_save, modify, ret in Hrun.
  injection Hrun as <- <-.
  split; [reflexivity|].
  destruct (body_remarks body), (body_pagesCompleted body); reflexivity.
Qed.

(** The callback of the bulk stop, with every field. *)
Lemma stopOneRunning_detail userId now taskId task startedAt db :
  activeStartAt task = Some startedAt ->
  exists log after,
    stopOneRunning userId now (taskId, task) db
    = (Return tt, {| tasks := <[taskId := after]> (tasks db);
                     workLogs := workLogs db ++ [log] |})
    /\ bulkLogFull userId now (taskId, task) log
    /\ bulkStoppedFrom now task after.
Proof.
  intros Hstart. unfold stopOneRunning. rewrite Hstart. run_eff.
  eexists _, _. split; [reflexivity|]. split.
  - split; [|simpl; repeat split; lia].
    unfold bulkLogOf; simpl. do 3 (split; [reflexivity|]).
    exists startedAt. auto.
  - split; [|simpl; repeat split; reflexivity].
    exists startedAt. simpl. do 5 (split; [auto|]).
    intros total [= <-]. reflexivity.
Qed.

Lemma forEach_stopOneRunning_detail userId now docs : forall db,
  NoDup docs.*1 ->
  (forall doc, doc ∈ docs -> activeStartAt doc.2 <> None) ->
  exists db' newLogs,
    forEach (stopOneRunning userId now) docs db = (Return tt, db')
    /\ workLogs db' = workLogs db ++ newLogs
    /\ Forall2 (bulkLogFull userId now) docs newLogs
    /\ (forall taskId before, (taskId, before) ∈ docs ->
          exists after, tasks db' !! taskId = Some after
                        /\ bulkStoppedFrom now before after)
    /\ (forall taskId, taskId ∉ docs.*1 ->
          tasks db' !! taskId = tasks db !! taskId).
Proof.
  induction docs as [|[k t] rest IH]; intros db Hnodup Hactive.
  - exists db, []. simpl. unfold ret. rewrite app_nil_r.
    repeat split; auto. intros ? ? H. inversion H.
  - simpl in Hnodup. apply NoDup_cons in Hnodup as [Hk Hrest].
    destruct (activeStartAt t) as [startedAt|] eqn:Hstart.
    2:{ exfalso. apply (Hactive (k, t)); [left|exact Hstart]. }
    destruct (stopOneRunning_detail userId now k t startedAt db Hstart)
      as (log & after & Hstep & Hlog & Hafter).
    destruct (IH {| tasks := <[k := after]> (tasks db);
                    workLogs := workLogs db ++ [log] |} Hrest)
      as (db' & newLogs & Hrun & Hlogs & Hall & Hstopped & Hother).
    { intros doc Hdoc. apply Hactive. right. exact Hdoc. }
    exists db', (log :: newLogs). simpl in *.
    split; [unfold bind at 1; rewrite Hstep; exact Hrun|].
    split; [rewrite Hlogs, <- app_assoc; reflexivity|].
    split; [constructor; assumption|].
    split.
    + intros taskId before Hin. apply elem_of_cons in Hin as [[= -> ->]|Hin].
      * exists after. split; [|exact Hafter].
        rewrite (Hother k Hk). apply lookup_insert_eq.
      * apply Hstopped, Hin.
    + intros taskId Hnot. apply not_elem_of_cons in Hnot as [Hne Hnot].
      rewrite (Hother taskId Hnot). apply lookup_insert_ne. congruence.
Qed.

(** The bulk stop, whatever its outcome. *)
Lemma stopAll_cases workspaceId userId now db :
  (exists e, stopAll workspaceId userId now db = (Throw e, db)
             /\ (getMemberRoleInWorkspace userId workspaceId = Throw e
                 \/ exists role,
                      getMemberRoleInWorkspace userId workspaceId
                      = Return role
                      /\ role <> Roles.OWNER /\ role <> Roles.ADMIN
                      /\ e = UnauthorizedException
                               "Only admins can stop all running task timers."))
  \/ (exists role db' newLogs,
        getMemberRoleInWorkspace userId workspaceId = Return role
        /\ (role = Roles.OWNER \/ role = Roles.ADMIN)
        /\ stopAll workspaceId userId now db
           = (Return (length (runningIn workspaceId db)), db')
        /\ workLogs db' = workLogs db ++ newLogs
        /\ Forall2 (bulkLogFull userId now) (runningIn workspaceId db) newLogs
        /\ (forall taskId before,
              (taskId, before) ∈ runningIn workspaceId db ->
              exists after, tasks db' !! taskId = Some after
                            /\ bulkStoppedFrom now before after)
        /\ (forall taskId, taskId ∉ (runningIn workspaceId db).*1 ->
              tasks db' !! taskId = tasks db !! taskId)).
Proof.
  destruct (forEach_stopOneRunning_detail userId now
              (runningIn workspaceId db) db)
    as (db1 & newLogs & Hrun & Hrest).
  { apply runningIn_NoDup. }
  { intros [k t] Hin.
    apply (runningIn_elem getMemberRoleInWorkspace) in Hin. tauto. }
  unfold stopAllRunningTaskTimersService. run_eff.
  destruct (getMemberRoleInWorkspace userId workspaceId) as [role|e]
    eqn:Hrole; [|left; eauto].
  destruct (String.eqb role Roles.OWNER || String.eqb role Roles.ADMIN)
    eqn:Hpriv; simpl.
  - right. fold (runningIn workspaceId db).
    assert (role = Roles.OWNER \/ role = Roles.ADMIN) as Hor.
    { apply orb_true_iff in Hpriv as [H|H]; apply String.eqb_eq in H; auto. }
    destruct (runningIn workspaceId db) as [|doc docs] eqn:Hdocs.
    + exists role, db, []. simpl in Hrun. unfold ret in Hrun.
      injection Hrun as <-. rewrite app_nil_r.
      repeat split; auto. intros ? ? H. inversion H.
    + exists role, db1, newLogs. rewrite Hrun.
      split; [reflexivity|]. split; [exact Hor|].
      split; [reflexivity|exact Hrest].
  - left. eexists. split; [reflexivity|]. right. exists role.
    apply orb_false_iff in Hpriv as [Ho Ha].
    apply String.eqb_neq in Ho, Ha. auto.
Qed.

Lemma filter_nil_iff {A : Type} (f : A -> bool) (l : list A) :
  List.filter f l = [] <-> forall x, x ∈ l -> f x = false.
Proof.
  induction l as [|a l IH]; simpl.
  - split; [intros _ x H; inversion H|reflexivity].
  - destruct (f a) eqn:Ha.
    + split; [discriminate|]. intros H.
      rewrite (H a) in Ha by left. discriminate.
    + rewrite IH. split.
      * intros H x Hx. apply elem_of_cons in Hx as [->|Hx]; auto.
      * intros H x Hx. apply H. right. exact Hx.
Qed.

Lemma floor_sum_bounds (s d : Z) :
  s / 60 + d / 60 <= (s + d) / 60 <= s / 60 + d / 60 + 1.
Proof. Z.to_euclidean_division_equations. lia. Qed.

(** X1. The work-log ledger only grows by appending: a start never writes
    to it; a stop that succeeds appends exactly one log, for the stopped
    task, and a stop that fails appends none; a bulk stop appends one log
    per task it stopped and none when it fails. *)
Theorem work_log_ledger_append_only :
  (forall taskId userId now db o db',
     startTaskTimerService getMemberRoleInWorkspace taskId userId now db
     = (o, db') ->
     workLogs db' = workLogs db)
  /\ (forall taskId userId body now db o db',
        stopTaskTimerService getMemberRoleInWorkspace
          taskId userId body now db = (o, db') ->
        (forall task', o = Return task' ->
           exists log,
             workLogs db' = workLogs db ++ [log] /\ log_taskId log = taskId)
        /\ (forall e, o = Throw e -> workLogs db' = workLogs db))
  /\ (forall workspaceId userId now db o db',
        stopAllRunningTaskTimersService getMemberRoleInWorkspace
          workspaceId userId now db = (o, db') ->
        exists newLogs,
          workLogs db' = workLogs db ++ newLogs
          /\ (forall n, o = Return n ->
                length newLogs = n
                /\ log_taskId <$> newLogs ≡ₚ (runningIn workspaceId db).*1)
          /\ (forall e, o = Throw e -> newLogs = [])).
Proof.
  split; [|split].
  - intros taskId userId now db [task'|e] db' Hrun.
    + destruct (start_Return_detail _ _ _ _ _ _ Hrun)
        as (task & _ & _ & _ & -> & _). reflexivity.
    + apply start_Throw_state in Hrun as ->. reflexivity.
  - intros taskId userId body now db o db' Hrun. split.
    + intros task' ->.
      destruct (stop_Return_detail _ _ _ _ _ _ _ Hrun)
        as (task & startedAt & _ & _ & _ & _ & -> & _).
      eexists. split; reflexivity.
    + intros e ->. apply stop_Throw_state in Hrun as ->. reflexivity.
  - intros workspaceId userId now db o db' Hrun.
    destruct (stopAll_cases workspaceId userId now db)
      as [(e & He & _)|(role & db1 & newLogs & _ & _ & Hret & Hlogs & Hall
                         & _)].
    + rewrite He in Hrun. injection Hrun as <- <-.
      exists []. rewrite app_nil_r. split; [reflexivity|].
      split; [discriminate|reflexivity].
    + rewrite Hret in Hrun. injection Hrun as <- <-.
      exists newLogs. split; [exact Hlogs|]. split; [|discriminate].
      intros n [= <-]. split.
      * symmetry. eapply Forall2_length, Hall.
      * erewrite bulkLogOf_taskIds; [reflexivity|].
        eapply Forall2_impl; [exact Hall|]. intros ? ? [H _]. exact H.
Qed.

(** X2. Every log the timer services write has a duration of at least one
    minute and the stop time [now]; so if every log of the ledger has a
    duration of at least one minute, this still holds after any start,
    stop or bulk stop. *)
Theorem work_log_durations_at_least_one :
  let positive := Forall (fun log => 1 <= log_durationMinutes log) in
  (forall taskId userId now db o db',
     startTaskTimerService getMemberRoleInWorkspace taskId userId now db
     = (o, db') ->
     positive (workLogs db) -> positive (workLogs db'))
  /\ (forall taskId userId body now db o db',
        stopTaskTimerService getMemberRoleInWorkspace
          taskId userId body now db = (o, db') ->
        positive (workLogs db) -> positive (workLogs db'))
  /\ (forall workspaceId userId now db o db',
        stopAllRunningTaskTimersService getMemberRoleInWorkspace
          workspaceId userId now db = (o, db') ->
        positive (workLogs db) -> positive (workLogs db')).
Proof.
  intros positive. split; [|split].
  - intros taskId userId now db [task'|e] db' Hrun Hpos.
    + destruct (start_Return_detail _ _ _ _ _ _ Hrun)
        as (task & _ & _ & _ & -> & _). exact Hpos.
    + apply start_Throw_state in Hrun as ->. exact Hpos.
  - intros taskId userId body now db [task'|e] db' Hrun Hpos.
    + destruct (stop_Return_detail _ _ _ _ _ _ _ Hrun)
        as (task & startedAt & _ & _ & _ & _ & -> & _).
      simpl. apply Forall_app. split; [exact Hpos|].
      constructor; [simpl; lia|constructor].
    + apply stop_Throw_state in Hrun as ->. exact Hpos.
  - intros workspaceId userId now db o db' Hrun Hpos.
    destruct (stopAll_cases workspaceId userId now db)
      as [(e & He & _)|(role & db1 & newLogs & _ & _ & Hret & Hlogs & Hall
                         & _)].
    + rewrite He in Hrun. injection Hrun as <- <-. exact Hpos.
    + rewrite Hret in Hrun. injection Hrun as <- <-.
      unfold positive. rewrite Hlogs. apply Forall_app. split; [exact Hpos|].
      clear -Hall. induction Hall as [|doc log docs logs Hlog _ IH];
        constructor; [apply Hlog|exact IH].
Qed.

Lemma totalsGrow_refl t : totalsGrow t t.
Proof. split; intros x Hx; exists x; (split; [exact Hx|lia]). Qed.

Lemma bulkStoppedFrom_totalsGrow now before after :
  bulkStoppedFrom now before after -> totalsGrow before after.
Proof.
  intros ((a & _ & _ & _ & _ & Hsec & _) & _ & _ & _ & Hpages & _).
  split.
  - intros s Hs. rewrite Hs in Hsec. eexists. split; [exact Hsec|lia].
  - intros p Hp. exists p. rewrite Hpages. split; [exact Hp|lia].
Qed.

(** X3. No timer operation creates or deletes a task, and none lets a
    recorded total shrink: whatever the outcome of a start, a stop (with a
    non-negative number of pages, as the request schema demands) or a bulk
    stop, every task is still there afterwards, with a [totalSecondsSpent]
    and a [pagesCompleted] that, where they were recorded, have not
    decreased. *)
Theorem timer_totals_never_decrease :
  (forall taskId userId now db o db',
     startTaskTimerService getMemberRoleInWorkspace taskId userId now db
     = (o, db') ->
     (forall id before, tasks db !! id = Some before ->
        exists after, tasks db' !! id = Some after /\ totalsGrow before after)
     /\ (forall id, tasks db !! id = None -> tasks db' !! id = None))
  /\ (forall taskId userId body now db o db',
        (forall pages, body_pagesCompleted body = Some pages -> 0 <= pages) ->
        stopTaskTimerService getMemberRoleInWorkspace
          taskId userId body now db = (o, db') ->
        (forall id before, tasks db !! id = Some before ->
           exists after,
             tasks db' !! id = Some after /\ totalsGrow before after)
        /\ (forall id, tasks db !! id = None -> tasks db' !! id = None))
  /\ (forall workspaceId userId now db o db',
        stopAllRunningTaskTimersService getMemberRoleInWorkspace
          workspaceId userId now db = (o, db') ->
        (forall id before, tasks db !! id = Some before ->
           exists after,
             tasks db' !! id = Some after /\ totalsGrow before after)
        /\ (forall id, tasks db !! id = None -> tasks db' !! id = None)).
Proof.
  split; [|split].
  - intros taskId userId now db [task'|e] db' Hrun.
    + destruct (start_Return_detail _ _ _ _ _ _ Hrun)
        as (task & _ & Hfind & _ & -> & ->). simpl. split.
      * intros id before Hbefore.
        destruct (decide (taskId = id)) as [<-|Hne].
        -- rewrite lookup_insert_eq. eexists. split; [reflexivity|].
           rewrite Hfind in Hbefore. injection Hbefore as <-.
           split; simpl; intros x Hx; exists x; (split; [exact Hx|lia]).
        -- rewrite lookup_insert_ne by exact Hne.
           exists before. split; [exact Hbefore|apply totalsGrow_refl].
      * intros id Hnone. rewrite lookup_insert_ne; [exact Hnone|].
        intros <-. congruence.
    + apply start_Throw_state in Hrun as ->. split; [|auto].
      intros id before Hbefore. exists before.
      split; [exact Hbefore|apply totalsGrow_refl].
  - intros taskId userId body now db [task'|e] db' Hpages Hrun.
    + destruct (stop_Return_detail _ _ _ _ _ _ _ Hrun)
        as (task & startedAt & _ & Hfind & _ & _ & -> & ->). simpl. split.
      * intros id before Hbefore.
        destruct (decide (taskId = id)) as [<-|Hne].
        -- rewrite lookup_insert_eq. eexists. split; [reflexivity|].
           rewrite Hfind in Hbefore. injection Hbefore as <-.
           split; simpl.
           ++ intros s ->. eexists. split; [reflexivity|lia].
           ++ intros p ->. destruct (body_pagesCompleted body) as [pages|].
              ** eexists. split; [reflexivity|].
                 specialize (Hpages pages eq_refl). lia.
              ** exists p. split; [reflexivity|lia].
        -- rewrite lookup_insert_ne by exact Hne.
           exists before. split; [exact Hbefore|apply totalsGrow_refl].
      * intros id Hnone. rewrite lookup_insert_ne; [exact Hnone|].
        intros <-. congruence.
    + apply stop_Throw_state in Hrun as ->. split; [|auto].
      intros id before Hbefore. exists before.
      split; [exact Hbefore|apply totalsGrow_refl].
  - intros workspaceId userId now db o db' Hrun.
    destruct (stopAll_cases workspaceId userId now db)
      as [(e & He & _)|(role & db1 & newLogs & _ & _ & Hret & _ & _
                         & Hstopped & Hother)].
    + rewrite He in Hrun. injection Hrun as <- <-. split; [|auto].
      intros id before Hbefore. exists before.
      split; [exact Hbefore|apply totalsGrow_refl].
    + rewrite Hret in Hrun. injection Hrun as <- <-. split.
      * intros id before Hbefore.
        destruct (decide (id ∈ (runningIn workspaceId db).*1)) as [Hin|Hout].
        -- apply list_elem_of_fmap in Hin as ([k t] & -> & Hin).
           destruct (Hstopped _ _ Hin) as (after & Hafter & Hfrom).
           exists after. split; [exact Hafter|].
           apply (runningIn_elem getMemberRoleInWorkspace) in Hin
             as [Hfind _].
           simpl in Hbefore. rewrite Hfind in Hbefore.
           injection Hbefore as <-.
           eapply bulkStoppedFrom_totalsGrow, Hfrom.
        -- rewrite (Hother id Hout). exists before.
           split; [exact Hbefore|apply totalsGrow_refl].
      * intros id Hnone. rewrite Hother; [exact Hnone|].
        intros Hin. apply list_elem_of_fmap in Hin as ([k t] & -> & Hin).
        apply (runningIn_elem getMemberRoleInWorkspace) in Hin as [Hfind _].
        simpl in Hnone. congruence.
Qed.

(** X4. A stop always undoes a start: after a start at [t0] that succeeded,
    a stop by the same actor at [t1] succeeds too; it logs the interval
    from [t0] to [t1], adds [max (1, floor ((t1 - t0) / 1000))] seconds to
    what the task had before the start, and leaves the task idle. *)
Theorem start_then_stop :
  forall taskId userId body t0 t1 db started db1,
    startTaskTimerService getMemberRoleInWorkspace taskId userId t0 db
    = (Return started, db1) ->
    exists before stopped log,
      tasks db !! taskId = Some before
      /\ stopTaskTimerService getMemberRoleInWorkspace
           taskId userId body t1 db1
         = (Return stopped,
            {| tasks := <[taskId := stopped]> (tasks db1);
               workLogs := workLogs db ++ [log] |})
      /\ log_startedAt log = t0
      /\ log_stoppedAt log = t1
      /\ log_userId log = userId
      /\ isRunning stopped = false
      /\ activeStartAt stopped = None
      /\ firstStartedAt stopped = firstStartedAt started
      /\ totalSecondsSpent stopped
         = Some (match totalSecondsSpent before with
                 | Some s => s
                 | None =>
                     match totalMinutesSpent before with
                     | Some m => m
                     | None => 0
                     end * 60
                 end + Z.max 1 ((t1 - t0) / 1000)).
Proof.
  intros taskId userId body t0 t1 db started db1 Hstart.
  destruct (start_Return_detail _ _ _ _ _ _ Hstart)
    as (before & Hacc & Hfind & _ & -> & ->).
  assert ((ensureAccess taskId userId db).1 = Return before) as Hacc1
    by (rewrite Hacc; reflexivity).
  destruct (ensureTaskTimerAccess_Return _ _ _ _ _ Hacc1)
    as (_ & role & Hrole & Hok).
  exists before.
  unfold stopTaskTimerService, bind.
  erewrite ensureTaskTimerAccess_allowed;
    [|simpl; apply lookup_insert_eq|simpl; exact Hrole|simpl; exact Hok].
  simpl. unfold TaskWorkLogModel_create, Task_save, modify, ret. simpl.
  eexists _, _. split; [exact Hfind|]. split; [reflexivity|].
  simpl. repeat split; try reflexivity.
  all: destruct (body_remarks body), (body_pagesCompleted body); reflexivity.
Qed.

(** X5. A start that succeeds changes only the started task, and of it
    only [isRunning], [activeStartAt] and an unset [firstStartedAt]: the
    totals, the pages, the remarks, [lastStoppedAt], the workspace, the
    assignee and the creator stay as they were. And a timer can always be
    restarted: after a stop that succeeded, a start by the same actor
    succeeds. *)
Theorem start_frame_and_restart :
  (forall taskId userId now db started db',
     startTaskTimerService getMemberRoleInWorkspace taskId userId now db
     = (Return started, db') ->
     exists before,
       tasks db !! taskId = Some before
       /\ tasks db' = <[taskId := started]> (tasks db)
       /\ workspace started = workspace before
       /\ assignedTo started = assignedTo before
       /\ createdBy started = createdBy before
       /\ lastStoppedAt started = lastStoppedAt before
       /\ totalSecondsSpent started = totalSecondsSpent before
       /\ totalMinutesSpent started = totalMinutesSpent before
       /\ pagesCompleted started = pagesCompleted before
       /\ remarks started = remarks before)
  /\ (forall taskId userId body t1 t2 db stopped db1,
        stopTaskTimerService getMemberRoleInWorkspace
          taskId userId body t1 db = (Return stopped, db1) ->
        exists started db2,
          startTaskTimerService getMemberRoleInWorkspace
            taskId userId t2 db1 = (Return started, db2)
          /\ activeStartAt started = Some t2
          /\ totalSecondsSpent started = totalSecondsSpent stopped
          /\ lastStoppedAt started = Some t1).
Proof.
  split.
  - intros taskId userId now db started db' Hrun.
    destruct (start_Return_detail _ _ _ _ _ _ Hrun)
      as (before & _ & Hfind & _ & -> & ->).
    exists before. simpl. repeat split; auto.
  - intros taskId userId body t1 t2 db stopped db1 Hstop.
    destruct (stop_Return_detail _ _ _ _ _ _ _ Hstop)
      as (before & startedAt & Hacc & Hfind & _ & _ & -> & ->).
    assert ((ensureAccess taskId userId db).1 = Return before) as Hacc1
      by (rewrite Hacc; reflexivity).
    destruct (ensureTaskTimerAccess_Return _ _ _ _ _ Hacc1)
      as (_ & role & Hrole & Hok).
    unfold startTaskTimerService, bind.
    erewrite ensureTaskTimerAccess_allowed;
      [|simpl; apply lookup_insert_eq|simpl; exact Hrole|simpl; exact Hok].
    simpl. unfold Task_save, modify, ret. simpl.
    eexists _, _. split; [reflexivity|].
    destruct (firstStartedAt before); simpl; auto.
Qed.

(** X6. Minutes do not drift: after a stop, single or bulk, of a task that
    had [s] seconds recorded, the task's minutes are
    [floor (s / 60) + floor (d / 60)] or one more, where [d] is the elapsed
    seconds; the log of the same stop says [max (1, floor (d / 60))]. *)
Theorem stop_minutes_within_one :
  (forall taskId userId body now db stopped db',
     stopTaskTimerService getMemberRoleInWorkspace
       taskId userId body now db = (Return stopped, db') ->
     exists before startedAt log minutes,
       tasks db !! taskId = Some before
       /\ activeStartAt before = Some startedAt
       /\ workLogs db' = workLogs db ++ [log]
       /\ totalMinutesSpent stopped = Some minutes
       /\ let d := Z.max 1 ((now - startedAt) / 1000) in
          log_durationMinutes log = Z.max 1 (d / 60)
          /\ forall s, totalSecondsSpent before = Some s ->
               s / 60 + d / 60 <= minutes <= s / 60 + d / 60 + 1)
  /\ (forall workspaceId userId now db n db' taskId before startedAt s,
        stopAllRunningTaskTimersService getMemberRoleInWorkspace
          workspaceId userId now db = (Return n, db') ->
        (taskId, before) ∈ runningIn workspaceId db ->
        activeStartAt before = Some startedAt ->
        totalSecondsSpent before = Some s ->
        exists after minutes,
          tasks db' !! taskId = Some after
          /\ totalMinutesSpent after = Some minutes
          /\ let d := Z.max 1 ((now - startedAt) / 1000) in
             s / 60 + d / 60 <= minutes <= s / 60 + d / 60 + 1).
Proof.
  split.
  - intros taskId userId body now db stopped db' Hrun.
    destruct (stop_Return_detail _ _ _ _ _ _ _ Hrun)
      as (before & startedAt & _ & Hfind & _ & Hstart & -> & ->).
    eexists before, startedAt, _, _. simpl.
    do 4 (split; [first [assumption | reflexivity]|]).
    split; [reflexivity|]. intros s ->. apply floor_sum_bounds.
  - intros workspaceId userId now db n db' taskId before startedAt s Hrun
      Hin Hstart Hs.
    destruct (stopAll_cases workspaceId userId now db)
      as [(e & He & _)|(role & db1 & newLogs & _ & _ & Hret & _ & _
                         & Hstopped & _)].
    { rewrite He in Hrun. discriminate. }
    rewrite Hret in Hrun. injection Hrun as _ <-.
    destruct (Hstopped _ _ Hin)
      as (after & Hafter & (a & Ha & _ & _ & _ & Hsec & Hmin) & _).
    rewrite Hstart in Ha. injection Ha as <-. rewrite Hs in Hsec.
    exists after. eexists. split; [exact Hafter|].
    split; [apply Hmin, Hsec|]. apply floor_sum_bounds.
Qed.

(** X7. What a stop that succeeds writes: the log names the acting user
    (not the assignee), the task's start time, the stop time, and the
    pages and remarks of the request as they came; on the task,
    [pagesCompleted] grows by the submitted pages (counting from 0 when it
    was unset) and stays when none were submitted, [remarks] is replaced
    only when remarks were submitted, [lastStoppedAt] is the stop time, and
    the workspace, assignee and creator stay; no other task changes. *)
Theorem stop_effect :
  forall taskId userId body now db stopped db',
    stopTaskTimerService getMemberRoleInWorkspace
      taskId userId body now db = (Return stopped, db') ->
    exists before startedAt log,
      tasks db !! taskId = Some before
      /\ activeStartAt before = Some startedAt
      /\ tasks db' = <[taskId := stopped]> (tasks db)
      /\ workLogs db' = workLogs db ++ [log]
      /\ log_userId log = userId
      /\ log_startedAt log = startedAt
      /\ log_stoppedAt log = now
      /\ log_pagesCompleted log = body_pagesCompleted body
      /\ log_remarks log = body_remarks body
      /\ lastStoppedAt stopped = Some now
      /\ workspace stopped = workspace before
      /\ assignedTo stopped = assignedTo before
      /\ createdBy stopped = createdBy before
      /\ (forall pages, body_pagesCompleted body = Some pages ->
            pagesCompleted stopped
            = Some (default 0 (pagesCompleted before) + pages))
      /\ (body_pagesCompleted body = None ->
            pagesCompleted stopped = pagesCompleted before)
      /\ (forall r, body_remarks body = Some r -> remarks stopped = Some r)
      /\ (body_remarks body = None -> remarks stopped = remarks before).
Proof.
  intros taskId userId body now db stopped db' Hrun.
  destruct (stop_Return_detail _ _ _ _ _ _ _ Hrun)
    as (before & startedAt & _ & Hfind & _ & Hstart & -> & ->).
  eexists before, startedAt, _. simpl.
  do 13 (split; [first [assumption | reflexivity]|]).
  split; [intros pages ->; destruct (pagesCompleted before); reflexivity|].
  split; [intros ->; reflexivity|].
  split; [intros r ->; reflexivity|intros ->; reflexivity].
Qed.

(** X8. A bulk stop that succeeds touches only the tasks of its workspace
    that are flagged running with a start time: every other task (another
    workspace, not running, or without a start time) is exactly as before.
    A stopped task keeps its workspace, assignee, creator, pages and
    remarks and gets [lastStoppedAt = now]; its log carries no pages and no
    remarks. *)
Theorem stopAll_scope :
  forall workspaceId userId now db n db',
    stopAllRunningTaskTimersService getMemberRoleInWorkspace
      workspaceId userId now db = (Return n, db') ->
    (forall taskId task,
       tasks db !! taskId = Some task ->
       workspace task <> workspaceId \/ isRunning task = false
       \/ activeStartAt task = None ->
       tasks db' !! taskId = Some task)
    /\ (forall taskId before,
          (taskId, before) ∈ runningIn workspaceId db ->
          exists after,
            tasks db' !! taskId = Some after
            /\ workspace after = workspace before
            /\ assignedTo after = assignedTo before
            /\ createdBy after = createdBy before
            /\ pagesCompleted after = pagesCompleted before
            /\ remarks after = remarks before
            /\ lastStoppedAt after = Some now
            /\ isRunning after = false)
    /\ exists newLogs,
         workLogs db' = workLogs db ++ newLogs
         /\ Forall (fun log =>
                      log_pagesCompleted log = None
                      /\ log_remarks log = None
                      /\ log_stoppedAt log = now) newLogs.
Proof.
  intros workspaceId userId now db n db' Hrun.
  destruct (stopAll_cases workspaceId userId now db)
    as [(e & He & _)|(role & db1 & newLogs & _ & _ & Hret & Hlogs & Hall
                       & Hstopped & Hother)].
  { rewrite He in Hrun. discriminate. }
  rewrite Hret in Hrun. injection Hrun as _ <-.
  split; [|split].
  - intros taskId task Hfind Hnot. rewrite Hother; [exact Hfind|].
    intros Hin. apply list_elem_of_fmap in Hin as ([k t] & -> & Hin).
    apply (runningIn_elem getMemberRoleInWorkspace) in Hin
      as (Hfind' & Hws & Hflag & Hstart).
    simpl in Hfind. rewrite Hfind in Hfind'. injection Hfind' as ->.
    destruct Hnot as [H|[H|H]]; congruence.
  - intros taskId before Hin.
    destruct (Hstopped _ _ Hin)
      as (after & Hafter & (a & _ & Hflag & _) & Hws & Hass & Hcr & Hp & Hr
          & Hlast).
    exists after. auto 10.
  - exists newLogs. split; [exact Hlogs|].
    clear -Hall. induction Hall as [|doc log docs logs Hlog _ IH];
      constructor; [|exact IH].
    destruct Hlog as ((_ & Hnow & _) & Hp & Hr & _). auto.
Qed.

(** X9. After a bulk stop that succeeded, no task of the workspace is found
    running, so a second bulk stop by any privileged actor returns 0 and
    writes nothing. *)
Theorem stopAll_twice :
  forall workspaceId userId now db n db',
    stopAllRunningTaskTimersService getMemberRoleInWorkspace
      workspaceId userId now db = (Return n, db') ->
    runningIn workspaceId db' = []
    /\ forall userId' now' role,
         getMemberRoleInWorkspace userId' workspaceId = Return role ->
         role = Roles.OWNER \/ role = Roles.ADMIN ->
         stopAllRunningTaskTimersService getMemberRoleInWorkspace
           workspaceId userId' now' db' = (Return 0%nat, db').
Proof.
  intros workspaceId userId now db n db' Hrun.
  destruct (stopAll_cases workspaceId userId now db)
    as [(e & He & _)|(role & db1 & newLogs & _ & _ & Hret & _ & _
                       & Hstopped & Hother)].
  { rewrite He in Hrun. discriminate. }
  rewrite Hret in Hrun. injection Hrun as _ <-.
  assert (runningIn workspaceId db1 = []) as Hnone.
  { apply filter_nil_iff. intros [k t] Hin.
    apply elem_of_map_to_list in Hin.
    destruct (decide (k ∈ (runningIn workspaceId db).*1)) as [Hk|Hk].
    - apply list_elem_of_fmap in Hk as ([k' before] & -> & Hk).
      destruct (Hstopped _ _ Hk) as (after & Hafter & (a & _ & Hflag & _) & _).
      simpl in Hin. rewrite Hafter in Hin. injection Hin as <-.
      unfold matchesRunning. simpl. rewrite Hflag.
      apply andb_false_iff. left. apply andb_false_r.
    - rewrite (Hother k Hk) in Hin.
      destruct (matchesRunning workspaceId (k, t)) eqn:Hmatch; [|reflexivity].
      exfalso. apply Hk. apply list_elem_of_fmap. exists (k, t).
      split; [reflexivity|]. unfold runningIn.
      apply list_elem_of_In, filter_In. split; [|exact Hmatch].
      apply list_elem_of_In, elem_of_map_to_list, Hin. }
  split; [exact Hnone|].
  intros userId' now' role' Hrole Hpriv.
  unfold stopAllRunningTaskTimersService. run_eff. rewrite Hrole.
  assert (String.eqb role' Roles.OWNER || String.eqb role' Roles.ADMIN = true)
    as ->.
  { destruct Hpriv as [-> | ->]; reflexivity. }
  simpl. fold (runningIn workspaceId db1). rewrite Hnone. reflexivity.
Qed.

(** X10. The order of the checks of start and stop: a task that does not
    exist gives NotFound before any role is looked up; when the role
    lookup itself fails, its error is the result, whatever the state of the
    timer; and in both cases nothing is written. *)
Theorem timer_error_precedence :
  (forall taskId userId body now db,
     tasks db !! taskId = None ->
     startTaskTimerService getMemberRoleInWorkspace taskId userId now db
     = (Throw (HttpException "Task not found." NOT_FOUND), db)
     /\ stopTaskTimerService getMemberRoleInWorkspace
          taskId userId body now db
        = (Throw (HttpException "Task not found." NOT_FOUND), db))
  /\ (forall taskId userId body now db task e,
        tasks db !! taskId = Some task ->
        getMemberRoleInWorkspace userId (workspace task) = Throw e ->
        startTaskTimerService getMemberRoleInWorkspace taskId userId now db
        = (Throw e, db)
        /\ stopTaskTimerService getMemberRoleInWorkspace
             taskId userId body now db = (Throw e, db)).
Proof.
  split.
  - intros taskId userId body now db Hnone.
    assert ((ensureAccess taskId userId db).1
            = Throw (HttpException "Task not found." NOT_FOUND)) as Hacc.
    { unfold ensureTaskTimerAccess, bind, TaskModel_findById, gets.
      rewrite Hnone. reflexivity. }
    split; [apply start_denied|apply stop_denied]; exact Hacc.
  - intros taskId userId body now db task e Hfind Hrole.
    assert ((ensureAccess taskId userId db).1 = Throw e) as Hacc.
    { unfold ensureTaskTimerAccess, bind, TaskModel_findById, gets,
        liftOutcome.
      rewrite Hfind, Hrole. reflexivity. }
    split; [apply start_denied|apply stop_denied]; exact Hacc.
Qed.

(** X11. A task flagged running without a start time is stuck: no start
    and no stop on it ever succeeds, a bulk stop passes it by, and after any
    timer operation on any task it is exactly as it was. *)
Theorem half_running_task_is_stuck :
  forall stuckId stuck,
    isRunning stuck = true ->
    activeStartAt stuck = None ->
    (forall userId now db o db',
       tasks db !! stuckId = Some stuck ->
       startTaskTimerService getMemberRoleInWorkspace stuckId userId now db
       = (o, db') ->
       exists e, o = Throw e)
    /\ (forall userId body now db o db',
          tasks db !! stuckId = Some stuck ->
          stopTaskTimerService getMemberRoleInWorkspace
            stuckId userId body now db = (o, db') ->
          exists e, o = Throw e)
    /\ (forall taskId userId now db o db',
          tasks db !! stuckId = Some stuck ->
          startTaskTimerService getMemberRoleInWorkspace taskId userId now db
          = (o, db') ->
          tasks db' !! stuckId = Some stuck)
    /\ (forall taskId userId body now db o db',
          tasks db !! stuckId = Some stuck ->
          stopTaskTimerService getMemberRoleInWorkspace
            taskId userId body now db = (o, db') ->
          tasks db' !! stuckId = Some stuck)
    /\ (forall workspaceId userId now db o db',
          tasks db !! stuckId = Some stuck ->
          stopAllRunningTaskTimersService getMemberRoleInWorkspace
            workspaceId userId now db = (o, db') ->
          tasks db' !! stuckId = Some stuck).
Proof.
  intros stuckId stuck Hflag Hnostart.
  assert (forall userId now db o db',
            tasks db !! stuckId = Some stuck ->
            startTimer stuckId userId now db = (o, db') ->
            exists e, o = Throw e) as Hstart.
  { intros userId now db [started|e] db' Hfind Hrun; [|eauto].
    destruct (start_Return_detail _ _ _ _ _ _ Hrun)
      as (task & _ & Hfind' & Hidle & _). congruence. }
  assert (forall userId body now db o db',
            tasks db !! stuckId = Some stuck ->
            stopTimer stuckId userId body now db = (o, db') ->
            exists e, o = Throw e) as Hstop.
  { intros userId body now db [stopped|e] db' Hfind Hrun; [|eauto].
    destruct (stop_Return_detail _ _ _ _ _ _ _ Hrun)
      as (task & startedAt & _ & Hfind' & _ & Hstarted & _). congruence. }
  split; [exact Hstart|]. split; [exact Hstop|]. split; [|split].
  - intros taskId userId now db [started|e] db' Hfind Hrun.
    + destruct (start_Return_detail _ _ _ _ _ _ Hrun)
        as (task & _ & Hfind' & _ & -> & _). simpl.
      destruct (decide (taskId = stuckId)) as [->|Hne].
      * destruct (Hstart _ _ _ _ _ Hfind Hrun) as [e He]. discriminate.
      * rewrite lookup_insert_ne by exact Hne. exact Hfind.
    + apply start_Throw_state in Hrun as ->. exact Hfind.
  - intros taskId userId body now db [stopped|e] db' Hfind Hrun.
    + destruct (stop_Return_detail _ _ _ _ _ _ _ Hrun)
        as (task & startedAt & _ & Hfind' & _ & _ & -> & _). simpl.
      destruct (decide (taskId = stuckId)) as [->|Hne].
      * destruct (Hstop _ _ _ _ _ _ Hfind Hrun) as [e He]. discriminate.
      * rewrite lookup_insert_ne by exact Hne. exact Hfind.
    + apply stop_Throw_state in Hrun as ->. exact Hfind.
  - intros workspaceId userId now db o db' Hfind Hrun.
    destruct (stopAll_cases workspaceId userId now db)
      as [(e & He & _)|(role & db1 & newLogs & _ & _ & Hret & _ & _ & _
                         & Hother)].
    + rewrite He in Hrun. injection Hrun as _ <-. exact Hfind.
    + rewrite Hret in Hrun. injection Hrun as _ <-.
      rewrite Hother; [exact Hfind|].
      intros Hin. apply list_elem_of_fmap in Hin as ([k t] & -> & Hin).
      apply (runningIn_elem getMemberRoleInWorkspace) in Hin
        as (Hfind' & _ & _ & Hstarted).
      simpl in Hfind. congruence.
Qed.

(** X12. Deleting a task: a task that is missing or belongs to another
    workspace gives NotFound and nothing changes; otherwise exactly that
    task is removed, running or not, and the work-log ledger is left as it
    is. Afterwards a start or a stop on the task gives NotFound, and so
    does a second delete. *)
Theorem deleteTask_effect :
  (forall workspaceId taskId db,
     (forall task, tasks db !! taskId = Some task ->
        workspace task <> workspaceId) ->
     deleteTaskService workspaceId taskId db
     = (Throw (HttpException
                 "Task not found or does not belong to the specified workspace"
                 NOT_FOUND), db))
  /\ (forall workspaceId taskId db task,
        tasks db !! taskId = Some task ->
        workspace task = workspaceId ->
        let db' := {| tasks := delete taskId (tasks db);
                      workLogs := workLogs db |} in
        deleteTaskService workspaceId taskId db = (Return tt, db')
        /\ (forall userId body now,
              startTaskTimerService getMemberRoleInWorkspace
                taskId userId now db'
              = (Throw (HttpException "Task not found." NOT_FOUND), db')
              /\ stopTaskTimerService getMemberRoleInWorkspace
                   taskId userId body now db'
                 = (Throw (HttpException "Task not found." NOT_FOUND), db'))
        /\ deleteTaskService workspaceId taskId db'
           = (Throw (HttpException
                       "Task not found or does not belong to the specified workspace"
                       NOT_FOUND), db')).
Proof.
  assert (forall workspaceId taskId db,
            (forall task, tasks db !! taskId = Some task ->
               workspace task <> workspaceId) ->
            deleteTaskService workspaceId taskId db
            = (Throw (NotFoundException
                 "Task not found or does not belong to the specified workspace"),
               db)) as Hmissing.
  { intros workspaceId taskId db Hnot.
    unfold deleteTaskService, bind, TaskModel_findOneAndDelete.
    destruct (tasks db !! taskId) as [task|] eqn:Hfind; [|reflexivity].
    destruct (String.eqb_spec (workspace task) workspaceId) as [Heq|Hne];
      [|reflexivity].
    destruct (Hnot task eq_refl Heq). }
  split; [exact Hmissing|].
  intros workspaceId taskId db task Hfind Hws db'. split; [|split].
  - unfold deleteTaskService, bind, TaskModel_findOneAndDelete.
    rewrite Hfind. apply String.eqb_eq in Hws. rewrite Hws. reflexivity.
  - intros userId body now.
    assert ((ensureAccess taskId userId db').1
            = Throw (HttpException "Task not found." NOT_FOUND)) as Hacc.
    { unfold ensureTaskTimerAccess, bind, TaskModel_findById, gets.
      simpl. rewrite lookup_delete_eq. reflexivity. }
    split; [apply start_denied|apply stop_denied]; exact Hacc.
  - apply Hmissing. intros t. simpl. rewrite lookup_delete_eq. discriminate.
Qed.

End TimerDetails.

(** * Further properties of the file library *)

(** ** Operations that only append to the access log *)











(** ** The workspace root *)

Lemma dirsAlong_prefix todo : forall done d p,
  dirsAlong done todo d -> p <> [] -> p `prefix_of` todo ->
  d !! (done ++ p) = Some Directory.
Proof.
  induction todo as [|seg rest IH]; intros done d p Hdirs Hp Hprefix.
  - apply prefix_nil_inv in Hprefix. contradiction.
  - destruct p as [|seg' p']; [contradiction|].
    destruct Hdirs as [Hseg Hrest].
    apply prefix_cons_inv_1 in Hprefix as Hhead.
    apply prefix_cons_inv_2 in Hprefix as Htail. subst seg'.
    destruct p' as [|seg2 p2]; [exact Hseg|].
    replace (done ++ seg :: seg2 :: p2)
      with ((done ++ [seg]) ++ seg2 :: p2)
      by (rewrite <- app_assoc; reflexivity).
    apply IH; [exact Hrest|discriminate|exact Htail].
Qed.

Lemma mkdirFrom_fails_iff todo : forall done d,
  (exists e, (mkdirFrom done todo d).1 = Throw e)
  <-> exists p n,
        p <> [] /\ p `prefix_of` todo
        /\ d !! (done ++ p) = Some n /\ n <> Directory.
Proof.
  induction todo as [|seg rest IH]; intros done d.
  - simpl. split; [intros [e He]; discriminate|].
    intros (p & n & Hp & Hprefix & _). apply prefix_nil_inv in Hprefix.
    contradiction.
  - simpl. destruct (d !! (done ++ [seg])) as [[| |]|] eqn:Hseg.
    + rewrite IH. split.
      * intros (p & n & Hp & Hprefix & Hfind & Hn).
        exists (seg :: p), n. split; [discriminate|].
        split; [apply prefix_cons, Hprefix|].
        rewrite <- app_assoc in Hfind. auto.
      * intros (p & n & Hp & Hprefix & Hfind & Hn).
        destruct p as [|seg' p']; [contradiction|].
        apply prefix_cons_inv_1 in Hprefix as Hhead.
        apply prefix_cons_inv_2 in Hprefix as Htail. subst seg'.
        destruct p' as [|seg2 p2]; [congruence|].
        exists (seg2 :: p2), n. split; [discriminate|].
        split; [exact Htail|]. rewrite <- app_assoc. auto.
    + split; [intros _|intros _; eexists; reflexivity].
      exists [seg]. eexists. split; [discriminate|].
      split; [apply prefix_cons, prefix_nil|].
      split; [exact Hseg|discriminate].
    + split; [intros _|intros _; eexists; reflexivity].
      exists [seg]. eexists. split; [discriminate|].
      split; [apply prefix_cons, prefix_nil|].
      split; [exact Hseg|discriminate].
    + rewrite IH. split.
      * intros (p & n & Hp & Hprefix & Hfind & Hn).
        exists (seg :: p), n. split; [discriminate|].
        split; [apply prefix_cons, Hprefix|].
        rewrite <- app_assoc in Hfind. simpl in Hfind.
        rewrite lookup_insert_ne in Hfind; [auto|].
        intros Heq. apply (f_equal length) in Heq.
        rewrite !length_app in Heq. simpl in Heq.
        destruct p; [contradiction|simpl in Heq; lia].
      * intros (p & n & Hp & Hprefix & Hfind & Hn).
        destruct p as [|seg' p']; [contradiction|].
        apply prefix_cons_inv_1 in Hprefix as Hhead.
        apply prefix_cons_inv_2 in Hprefix as Htail. subst seg'.
        destruct p' as [|seg2 p2]; [congruence|].
        exists (seg2 :: p2), n. split; [discriminate|].
        split; [exact Htail|]. rewrite <- app_assoc. simpl.
        rewrite lookup_insert_ne; [auto|].
        intros Heq. apply (f_equal length) in Heq.
        rewrite !length_app in Heq. simpl in Heq. lia.
Qed.

Section FileDetails.

Variable FILE_STORAGE_ROOT : list string.
Variable resolve : list string -> string -> Outcome (list string).
Variable sanitizeFileName : string -> string.
Variable path_dirname : string -> string.

Local Abbreviation ensureRoot := (ensureWorkspaceRoot FILE_STORAGE_ROOT).

Lemma ensureRoot_run workspaceId st :
  ensureRoot workspaceId st
  = (match (mkdirFrom [] (path_join FILE_STORAGE_ROOT workspaceId)
              (disk st)).1 with
     | Return _ => Return (path_join FILE_STORAGE_ROOT workspaceId)
     | Throw e => Throw e
     end,
     {| disk := diskWithRoot (path_join FILE_STORAGE_ROOT workspaceId)
                 (disk st);
        accessLogs := accessLogs st |}).
Proof.
  unfold ensureWorkspaceRoot, fs_mkdir_recursive, onDisk, bind, ret,
    diskWithRoot.
  destruct (mkdirFrom [] (path_join FILE_STORAGE_ROOT workspaceId) (disk st))
    as [[[]|e] d]; reflexivity.
Qed.

(** X14. Creating the workspace root never destroys anything: whatever the
    outcome, every entry of the disk is still there unchanged, paths that
    are not on the way to the root are as before, and the access log is
    untouched. It fails exactly when something that is not a directory
    sits on the way to the root. When it succeeds every directory on the
    way exists, and doing it again changes nothing. *)
Theorem ensureWorkspaceRoot_effect :
  forall workspaceId st o st',
    ensureWorkspaceRoot FILE_STORAGE_ROOT workspaceId st = (o, st') ->
    let workspaceRoot := path_join FILE_STORAGE_ROOT workspaceId in
    accessLogs st' = accessLogs st
    /\ (forall q n, disk st !! q = Some n -> disk st' !! q = Some n)
    /\ (forall q, ~ q `prefix_of` workspaceRoot ->
          disk st' !! q = disk st !! q)
    /\ ((exists e, o = Throw e)
        <-> exists p n,
              p <> [] /\ p `prefix_of` workspaceRoot
              /\ disk st !! p = Some n /\ n <> Directory)
    /\ (forall root,
          o = Return root ->
          root = workspaceRoot
          /\ (forall p, p <> [] -> p `prefix_of` workspaceRoot ->
                disk st' !! p = Some Directory)
          /\ ensureWorkspaceRoot FILE_STORAGE_ROOT workspaceId st'
             = (Return root, st')).
Proof.
  intros workspaceId st o st' Hrun workspaceRoot.
  rewrite ensureRoot_run in Hrun. fold workspaceRoot in Hrun.
  injection Hrun as <- <-. simpl. unfold diskWithRoot.
  destruct (mkdirFrom [] workspaceRoot (disk st)) as [o d] eqn:Hmk. simpl.
  split; [reflexivity|].
  split; [eapply mkdirFrom_keeps, Hmk|].
  split; [apply (mkdirFrom_elsewhere _ _ _ _ _ Hmk)|].
  split.
  - rewrite <- (mkdirFrom_fails_iff workspaceRoot [] (disk st)). rewrite Hmk.
    simpl. destruct o as [u|e0]; split; intros [e1 He]; try discriminate;
      eauto.
  - intros root Hroot. destruct o as [[]|e0]; [|discriminate].
    injection Hroot as <-.
    pose proof (mkdirFrom_dirs _ _ _ _ Hmk) as Hdirs.
    split; [reflexivity|]. split.
    + intros p Hp Hprefix. apply (dirsAlong_prefix _ [] d p Hdirs Hp Hprefix).
    + rewrite ensureRoot_run. fold workspaceRoot. unfold diskWithRoot.
      simpl. rewrite (dirsAlong_mkdirFrom _ _ _ Hdirs). reflexivity.
Qed.

Local Abbreviation download :=
  (getWorkspaceFileDownloadService FILE_STORAGE_ROOT resolve path_dirname).


Local Abbreviation deleteItem :=
  (deleteWorkspaceItemService FILE_STORAGE_ROOT resolve path_dirname).

Lemma deleteItem_run workspaceId userId relPath st targetAbs :
  let workspaceRoot := path_join FILE_STORAGE_ROOT workspaceId in
  (mkdirFrom [] workspaceRoot (disk st)).1 = Return tt ->
  resolve workspaceRoot relPath = Return targetAbs ->
  let d1 := diskWithRoot workspaceRoot (disk st) in
  let logged action size :=
    accessLogs st
    ++ [{| access_workspaceId := workspaceId;
           access_userId := userId;
           access_action := action;
           access_path :=
             if String.eqb
                  (if String.eqb (path_dirname relPath) "." then ""
                   else path_dirname relPath) ""
             then "."
             else if String.eqb (path_dirname relPath) "." then ""
                  else path_dirname relPath;
           access_fileName := Some (path_basename targetAbs);
           access_size := size |}] in
  deleteItem workspaceId userId relPath st
  = match lookupNode d1 targetAbs with
    | None =>
        (Throw (NotFoundException "File or folder not found"),
         {| disk := d1; accessLogs := accessLogs st |})
    | Some Directory =>
        (Return (folder, path_basename targetAbs),
         {| disk :=
              filter (fun kv : list string * Node =>
                        ~ targetAbs `prefix_of` kv.1) d1;
            accessLogs := logged DELETE_FOLDER None |})
    | Some (RegularFile buffer) =>
        (Return (file, path_basename targetAbs),
         {| disk := delete targetAbs d1;
            accessLogs :=
              logged DELETE_FILE (Some (Z.of_nat (length buffer))) |})
    | Some Special =>
        (Throw (BadRequestException "Unsupported item type"),
         {| disk := d1; accessLogs := accessLogs st |})
    end.
Proof.
  intros workspaceRoot Hroot Hres d1 logged.
  unfold deleteWorkspaceItemService, bind.
  rewrite ensureRoot_run. fold workspaceRoot. rewrite Hroot.
  unfold liftOutcome. rewrite Hres. fold d1.
  unfold catchThrow, fs_stat, onDisk, fs_rm_recursive, fs_unlink,
    logFileAccess, FileAccessLogModel_create, modify, ret, throw.
  simpl. destruct (lookupNode d1 targetAbs) as [[| |]|]; reflexivity.
Qed.

Lemma prefix_dirs_dirsAlong todo : forall done d,
  (forall p, p <> [] -> p `prefix_of` todo ->
     d !! (done ++ p) = Some Directory) ->
  dirsAlong done todo d.
Proof.
  induction todo as [|seg rest IH]; intros done d Hdirs; [exact I|].
  simpl. split.
  - apply Hdirs; [discriminate|]. apply prefix_cons, prefix_nil.
  - apply IH. intros p Hp Hprefix. rewrite <- app_assoc. simpl.
    apply Hdirs; [discriminate|]. apply prefix_cons, Hprefix.
Qed.

Lemma deleteItem_Return_inv workspaceId userId relPath st r st' :
  deleteItem workspaceId userId relPath st = (Return r, st') ->
  (mkdirFrom [] (path_join FILE_STORAGE_ROOT workspaceId) (disk st)).1
  = Return tt
  /\ exists targetAbs,
       resolve (path_join FILE_STORAGE_ROOT workspaceId) relPath
       = Return targetAbs.
Proof.
  unfold deleteWorkspaceItemService, bind. rewrite ensureRoot_run.
  destruct (mkdirFrom [] (path_join FILE_STORAGE_ROOT workspaceId) (disk st)).1
    as [[]|e]; [|discriminate].
  unfold liftOutcome.
  destruct (resolve (path_join FILE_STORAGE_ROOT workspaceId) relPath)
    as [targetAbs|e]; [|discriminate].
  intros _. eauto.
Qed.


(** X17. Deleting the same item twice: after a delete that succeeded on a
    target that does not lie on the way to the workspace root, the same
    delete fails with NotFound and changes nothing. *)
Theorem delete_twice :
  forall workspaceId userId relPath st r st',
    let workspaceRoot := path_join FILE_STORAGE_ROOT workspaceId in
    deleteWorkspaceItemService FILE_STORAGE_ROOT resolve path_dirname
      workspaceId userId relPath st = (Return r, st') ->
    (forall targetAbs,
       resolve workspaceRoot relPath = Return targetAbs ->
       ~ targetAbs `prefix_of` workspaceRoot) ->
    deleteWorkspaceItemService FILE_STORAGE_ROOT resolve path_dirname
      workspaceId userId relPath st'
    = (Throw (HttpException "File or folder not found" NOT_FOUND), st').
Proof.
  intros workspaceId userId relPath st r st' workspaceRoot Hfirst Hbelow.
  destruct (deleteItem_Return_inv _ _ _ _ _ _ Hfirst)
    as (Hroot & targetAbs & Hres).
  fold workspaceRoot in Hroot, Hres. specialize (Hbelow targetAbs Hres).
  pose proof (deleteItem_run workspaceId userId relPath st targetAbs
                Hroot Hres) as Hrun.
  cbv zeta in Hrun. fold workspaceRoot in Hrun. rewrite Hfirst in Hrun.
  set (d1 := diskWithRoot workspaceRoot (disk st)) in *.
  assert (dirsAlong [] workspaceRoot d1) as Hdirs.
  { unfold d1, diskWithRoot.
    destruct (mkdirFrom [] workspaceRoot (disk st)) as [o d] eqn:Hmk.
    simpl in Hroot. subst o. eapply mkdirFrom_dirs, Hmk. }
  assert (targetAbs <> []) as Hnonempty.
  { intros ->. apply Hbelow, prefix_nil. }
  assert (disk st' !! targetAbs = None
          /\ forall p, p <> [] -> p `prefix_of` workspaceRoot ->
               disk st' !! p = Some Directory) as [Hgone Hkept].
  { destruct (lookupNode d1 targetAbs) as [[|buffer|]|]; try discriminate;
      injection Hrun as _ ->; simpl.
    - split.
      + apply map_lookup_filter_None_2. right.
        intros n _ Hnot. apply Hnot. reflexivity.
      + intros p Hp Hprefix. apply map_lookup_filter_Some_2.
        * apply (dirsAlong_prefix _ [] d1 p Hdirs Hp Hprefix).
        * simpl. intros Hin. apply Hbelow. etransitivity; eassumption.
    - split; [apply lookup_delete_eq|].
      intros p Hp Hprefix. rewrite lookup_delete_ne.
      + apply (dirsAlong_prefix _ [] d1 p Hdirs Hp Hprefix).
      + intros ->. apply Hbelow, Hprefix. }
  assert (mkdirFrom [] workspaceRoot (disk st') = (Return tt, disk st'))
    as Hmk'.
  { apply dirsAlong_mkdirFrom, prefix_dirs_dirsAlong. exact Hkept. }
  assert ((mkdirFrom [] workspaceRoot (disk st')).1 = Return tt) as Hroot'
    by (rewrite Hmk'; reflexivity).
  rewrite (deleteItem_run workspaceId userId relPath st' targetAbs
             Hroot' Hres).
  cbv zeta. fold workspaceRoot. unfold diskWithRoot. rewrite Hmk'. simpl.
  assert (lookupNode (disk st') targetAbs = None) as ->.
  { destruct targetAbs; [contradiction|exact Hgone]. }
  destruct st'; reflexivity.
Qed.

Local Abbreviation createFolder :=
  (createWorkspaceFolderService FILE_STORAGE_ROOT resolve sanitizeFileName).


(** ** Uploading *)

Lemma writeFile_Return p buffer st st' :
  fs_writeFile p buffer st = (Return tt, st') ->
  accessLogs st' = accessLogs st
  /\ (forall q, q <> p -> disk st' !! q = disk st !! q)
  /\ (disk st' !! p = Some (RegularFile buffer)
      \/ disk st' !! p = Some Special)
  /\ (forall q n, disk st !! q = Some n -> n <> Directory ->
        exists n', disk st' !! q = Some n' /\ n' <> Directory)
  /\ (forall q, disk st !! q = Some Directory ->
        disk st' !! q = Some Directory).
Proof.
  unfold fs_writeFile, onDisk.
  destruct p as [|seg p]; [simpl; discriminate|].
  set (path := seg :: p). unfold lookupNode at 1. fold path.
  assert (forall d,
            disk st !! path <> Some Directory ->
            d = <[path := RegularFile buffer]> (disk st) ->
            (forall q, q <> path -> d !! q = disk st !! q)
            /\ (d !! path = Some (RegularFile buffer)
                \/ d !! path = Some Special)
            /\ (forall q n, disk st !! q = Some n -> n <> Directory ->
                  exists n', d !! q = Some n' /\ n' <> Directory)
            /\ (forall q, disk st !! q = Some Directory ->
                  d !! q = Some Directory)) as Hinsert.
  { intros d Hnotdir ->. split; [|split; [|split]].
    - intros q Hq. apply lookup_insert_ne. congruence.
    - left. apply lookup_insert_eq.
    - intros q n Hq Hn. destruct (decide (path = q)) as [<-|Hne].
      + rewrite lookup_insert_eq. eexists. split; [reflexivity|discriminate].
      + rewrite lookup_insert_ne by exact Hne. eauto.
    - intros q Hq. rewrite lookup_insert_ne; [exact Hq|]. congruence. }
  destruct (disk st !! path) as [[|old|]|] eqn:Hfind; simpl.
  - discriminate.
  - intros [= <-]. simpl. split; [reflexivity|].
    apply Hinsert; [congruence|reflexivity].
  - intros [= <-]. simpl. split; [reflexivity|].
    split; [reflexivity|]. split; [auto|]. split; [eauto|auto].
  - match goal with
    | |- context [lookupNode (disk st) ?parent] =>
        destruct (lookupNode (disk st) parent) as [[| |]|]
    end; simpl; try discriminate.
    intros [= <-]. simpl. split; [reflexivity|].
    apply Hinsert; [congruence|reflexivity].
Qed.

Local Abbreviation upload :=
  (uploadWorkspaceFilesService FILE_STORAGE_ROOT resolve sanitizeFileName).

Lemma upload_loop workspaceId userId (logPath : string) targetAbs files :
  let dest f := path_join targetAbs (sanitizeFileName (originalname f)) in
  let saved f := (sanitizeFileName (originalname f), file_size f) in
  forall st results st',
    mapEff (fun f : UploadedFile =>
              let* _ := fs_writeFile (dest f) (file_buffer f) in
              let* _ :=
                logFileAccess workspaceId userId UPLOAD logPath
                  (Some (sanitizeFileName (originalname f)))
                  (Some (file_size f)) in
              ret (saved f)) files st = (Return results, st') ->
    results = map saved files
    /\ length (accessLogs st') = (length (accessLogs st) + length files)%nat
    /\ (forall q, disk st !! q = Some Directory ->
          disk st' !! q = Some Directory)
    /\ (forall q n, disk st !! q = Some n -> n <> Directory ->
          exists n', disk st' !! q = Some n' /\ n' <> Directory)
    /\ (forall q, q ∉ map dest files -> disk st' !! q = disk st !! q)
    /\ (forall f, f ∈ files ->
          exists n, disk st' !! dest f = Some n /\ n <> Directory)
    /\ (NoDup (map dest files) ->
        forall f, f ∈ files ->
          disk st' !! dest f = Some (RegularFile (file_buffer f))
          \/ disk st' !! dest f = Some Special).
Proof.
  intros dest saved. induction files as [|f files IH];
    intros st results st' Hrun.
  - injection Hrun as <- <-. simpl. rewrite Nat.add_0_r.
    split; [reflexivity|]. split; [reflexivity|]. split; [auto|].
    split; [eauto|]. split; [auto|].
    split; [intros f H; inversion H|intros _ f H; inversion H].
  - simpl in Hrun. unfold bind at 1 2 in Hrun.
    destruct (fs_writeFile (dest f) (file_buffer f) st) as [[[]|e] st1]
      eqn:Hwrite; [|discriminate].
    destruct (writeFile_Return _ _ _ _ Hwrite)
      as (Hlogs1 & Hother1 & Hhere1 & Hfiles1 & Hdirs1).
    unfold logFileAccess, FileAccessLogModel_create, modify in Hrun.
    unfold bind at 1 in Hrun. simpl in Hrun. unfold bind at 1 in Hrun.
    match type of Hrun with
    | context [mapEff ?cb files ?s] =>
        destruct (mapEff cb files s) as [[rest|e] st2] eqn:Hloop
    end; [|discriminate].
    injection Hrun as <- <-.
    destruct (IH _ _ _ Hloop)
      as (-> & Hlen & Hdirs & Hfiles & Hother & Hdest & Hcontent).
    simpl in Hlen. rewrite length_app, Hlogs1 in Hlen. simpl in Hlen.
    split; [reflexivity|]. split; [simpl; lia|].
    split; [intros q Hq; apply Hdirs; simpl; apply Hdirs1, Hq|].
    split.
    { intros q n Hq Hn. destruct (Hfiles1 q n Hq Hn) as (n1 & Hq1 & Hn1).
      apply (Hfiles q n1); simpl; assumption. }
    split.
    { intros q Hq. simpl in Hq. apply not_elem_of_cons in Hq as [Hne Hq].
      rewrite (Hother q Hq). simpl. apply Hother1, Hne. }
    split.
    { intros f' Hin. apply elem_of_cons in Hin as [->|Hin]; [|auto].
      destruct Hhere1 as [Hhere1|Hhere1];
        apply (Hfiles _ _ Hhere1); discriminate. }
    intros Hnodup f' Hin. simpl in Hnodup.
    apply NoDup_cons in Hnodup as [Hfresh Hnodup].
    apply elem_of_cons in Hin as [->|Hin]; [|auto].
    rewrite (Hother _ Hfresh). simpl. exact Hhere1.
Qed.

(** X19. Uploading. With no file the upload fails with BadRequest before
    anything is touched, the workspace root included. An upload that
    succeeds had the path accepted by the resolver; it returns one entry
    per file, in the order of the request, with the sanitized name and the
    size; it logs one entry per file; the target directory exists
    afterwards; every destination holds something that is not a directory;
    and when the sanitized names are all different every destination holds
    exactly the bytes of its file (or is the special file it was). *)
Theorem upload_effect :
  forall workspaceId userId relPath files st,
    let workspaceRoot := path_join FILE_STORAGE_ROOT workspaceId in
    (files = [] ->
     uploadWorkspaceFilesService FILE_STORAGE_ROOT resolve sanitizeFileName
       workspaceId userId relPath files st
     = (Throw (HttpException "No files uploaded" BAD_REQUEST), st))
    /\ (forall results st',
          uploadWorkspaceFilesService FILE_STORAGE_ROOT resolve sanitizeFileName
            workspaceId userId relPath files st
          = (Return results, st') ->
          exists targetAbs,
            let dest f :=
              path_join targetAbs (sanitizeFileName (originalname f)) in
            resolve workspaceRoot (default "" relPath) = Return targetAbs
            /\ results
               = map (fun f =>
                        (sanitizeFileName (originalname f), file_size f))
                   files
            /\ length (accessLogs st')
               = (length (accessLogs st) + length files)%nat
            /\ lookupNode (disk st') targetAbs = Some Directory
            /\ (forall f, f ∈ files ->
                  exists n, disk st' !! dest f = Some n /\ n <> Directory)
            /\ (NoDup (map dest files) ->
                forall f, f ∈ files ->
                  disk st' !! dest f = Some (RegularFile (file_buffer f))
                  \/ disk st' !! dest f = Some Special)).
Proof.
  intros workspaceId userId relPath files st workspaceRoot. split.
  - intros ->. reflexivity.
  - intros results st'. unfold uploadWorkspaceFilesService.
    destruct files as [|f0 files0] eqn:Hfiles; [discriminate|].
    rewrite <- Hfiles. clear Hfiles.
    unfold bind at 1. rewrite ensureRoot_run. fold workspaceRoot.
    destruct (mkdirFrom [] workspaceRoot (disk st)).1 as [[]|e];
      [|discriminate].
    unfold bind at 1, liftOutcome.
    destruct (resolve workspaceRoot (default "" relPath))
      as [targetAbs|e]; [|discriminate].
    unfold bind at 1, fs_mkdir_recursive, onDisk. simpl.
    destruct (mkdirFrom [] targetAbs
                (diskWithRoot workspaceRoot (disk st)))
      as [[[]|e] d2] eqn:Hmk; [|discriminate].
    intros Hloop. apply upload_loop in Hloop
      as (Hres & Hlen & Hdirs & _ & _ & Hdest & Hcontent).
    exists targetAbs. simpl in *.
    split; [reflexivity|]. split; [exact Hres|]. split; [exact Hlen|].
    split; [|split; [exact Hdest|exact Hcontent]].
    destruct targetAbs as [|seg rest] eqn:Htarget; [reflexivity|].
    simpl. apply Hdirs.
    apply (dirsAlong_prefix _ [] d2 (seg :: rest)
             (mkdirFrom_dirs _ _ _ _ Hmk)); [discriminate|reflexivity].
Qed.

(** ** Listing *)

Lemma readdir_elem p st name n :
  let entries :=
    match (fs_readdir p st).1 with Return es => es | Throw _ => [] end in
  (name, n) ∈ entries <-> disk st !! (p ++ [name]) = Some n.
Proof.
  unfold fs_readdir, onDisk. simpl. rewrite list_elem_of_omap. split.
  - intros ([q m] & Hin & Hsome). apply elem_of_map_to_list in Hin.
    destruct (List.rev q) as [|last parent] eqn:Hrev; [discriminate|].
    case_bool_decide as Hparent; [|discriminate].
    injection Hsome as <- <-.
    assert (q = p ++ [last]) as <-; [|exact Hin].
    rewrite <- (rev_involutive q), Hrev. simpl. rewrite Hparent. reflexivity.
  - intros Hfind. exists (p ++ [name], n).
    split; [apply elem_of_map_to_list, Hfind|].
    rewrite rev_app_distr. simpl. rewrite rev_involutive.
    rewrite bool_decide_eq_true_2 by reflexivity. reflexivity.
Qed.

Lemma fs_readdir_run p st :
  exists entries, fs_readdir p st = (Return entries, st).
Proof. unfold fs_readdir, onDisk. destruct st. simpl. eauto. Qed.

Lemma mapEff_cons {S A B : Type} (f : A -> Eff S B) (x : A) (xs : list A)
  (s : S) :
  mapEff f (x :: xs) s
  = match f x s with
    | (Return y, s1) =>
        match mapEff f xs s1 with
        | (Return ys, s2) => (Return (y :: ys), s2)
        | (Throw e, s2) => (Throw e, s2)
        end
    | (Throw e, s1) => (Throw e, s1)
    end.
Proof.
  simpl. unfold bind, ret. destruct (f x s) as [[y|e] s1]; [|reflexivity].
  destruct (mapEff f xs s1) as [[ys|e] s2]; reflexivity.
Qed.

Lemma list_items_run targetAbs entries : forall st,
  let describe (entry : string * Node) :=
    let entryPath := path_join targetAbs entry.1 in
    let* entryStat := fs_stat entryPath in
    match entry.2 with
    | Directory =>
        ret {| item_name := entry.1; item_type := folder;
               item_size := None |}
    | _ =>
        ret {| item_name := entry.1; item_type := file;
               item_size := Some (nodeSize entryStat) |}
    end in
  (mapEff describe entries st).2 = st
  /\ forall items,
       (mapEff describe entries st).1 = Return items ->
       Forall2 (fun (entry : string * Node) item =>
                  item_name item = entry.1
                  /\ (entry.2 = Directory ->
                      item_type item = folder /\ item_size item = None)
                  /\ (entry.2 <> Directory -> item_type item = file))
         entries items.
Proof.
  intros st describe. induction entries as [|entry entries IH].
  - split; [reflexivity|]. intros items [= <-]. constructor.
  - rewrite mapEff_cons. assert (forall item,
              describe entry st = (Return item, st) ->
              item_name item = entry.1
              /\ (entry.2 = Directory ->
                  item_type item = folder /\ item_size item = None)
              /\ (entry.2 <> Directory -> item_type item = file))
      as Hitem.
    { unfold describe, bind, fs_stat, onDisk, ret.
      destruct (lookupNode (disk st) (path_join targetAbs entry.1));
        simpl; [|discriminate].
      destruct entry.2; intros item [= <-]; simpl;
        repeat split; congruence. }
    assert ((describe entry st).2 = st) as Hstate.
    { unfold describe, bind, fs_stat, onDisk, ret.
      destruct (lookupNode (disk st) (path_join targetAbs entry.1));
        simpl; [|destruct st; reflexivity].
      destruct entry.2; destruct st; reflexivity. }
    destruct (describe entry st) as [[item|e] st1] eqn:Hdescribe;
      simpl in Hstate; subst st1; [|split; [reflexivity|discriminate]].
    destruct IH as [IHstate IHitems].
    destruct (mapEff describe entries st) as [[rest|e] st2]; simpl in *;
      subst st2; [|split; [reflexivity|discriminate]].
    split; [reflexivity|]. intros items [= <-].
    constructor; [apply Hitem; reflexivity|apply IHitems; reflexivity].
Qed.

Local Abbreviation listFiles :=
  (listWorkspaceFilesService FILE_STORAGE_ROOT resolve).

(** X20. Listing a folder reads and does not write: whatever the outcome,
    the disk afterwards is the disk with the workspace root created, and
    nothing else. Once the root is there and the resolver has accepted the
    path, a missing target gives NotFound and a target that is not a
    directory BadRequest, without a log entry; a listing that succeeds
    returns the path as it was asked, logs exactly one ENTER entry, and
    has one item for each child of the folder, and only for these, a
    directory as [folder] without a size and anything else as [file]. *)
Theorem list_effect :
  forall workspaceId userId relPath st,
    let workspaceRoot := path_join FILE_STORAGE_ROOT workspaceId in
    let d1 := diskWithRoot workspaceRoot (disk st) in
    disk (listWorkspaceFilesService FILE_STORAGE_ROOT resolve
            workspaceId userId relPath st).2 = d1
    /\ (forall targetAbs,
          (mkdirFrom [] workspaceRoot (disk st)).1 = Return tt ->
          resolve workspaceRoot (default "" relPath) = Return targetAbs ->
          (lookupNode d1 targetAbs = None ->
           listWorkspaceFilesService FILE_STORAGE_ROOT resolve
             workspaceId userId relPath st
           = (Throw (HttpException "Folder not found" NOT_FOUND),
              {| disk := d1; accessLogs := accessLogs st |}))
          /\ (forall n,
                lookupNode d1 targetAbs = Some n -> n <> Directory ->
                listWorkspaceFilesService FILE_STORAGE_ROOT resolve
                  workspaceId userId relPath st
                = (Throw (HttpException "Path is not a folder" BAD_REQUEST),
                   {| disk := d1; accessLogs := accessLogs st |}))
          /\ (forall shown items st',
                listWorkspaceFilesService FILE_STORAGE_ROOT resolve
                  workspaceId userId relPath st
                = (Return (shown, items), st') ->
                shown = default "" relPath
                /\ lookupNode d1 targetAbs = Some Directory
                /\ (exists entry,
                      accessLogs st' = accessLogs st ++ [entry]
                      /\ access_action entry = ENTER
                      /\ access_path entry
                         = (if String.eqb (default "" relPath) "" then "."
                            else default "" relPath))
                /\ exists entries,
                     (forall name n,
                        (name, n) ∈ entries
                        <-> d1 !! (targetAbs ++ [name]) = Some n)
                     /\ Forall2
                          (fun (entry : string * Node) item =>
                             item_name item = entry.1
                             /\ (entry.2 = Directory ->
                                 item_type item = folder
                                 /\ item_size item = None)
                             /\ (entry.2 <> Directory ->
                                 item_type item = file))
                          entries items)).
Proof.
  intros workspaceId userId relPath st workspaceRoot d1.
  remember (listFiles workspaceId userId relPath st) as result eqn:Hresult.
  unfold listWorkspaceFilesService in Hresult.
  unfold bind at 1 in Hresult. rewrite ensureRoot_run in Hresult.
  fold workspaceRoot in Hresult. fold d1 in Hresult.
  set (st1 := {| disk := d1; accessLogs := accessLogs st |}) in *.
  assert (forall targetAbs,
            disk ((let* stat :=
                     catchThrow (fs_stat targetAbs)
                       (fun _ => NotFoundException "Folder not found") in
                   match stat with
                   | Directory =>
                       let* entries := fs_readdir targetAbs in
                       let* items :=
                         mapEff (fun entry : string * Node =>
                           let entryPath := path_join targetAbs entry.1 in
                           let* entryStat := fs_stat entryPath in
                           match entry.2 with
                           | Directory =>
                               ret {| item_name := entry.1;
                                      item_type := folder;
                                      item_size := None |}
                           | _ =>
                               ret {| item_name := entry.1;
                                      item_type := file;
                                      item_size :=
                                        Some (nodeSize entryStat) |}
                           end) entries in
                       let* _ :=
                         logFileAccess workspaceId userId ENTER
                           (default "" relPath) None None in
                       ret (default "" relPath, items)
                   | _ => throw (BadRequestException "Path is not a folder")
                   end) st1).2 = d1) as Hreadonly.
  { intros targetAbs. unfold bind at 1, catchThrow, fs_stat, onDisk.
    simpl. destruct (lookupNode d1 targetAbs) as [[| |]|]; try reflexivity.
    fold st1. unfold bind at 1.
    destruct (fs_readdir_run targetAbs st1) as [entries ->].
    unfold bind at 1.
    match goal with
    | |- context [mapEff ?cb entries st1] =>
        assert ((mapEff cb entries st1).2 = st1) as Hstate
          by exact (proj1 (list_items_run targetAbs entries st1));
        destruct (mapEff cb entries st1) as [[items|e] st2] eqn:Hmap
    end; simpl in Hstate; subst st2; reflexivity. }
  split.
  - subst result.
    match goal with
    | |- context [match ?x with
                  | Return _ => Return workspaceRoot
                  | Throw e => Throw e
                  end] => destruct x as [[]|e]
    end; [|reflexivity].
    unfold bind at 1, liftOutcome.
    destruct (resolve workspaceRoot (default "" relPath))
      as [targetAbs|e]; [|reflexivity].
    apply Hreadonly.
  - intros targetAbs Hroot Hres. clear Hreadonly.
    match type of Hresult with
    | context [match ?x with
               | Return _ => Return workspaceRoot
               | Throw e => Throw e
               end] =>
        replace x with (Return tt : Outcome unit) in Hresult
          by (symmetry; exact Hroot)
    end.
    unfold bind at 1, liftOutcome in Hresult. rewrite Hres in Hresult.
    unfold bind at 1, catchThrow in Hresult.
    assert (fs_stat targetAbs st1
            = (match lookupNode d1 targetAbs with
               | Some n => Return n
               | None => Throw (ErrnoException ENOENT)
               end, st1)) as Hstat.
    { unfold fs_stat, onDisk. simpl.
      destruct (lookupNode d1 targetAbs); reflexivity. }
    rewrite Hstat in Hresult. clear Hstat.
    destruct (lookupNode d1 targetAbs) as [[| |]|] eqn:Hnode;
      subst result.
    all: split; [intros [=]; try reflexivity|].
    all: split;
      [intros n [= <-] Hn; first [contradiction | reflexivity]|].
    all: try (intros shown items st'; discriminate).
    intros shown items st'. unfold bind at 1.
    pose proof (readdir_elem targetAbs st1) as Hentries.
    destruct (fs_readdir_run targetAbs st1) as [entries Hreaddir].
    rewrite Hreaddir in *. simpl in Hentries. unfold bind at 1.
    match goal with
    | |- context [mapEff ?cb entries st1] =>
        assert ((mapEff cb entries st1).2 = st1) as Hstate
          by exact (proj1 (list_items_run targetAbs entries st1));
        assert (forall items,
                  (mapEff cb entries st1).1 = Return items ->
                  Forall2
                    (fun (entry : string * Node) item =>
                       item_name item = entry.1
                       /\ (entry.2 = Directory ->
                           item_type item = folder /\ item_size item = None)
                       /\ (entry.2 <> Directory -> item_type item = file))
                    entries items) as Hitems
          by exact (proj2 (list_items_run targetAbs entries st1));
        destruct (mapEff cb entries st1) as [[items'|e] st2] eqn:Hmap
    end; simpl in Hstate; subst st2; [|discriminate].
    unfold bind, logFileAccess, FileAccessLogModel_create, modify, ret.
    simpl. intros [= <- <- <-].
    split; [reflexivity|]. split; [reflexivity|].
    split; [eexists; split; [reflexivity|]; simpl; auto|].
    exists entries. split; [exact Hentries|]. apply Hitems. reflexivity.
Qed.

End FileDetails.

(** * Paging through the tasks *)

Lemma ceilDiv_bounds (count size : Z) :
  1 <= size ->
  exists pages,
    ceilDiv count size = Finite pages
    /\ (pages - 1) * size < count <= pages * size.
Proof.
  intros Hsize. unfold ceilDiv.
  destruct (Z.eqb_spec size 0) as [->|_]; [lia|].
  eexists. split; [reflexivity|].
  Z.to_euclidean_division_equations. nia.
Qed.

(** X21. The page of a task listing. For a page size of at least 1,
    [totalPages] is the number of pages that exactly covers the
    [totalCount] documents the same query counts: the pages hold at least
    [totalCount] places and one page fewer would not; it is 0 exactly when
    nothing matches. [skip] is where the page starts, each page starting
    [pageSize] after the one before, and a page from 1 on starts inside
    the result exactly when its number is at most [totalPages]. The query
    is always restricted to the workspace, whatever the filters. *)
Theorem task_listing_pages :
  forall (Doc Date : Type) (parseDate : string -> Date)
    (find : TaskQuery Date -> Z -> Z -> list Doc)
    (count : TaskQuery Date -> Z)
    (workspaceId : string) (filters : TaskFilters) (pageSize pageNumber : Z),
    1 <= pageSize ->
    (forall query, 0 <= count query) ->
    let result :=
      getAllTasksService Doc Date parseDate find count workspaceId filters
        pageSize pageNumber in
    let page := result.2 in
    exists query pages,
      query_workspace query = workspaceId
      /\ result.1 = find query (page_skip page) pageSize
      /\ page_totalCount page = count query
      /\ page_skip page = (pageNumber - 1) * pageSize
      /\ page_skip
           (getAllTasksService Doc Date parseDate find count workspaceId
              filters pageSize (pageNumber + 1)).2
         = page_skip page + pageSize
      /\ page_totalPages page = Finite pages
      /\ (pages - 1) * pageSize < page_totalCount page <= pages * pageSize
      /\ (pages = 0 <-> page_totalCount page = 0)
      /\ (1 <= pageNumber ->
          (page_skip page < page_totalCount page <-> pageNumber <= pages)).
Proof.
  intros Doc Date parseDate find count workspaceId filters pageSize
    pageNumber Hsize Hcount result page.
  unfold page, result, getAllTasksService. simpl.
  match goal with
  | |- context [count ?q] => set (query := q)
  end.
  destruct (ceilDiv_bounds (count query) pageSize Hsize)
    as (pages & Hpages & Hlow & Hhigh).
  specialize (Hcount query).
  exists query, pages.
  split; [reflexivity|]. split; [reflexivity|]. split; [reflexivity|].
  split; [reflexivity|]. split; [lia|]. split; [exact Hpages|].
  split; [lia|]. split; [nia|]. intros Hpage. nia.
Qed.

(** * The worked example, through the further properties *)

Lemma example_running_t1 :
  tasks exampleRunningDb !! "t1" = Some exampleStartedTask.
Proof. vm_compute. reflexivity. Defined.

Lemma work_log_ledger_append_only_witness :
  stopTaskTimerService exampleRoles "t1" "alice" exampleBody 91000
    exampleRunningDb
  = (Return exampleStoppedTask, exampleStoppedDb)
  /\ exists log,
       workLogs exampleStoppedDb = workLogs exampleRunningDb ++ [log]
       /\ log_taskId log = "t1".
Proof.
  split; [exact example_stop|].
  exact (proj1 (proj1 (proj2 (work_log_ledger_append_only exampleRoles))
                  "t1" "alice" exampleBody 91000 exampleRunningDb
                  (Return exampleStoppedTask) exampleStoppedDb example_stop)
           exampleStoppedTask eq_refl).
Defined.

Lemma work_log_durations_at_least_one_witness :
  Forall (fun log => 1 <= log_durationMinutes log)
    (workLogs exampleRunningDb)
  /\ Forall (fun log => 1 <= log_durationMinutes log)
       (workLogs exampleStoppedDb).
Proof.
  assert (Forall (fun log => 1 <= log_durationMinutes log)
            (workLogs exampleRunningDb)) as Hbefore by constructor.
  split; [exact Hbefore|].
  exact (proj1 (proj2 (work_log_durations_at_least_one exampleRoles))
           "t1" "alice" exampleBody 91000 exampleRunningDb
           (Return exampleStoppedTask) exampleStoppedDb example_stop Hbefore).
Defined.

Lemma timer_totals_never_decrease_witness :
  (forall pages, body_pagesCompleted exampleBody = Some pages -> 0 <= pages)
  /\ exists after,
       tasks exampleStoppedDb !! "t1" = Some after
       /\ totalsGrow exampleStartedTask after.
Proof.
  assert (forall pages,
            body_pagesCompleted exampleBody = Some pages -> 0 <= pages)
    as Hpages.
  { intros pages H. injection H as <-. lia. }
  split; [exact Hpages|].
  exact (proj1 (proj1 (proj2 (timer_totals_never_decrease exampleRoles))
                  "t1" "alice" exampleBody 91000 exampleRunningDb
                  (Return exampleStoppedTask) exampleStoppedDb Hpages
                  example_stop)
           "t1" exampleStartedTask example_running_t1).
Defined.

Lemma start_then_stop_witness :
  exists before stopped log,
    tasks exampleDb !! "t1" = Some before
    /\ stopTaskTimerService exampleRoles "t1" "alice" exampleBody 91000
         exampleRunningDb
       = (Return stopped,
          {| tasks := <["t1" := stopped]> (tasks exampleRunningDb);
             workLogs := workLogs exampleDb ++ [log] |})
    /\ log_startedAt log = 1000
    /\ log_stoppedAt log = 91000
    /\ log_userId log = "alice"
    /\ isRunning stopped = false
    /\ activeStartAt stopped = None
    /\ firstStartedAt stopped = firstStartedAt exampleStartedTask
    /\ totalSecondsSpent stopped
       = Some (match totalSecondsSpent before with
               | Some s => s
               | None =>
                   match totalMinutesSpent before with
                   | Some m => m
                   | None => 0
                   end * 60
               end + Z.max 1 ((91000 - 1000) / 1000)).
Proof.
  exact (start_then_stop exampleRoles "t1" "alice" exampleBody 1000 91000
           exampleDb exampleStartedTask exampleRunningDb example_start).
Defined.

Lemma start_frame_and_restart_witness :
  exists started db2,
    startTaskTimerService exampleRoles "t1" "alice" 95000 exampleStoppedDb
    = (Return started, db2)
    /\ activeStartAt started = Some 95000
    /\ totalSecondsSpent started = totalSecondsSpent exampleStoppedTask
    /\ lastStoppedAt started = Some 91000.
Proof.
  exact (proj2 (start_frame_and_restart exampleRoles) "t1" "alice"
           exampleBody 91000 95000 exampleRunningDb exampleStoppedTask
           exampleStoppedDb example_stop).
Defined.

Lemma stop_minutes_within_one_witness :
  exists before startedAt log minutes,
    tasks exampleRunningDb !! "t1" = Some before
    /\ activeStartAt before = Some startedAt
    /\ workLogs exampleStoppedDb = workLogs exampleRunningDb ++ [log]
    /\ totalMinutesSpent exampleStoppedTask = Some minutes
    /\ let d := Z.max 1 ((91000 - startedAt) / 1000) in
       log_durationMinutes log = Z.max 1 (d / 60)
       /\ forall s, totalSecondsSpent before = Some s ->
            s / 60 + d / 60 <= minutes <= s / 60 + d / 60 + 1.
Proof.
  exact (proj1 (stop_minutes_within_one exampleRoles) "t1" "alice"
           exampleBody 91000 exampleRunningDb exampleStoppedTask
           exampleStoppedDb example_stop).
Defined.

Lemma stop_effect_witness :
  exists log,
    workLogs exampleStoppedDb = workLogs exampleRunningDb ++ [log]
    /\ log_userId log = "alice"
    /\ log_pagesCompleted log = body_pagesCompleted exampleBody
    /\ lastStoppedAt exampleStoppedTask = Some 91000.
Proof.
  destruct (stop_effect exampleRoles "t1" "alice" exampleBody 91000
              exampleRunningDb exampleStoppedTask exampleStoppedDb
              example_stop)
    as (before & startedAt & log & _ & _ & _ & Hlogs & Huser & _ & _
        & Hpages & _ & Hlast & _).
  exists log. auto.
Defined.

Lemma stopAll_scope_witness :
  exists db',
    stopAllRunningTaskTimersService exampleRoles "w1" "admin" 600000
      exampleRunningDb = (Return 2%nat, db')
    /\ exists newLogs,
         workLogs db' = workLogs exampleRunningDb ++ newLogs
         /\ Forall (fun log =>
                      log_pagesCompleted log = None
                      /\ log_remarks log = None
                      /\ log_stoppedAt log = 600000) newLogs.
Proof.
  destruct example_stopAll as [db' Hrun]. exists db'.
  split; [exact Hrun|].
  exact (proj2 (proj2 (stopAll_scope exampleRoles "w1" "admin" 600000
                         exampleRunningDb 2%nat db' Hrun))).
Defined.

Lemma stopAll_twice_witness :
  exists db',
    stopAllRunningTaskTimersService exampleRoles "w1" "admin" 600000
      exampleRunningDb = (Return 2%nat, db')
    /\ runningIn "w1" db' = []
    /\ stopAllRunningTaskTimersService exampleRoles "w1" "admin" 700000 db'
       = (Return 0%nat, db').
Proof.
  destruct example_stopAll as [db' Hrun]. exists db'.
  split; [exact Hrun|].
  destruct (stopAll_twice exampleRoles "w1" "admin" 600000 exampleRunningDb
              2%nat db' Hrun) as [Hnone Hagain].
  split; [exact Hnone|].
  exact (Hagain "admin" 700000 Roles.ADMIN eq_refl (or_intror eq_refl)).
Defined.

Lemma timer_error_precedence_witness :
  tasks exampleDb !! "t9" = None
  /\ startTaskTimerService exampleRoles "t9" "alice" 1000 exampleDb
     = (Throw (HttpException "Task not found." NOT_FOUND), exampleDb)
  /\ stopTaskTimerService exampleRoles "t9" "alice" exampleBody 1000
       exampleDb
     = (Throw (HttpException "Task not found." NOT_FOUND), exampleDb).
Proof.
  assert (tasks exampleDb !! "t9" = None) as Hnone
    by (vm_compute; reflexivity).
  split; [exact Hnone|].
  exact (proj1 (timer_error_precedence exampleRoles) "t9" "alice"
           exampleBody 1000 exampleDb Hnone).
Defined.

Lemma example_stuck_stop :
  exists o db',
    stopTaskTimerService exampleRoles "t3" "alice" exampleBody 5000
      exampleStuckDb = (o, db').
Proof. eexists _, _. vm_compute. reflexivity. Defined.

Lemma half_running_task_is_stuck_witness :
  isRunning exampleStuckTask = true
  /\ activeStartAt exampleStuckTask = None
  /\ tasks exampleStuckDb !! "t3" = Some exampleStuckTask
  /\ exists o db',
       stopTaskTimerService exampleRoles "t3" "alice" exampleBody 5000
         exampleStuckDb = (o, db')
       /\ (exists e, o = Throw e)
       /\ tasks db' !! "t3" = Some exampleStuckTask.
Proof.
  assert (tasks exampleStuckDb !! "t3" = Some exampleStuckTask) as Hfind
    by (vm_compute; reflexivity).
  split; [reflexivity|]. split; [reflexivity|]. split; [exact Hfind|].
  destruct example_stuck_stop as (o & db' & Hrun). exists o, db'.
  split; [exact Hrun|].
  destruct (half_running_task_is_stuck exampleRoles "t3" exampleStuckTask
              eq_refl eq_refl) as (_ & Hstop & _ & Hkept & _).
  split.
  - exact (Hstop "alice" exampleBody 5000 exampleStuckDb o db' Hfind Hrun).
  - exact (Hkept "t3" "alice" exampleBody 5000 exampleStuckDb o db' Hfind
             Hrun).
Defined.

Lemma deleteTask_effect_witness :
  tasks exampleDb !! "t1" = Some exampleIdleTask
  /\ workspace exampleIdleTask = "w1"
  /\ deleteTaskService "w1" "t1" exampleDb
     = (Return tt, {| tasks := delete "t1" (tasks exampleDb);
                      workLogs := workLogs exampleDb |}).
Proof.
  assert (tasks exampleDb !! "t1" = Some exampleIdleTask) as Hfind
    by (vm_compute; reflexivity).
  split; [exact Hfind|]. split; [reflexivity|].
  exact (proj1 (proj2 (deleteTask_effect exampleRoles) "w1" "t1" exampleDb
                  exampleIdleTask Hfind eq_refl)).
Defined.

Lemma example_root_ready :
  (mkdirFrom [] (path_join exampleStorageRoot exampleWorkspaceId)
     (disk exampleStorageWithNotes)).1 = Return tt.
Proof. vm_compute. reflexivity. Defined.

Lemma example_resolve_notes :
  resolveWorkspacePath (path_join exampleStorageRoot exampleWorkspaceId)
    "notes"
  = Return (exampleWorkspaceRoot ++ ["notes"]).
Proof. vm_compute. reflexivity. Defined.

Lemma example_ensure :
  exists o st',
    ensureWorkspaceRoot exampleStorageRoot exampleWorkspaceId exampleStorage
    = (o, st').
Proof. eexists _, _. vm_compute. reflexivity. Defined.

Lemma ensureWorkspaceRoot_effect_witness :
  exists o st',
    ensureWorkspaceRoot exampleStorageRoot exampleWorkspaceId exampleStorage
    = (o, st')
    /\ accessLogs st' = accessLogs exampleStorage
    /\ (forall q n, disk exampleStorage !! q = Some n ->
          disk st' !! q = Some n).
Proof.
  destruct example_ensure as (o & st' & Hrun). exists o, st'.
  split; [exact Hrun|].
  destruct (ensureWorkspaceRoot_effect exampleStorageRoot exampleWorkspaceId
              exampleStorage o st' Hrun) as (Hlogs & Hkeeps & _).
  split; [exact Hlogs|exact Hkeeps].
Defined.



Lemma example_delete :
  exists st',
    deleteWorkspaceItemService exampleStorageRoot resolveWorkspacePath
      exampleDirname exampleWorkspaceId exampleUserId "notes"
      exampleStorageWithNotes
    = (Return (folder, "notes"), st').
Proof. eexists. vm_compute. reflexivity. Defined.

Lemma delete_twice_witness :
  exists st',
    deleteWorkspaceItemService exampleStorageRoot resolveWorkspacePath
      exampleDirname exampleWorkspaceId exampleUserId "notes"
      exampleStorageWithNotes
    = (Return (folder, "notes"), st')
    /\ deleteWorkspaceItemService exampleStorageRoot resolveWorkspacePath
         exampleDirname exampleWorkspaceId exampleUserId "notes" st'
       = (Throw (HttpException "File or folder not found" NOT_FOUND), st').
Proof.
  destruct example_delete as [st' Hrun]. exists st'.
  split; [exact Hrun|].
  apply (delete_twice exampleStorageRoot resolveWorkspacePath exampleDirname
           exampleWorkspaceId exampleUserId "notes" exampleStorageWithNotes
           (folder, "notes") st' Hrun).
  intros targetAbs Hres. rewrite example_resolve_notes in Hres.
  injection Hres as <-. intros Hprefix. apply prefix_length in Hprefix.
  vm_compute in Hprefix. lia.
Defined.


Lemma example_upload :
  exists st',
    exampleUpload exampleStorageWithNotes = (Return [("a.txt", 3)], st').
Proof. eexists. vm_compute. reflexivity. Defined.

Lemma upload_effect_witness :
  exists st' targetAbs,
    exampleUpload exampleStorageWithNotes = (Return [("a.txt", 3)], st')
    /\ resolveWorkspacePath
         (path_join exampleStorageRoot exampleWorkspaceId)
         (default "" (Some "notes"))
       = Return targetAbs
    /\ lookupNode (disk st') targetAbs = Some Directory
    /\ length (accessLogs st')
       = (length (accessLogs exampleStorageWithNotes) + 1)%nat.
Proof.
  destruct example_upload as [st' Hrun].
  destruct (proj2 (upload_effect exampleStorageRoot resolveWorkspacePath
                     (fun name => name) exampleWorkspaceId exampleUserId
                     (Some "notes") [exampleFile] exampleStorageWithNotes)
              [("a.txt", 3)] st' Hrun)
    as (targetAbs & Hres & _ & Hlen & Hdir & _).
  exists st', targetAbs. auto.
Defined.

Lemma example_list :
  exists items st',
    listWorkspaceFilesService exampleStorageRoot resolveWorkspacePath
      exampleWorkspaceId exampleUserId None exampleStorageWithNotes
    = (Return ("", items), st').
Proof. eexists _, _. vm_compute. reflexivity. Defined.

Lemma list_effect_witness :
  exists items st',
    listWorkspaceFilesService exampleStorageRoot resolveWorkspacePath
      exampleWorkspaceId exampleUserId None exampleStorageWithNotes
    = (Return ("", items), st')
    /\ exists entry,
         accessLogs st' = accessLogs exampleStorageWithNotes ++ [entry]
         /\ access_action entry = ENTER
         /\ access_path entry = ".".
Proof.
  destruct example_list as (items & st' & Hrun). exists items, st'.
  split; [exact Hrun|].
  destruct (proj2 (proj2 (proj2
              (list_effect exampleStorageRoot resolveWorkspacePath
                 exampleWorkspaceId exampleUserId None
                 exampleStorageWithNotes)
              exampleWorkspaceRoot example_root_ready
              ltac:(vm_compute; reflexivity)))
              "" items st' Hrun)
    as (_ & _ & (entry & Hlogs & Haction & Hpath) & _).
  exists entry. auto.
Defined.

Lemma task_listing_pages_witness :
  let count := fun _ : TaskQuery Z => 25 in
  let find := fun (_ : TaskQuery Z) (_ _ : Z) => @nil string in
  1 <= 10
  /\ (forall query, 0 <= count query)
  /\ page_totalPages
       (getAllTasksService string Z (fun _ => 0) find count "w1"
          {| filter_projectId := None; filter_taskTypeCode := None;
             filter_status := Some []; filter_priority := None;
             filter_assignedTo := None; filter_keyword := Some "";
             filter_dueDate := None |} 10 2).2
     = Finite 3.
Proof.
  intros count find.
  assert (forall query, 0 <= count query) as Hcount
    by (intros query; unfold count; lia).
  split; [lia|]. split; [exact Hcount|].
  destruct (task_listing_pages string Z (fun _ => 0) find count "w1"
              {| filter_projectId := None; filter_taskTypeCode := None;
                 filter_status := Some []; filter_priority := None;
                 filter_assignedTo := None; filter_keyword := Some "";
                 filter_dueDate := None |} 10 2 ltac:(lia) Hcount)
    as (query & pages & _ & _ & Hcountq & _ & _ & Hpages & Hbounds & _).
  rewrite Hpages. f_equal. rewrite Hcountq in Hbounds.
  unfold count in Hbounds. lia.
Defined.
